(* ===== verification/_CoqProject ===== *)
-Q . S2P
Prelude.v
PyValue.v
PyStr.v
Outline.v
Pil.v
Palette.v
Layout.v
Render.v
Service.v
Slides.v
Pptx.v
Conformance.v
Refinement.v
Concurrency.v
Json.v
Client.v
FormData.v
Launchers.v
Decks.v
PptFiles.v
PptHttp.v
PptPages.v
