(* ===== verification/Prelude.v ===== *)
(** * A verification development of the mind-map generator of
      smart_course_and_AI_teacher

    The program (src/pages/create_mindmap/) turns an indented text outline
    into a PNG "mind map".  Its parts, leaf to root, and the files that
    model them:

    - [PyValue.v]  the Python values a request carries: JSON values
      (objects as association lists, the last binding of a key winning,
      as Python's [json]) with their truthiness, [str] of numbers and
      exceptions, and CPython's [dict.update(other)] on a dict with
      string keys, for any [other]: a dict is merged, a string or a list
      is read as a sequence of pairs whose elements must be pairs with a
      hashable key, and the writes made before a failing element stay.
    - [PyStr.v]  the Python string primitives the parser relies on:
      [str.strip], [str.split('\n')], [str.startswith] and the regular
      expression [re.sub(r'^[-*•]\s*', '', line)], over strings as lists
      of Unicode code points, with Python's exact whitespace table.
    - [Outline.v]  the outline parser [MindMapGenerator.parse_content]
      (mindmap_service.py 68-104) and [generate_mind_map_data]
      (106-127): the node dictionaries become the record [node] (a rose
      tree), uuid4 is modelled by a counter threaded through the parse.
    - [Pil.v]  the interface to Pillow that the renderer consumes, as the
      type class [PIL]: fonts ([ImageFont.truetype], [load_default]),
      text metrics ([draw.textbbox]) and colours: a colour is whatever
      value the palette holds, a string being parsed by
      [ImageColor.getrgb] (raising [ValueError]) and any other value
      going to Pillow's [getink] ([ink_value]); a draw call of the code
      is a [draw_call], and [paint] executes a list of them onto a
      canvas, raising at the first colour Pillow rejects.
    - [Palette.v]  the theme table [MindMapGenerator.default_colors]
      (35-66) as a [gmap] of palettes, each a [gmap] from string keys to
      JSON values, and the palette resolution of [create_mind_map_image]
      (133-138), including the in-place [colors.update(style)] on the
      shared table, for a style of any type.
    - [Layout.v]  [_draw_node] (326-348), the four layout methods
      (194-324) and their dispatcher [_draw_nodes] (177-192), as
      functions from a node list to the list of draw calls they make.
    - [Render.v]  [create_mind_map_image] (129-175) and
      [MindMapGenerator.__init__] (21-66): the generator state, font
      selection with its fallback, title, description and layout.
    - [Service.v]  [MindMapService.generate_mindmap] and
      [download_mindmap] (350-416), with Python's exception handling as
      values of [result] ([download_mindmap] re-raising every exception
      as [Exception("图片生成失败: " + str(e))]), and the Flask handlers of app.py
      (generate, preview, download, themes, layouts); the server's
      sequence of requests is the step relation [Service.step].
    - [Slides.v]  the slide-deck service src/server/ppt_service_simple.py:
      [create_simple_ppt] (32-124) as the list of slides it adds, in
      Module [SimpleDeck], with the saving step [generate_ppt_simple]
      (126-173) and the endpoint [generate_ppt] (175-233) in a Section
      over the abstract [save] (python-pptx's [prs.save] plus the size
      and ZIP-header checks); Modules [SimpleDeckFacts] and [DecimalFacts]
      hold its theorems.

    - [Pptx.v]  the behaviour of python-pptx the two other deck services
      rely on: text frames as lists of formatted paragraphs, the
      [.text] setter that splits on newlines, settings of
      [paragraphs[0]], [clear()], and the slide size in EMU.
    - [Conformance.v]  promises of the design document checked against
      the whole renderer: only the four palette colours reach the image,
      and the design's own example outline run through the service.
    - [Decks.v]  src/server/ppt_service.py (Module [TemplatedDeck]:
      [create_title_slide], [create_toc_slide], [create_content_slide],
      [create_summary_slide], [generate_ppt_from_content] and the
      endpoint, with the Jinja environment and [save] as parameters) and
      src/server/ppt_service_pptx.py (Module [EditableDeck]:
      [create_editable_ppt], [generate_ppt_with_pptx] and the endpoint).
    - [Refinement.v]  the contract of the shared theme table: an abstract
      log of palette overrides whose replay is the table, the abstract
      step (stutter or one override of a listed theme), the forward
      simulation of the server's steps, and the recovery of a poisoned
      theme by one request.
    - [Concurrency.v]  the threaded server (app.run(threaded=True)):
      [create_mind_map_image] cut into its atomic steps (select the
      palette dict, update it with the style, read it at each drawing
      phase), a thread per request, the shared table with the list of
      threads as the system state, the scheduler as the step relation
      [sys_step] and as an executable schedule [run_schedule]; a
      request whose update raises ends there, its writes made.
    - [Json.v]  a schema checker [has_type] for the JSON values of
      [PyValue.v], the diagram dictionary of [generate_mind_map_data] as
      JSON and its decoding.
    - [Client.v]  the server over the wire: [request.get_json()] read
      into a request, the [jsonify] bodies of the handlers
      (mindmap_service.py 379-391, app.py), the download endpoint on a
      JSON body, the health route, and the debug client debug_api.py
      ([test_health_check], [test_generate_api], [test_download_api],
      [main]) run against the server in-process.
    - [FormData.v]  the form-data branch of the generate and preview
      handlers: [request.form.to_dict()] (the first value of each field)
      read into a request, which then runs through the same handlers as a
      JSON body, its [style] a string.
    - [Launchers.v]  the start scripts start_simple_service.py,
      start_service.py and start_ppt_service.py (Modules
      [SimpleLauncher], [MindmapLauncher], [PptLauncher]) over an
      explicit host record: interpreter version, [pip], importable
      modules, installable packages, directories; a script ends serving,
      returning, raising or exiting.
    - [PptFiles.v]  the file side of the three PPT services on a disk
      (the host's directories and the files by path): the output
      folders and [ensure_directories], the file the generate endpoints
      save, the download routes and the health routes; [posixpath.join]
      and Werkzeug's one-segment route converter are written out.
    - [PptHttp.v]  the HTTP side of the PPT services: [request.json]
      (raising on a body that is not JSON and, in ppt_service.py, on one
      over [MAX_CONTENT_LENGTH]), the JSON body read into the request
      records with the handlers' tests ([not data], ['title' in data],
      [data.get('content', {})], ...), the [jsonify] answers and status
      codes, the three [generate_ppt] handlers on a body
      ([simple_http_generate], [tpl_http_generate],
      [pptx_http_generate]) with the exceptions their [except Exception]
      turns into 500s, and the router of each service ([ppt_dispatch]).
    - [PptPages.v]  the three index pages as their literal text, the
      endpoints and the example request they document (read with a JSON
      reader for the subset the pages use), the [__main__] blocks and the
      Jinja environment each module creates at import.

    State.  The only state that survives a request is the generator's
    theme table: [create_mind_map_image] takes the palette dictionary out
    of [default_colors] by reference and updates it with the caller's
    style, so an override made by one request is seen by every later
    request.  [Render.v] and [Service.v] thread that table explicitly; a
    request is a function [service -> service * response], and
    [Service.reachable] is the closure of the request steps.

    Errors.  Python exceptions are values [Err e] of [result] (this
    file); a mutation made before an exception is kept, as in Python, so
    the failing operations return the new state next to the error.

    Plan and theorem groups (C-ids are in PROJECT.json):
    - parser: the parse keeps exactly the non-blank lines, in order, as
      level-0 nodes without children (the indentation test runs after
      [strip]) with fresh ids;
    - data: the diagram wraps the outline in one level -1 centre node,
      the tree is well formed (levels step by one), node_count;
    - layout: edges and circles drawn by each policy, positions of
      children (radial on the diagonal, horizontal child on the parent,
      tree offsets not centred for even counts), circle radius bounds and
      monotonicity, dispatcher fallback to vertical;
    - renderer: only the centre node of a generated diagram is drawn;
      the theme-table invariant is preserved by every request; what a
      style writes leaks to later requests, also when the update raises
      part-way; a bad colour (a string Pillow cannot parse, or a list a
      style stored) poisons a theme;
    - service and HTTP: validation status codes, success and failure
      responses; every error a reachable service raises comes from the
      style update or from a colour of the table, never a [KeyError];
      the writes of a failed update persist; a download without a title
      answers the re-raised [Exception("图片生成失败: 'title'")];
    - slides: the number of slides of a deck, the contents slide lost to a
      section that is not an object, the file returned only after a
      successful save, section numbers printed and read back;
    - design conformance: unknown style keys and unknown themes, the
      centring of the title and of the node labels, the design's example;
    - the other decks: when the templated deck can be built, the
      template's output discarded, the slide size short of 16:9, the
      formatting that reaches only the first paragraph, the request that
      fails on a section that is not an object;
    - refinement and liveness: every server step refines a stutter or an
      override of the abstract log, and every override of the log is
      realised by one request, so the log is exactly what the server can
      do; a poisoned theme is repaired by one request with a good style;
    - concurrency: a request running alone is [create_mind_map_image];
      requests without a style are race-free under every interleaving
      (an invariant by rule induction on [sys_step]); for any two styled
      requests on one theme, the torn schedule makes the first request
      read the second one's colours at every later drawing phase
      ([torn_reads]), and on the sample requests the torn image is
      neither sequential outcome ([torn_image]), against the spec's
      promise of no shared mutable state;
    - the wire: a 200 generate answer has the success schema; its [data]
      posted back to the download endpoint decodes to the same diagram
      and renders the same image; the debug client's download test always
      fails, since it posts the whole response;
    - forms: a form with a style fails generate and preview with the
      [ValueError] [dict.update] raises on a string, leaving the
      generator as it was;
    - launchers: the simple launcher crashes when an install fails; the
      other two check too few modules (no [flask_cors]); with the
      dependencies at hand each script serves;
    - files: the download URL of a deck any of the three PPT services
      reports saved routes to that service's download handler, which
      serves the file saved (for the templated one, of the size the
      answer reports);
    - the PPT services over HTTP: every answer of the generate endpoints
      is a 200 of the success shape or a 400/500 of the error shape; the
      16 MiB limit of ppt_service.py answers 500, not 413; the download
      link of a 200 answer, followed through the router, serves the file;
      the index pages name only routed endpoints and their example
      requests pass validation; the simple service starts without its
      output folder and then fails every request, where ppt_service.py
      stops at startup.

    Each theorem with a hypothesis has a [_witness] lemma next to it that
    applies it to a concrete request, evaluated with the [stub_pil]
    instance of [Pil.v].

    Modelling choices.  Pixel coordinates are [Z].  The radial layout's
    float expression [int(radius*3.14159*2*angle/(2*3.14159))] is
    computed with exact rationals and truncation ([Layout.radial_offset]);
    it agrees with IEEE doubles except where the exact value is within one
    ulp of an integer, and the theorems about it use only that the x and
    y offsets are the same expression and that index 0 gives 0.  Pillow
    is an interface (no pixel raster, no PNG or base64 encoding); a
    concrete instance in [Pil.v] serves the witnesses.  uuid4 and
    [datetime.now] are inputs.  Fuel: [Slides.decimal_aux] (printing a
    section number) gets [n + 1] steps from [decimal n], and each step
    divides by ten, so it never runs out; [PptPages.read_value] (the JSON
    reader of the index pages' examples) gets twice the text's length
    plus two, since of two nested calls one reads a character.  Every
    other function is structural on lists, on JSON values and on the
    node tree.
    A palette keeps the entries under string keys: a style list can
    also store a value under a key that is not a string ([None], a bool
    or an int), which nothing in the service reads back, so the model
    drops it.  Notation: [d .[ k ]] is Python's [d[k]] ([getitem],
    raising [KeyError]), in [mindmap_scope].

    Not modelled: PNG/base64 encoding (library; the base64 text is a
    parameter of [Client.v]), logging and printing, the JSON text syntax
    of request bodies (the model starts from parsed values; only the
    index pages' examples are read from text), the download handler on
    a form body (the renderer would index the form's [nodes] string,
    which the typed node list of the model does not represent; every
    such request answers 400 or 500), the mind-map index page
    (it renders templates/index.html, which the repository does not
    contain), HEAD and OPTIONS requests, the network transport of
    [requests] (the client calls the handlers directly), and the host
    effects of the start scripts beyond the record they are modelled on
    (the child process and the Flask server run).  Jinja templates (the
    repository ships no [templates] folder) and python-pptx's file
    writing are parameters of the deck services, not models.  The deck services' request records keep
    what the code distinguishes: a section is an object (with or without
    each key) or anything else.  In [Client.v] and [PptHttp.v] a key of
    another type than the code goes on to use (or [null]) is outside the
    model: the decoders answer [None]; the mind-map [style] is taken as
    whatever value the body holds.
    A node's uuid travels as the decimal string of its counter value. *)

From stdpp Require Export base list gmap strings.
From Stdlib Require Export ZArith Lia.
From Stdlib Require Ascii String.

Declare Scope mindmap_scope.
Delimit Scope mindmap_scope with mm.
Open Scope mindmap_scope.

(** ** Python strings: lists of Unicode code points *)

Definition pystr := list Z.

(** An ASCII literal as a Python string. *)
Definition lit (s : String.string) : pystr :=
  map (fun a => Z.of_N (Ascii.N_of_ascii a)) (String.list_ascii_of_string s).


(** ** Python exceptions as values *)

Inductive py_exc :=
| KeyError (key : pystr)
| ValueError (what : pystr)
| OSError (what : pystr)
| TypeError (what : pystr)
| AttributeError (what : pystr)
| Exception (what : pystr).

Inductive result (A : Type) :=
| Ok (a : A)
| Err (e : py_exc).
Arguments Ok {A} a.
Arguments Err {A} e.

Definition rbind {A B} (r : result A) (f : A -> result B) : result B :=
  match r with Ok a => f a | Err e => Err e end.

(** stdpp's monad notation [x ← r; k] on [result]. *)
#[export] Instance result_ret : MRet result := @Ok.
#[export] Instance result_bind : MBind result := fun A B f r => rbind r f.

(** [d[k]] on a Python dict. *)
Definition getitem {V} (d : gmap pystr V) (k : pystr) : result V :=
  match d !! k with Some v => Ok v | None => Err (KeyError k) end.

(** Python's subscription [d[k]]. *)
Notation "d .[ k ]" := (getitem d k) (at level 1, left associativity, format "d .[ k ]")
  : mindmap_scope.

(** [d.get(k, default)]. *)
Definition get_default {V} (o : option V) (dflt : V) : V :=
  match o with Some v => v | None => dflt end.

Definition is_ok {A} (r : result A) : bool :=
  match r with Ok _ => true | Err _ => false end.

(** ** Tactics and hints shared by the components *)

Create HintDb mindmap.
Create Rewrite HintDb mindmap_rw.

Ltac invc H := inversion H; subst; clear H.

(** Unfold the monad notation of [result]. *)
Ltac unfold_bind := unfold mbind, result_bind, rbind in *.

(** Destruct the [result] scrutinees of the goal and hypotheses. *)
Ltac case_results :=
  repeat match goal with
  | |- context [match ?r with Ok _ => _ | Err _ => _ end] => destruct r eqn:?
  | H : context [match ?r with Ok _ => _ | Err _ => _ end] |- _ => destruct r eqn:?
  end.

(** Decide by evaluation the [bool_decide]s of the goal on closed
    propositions, such as equalities of and memberships among literal
    keys. *)
Ltac lit_decide :=
  repeat match goal with
  | |- context [bool_decide ?P] =>
      let E := fresh "E" in
      first [ destruct (bool_decide P) eqn:E; vm_compute in E; [clear E|discriminate E]
            | destruct (bool_decide P) eqn:E; vm_compute in E; [discriminate E|clear E] ]
  end.

Lemma rbind_ok {A B} (r : result A) (f : A -> result B) b :
  rbind r f = Ok b <-> exists a, r = Ok a /\ f a = Ok b.
Proof.
  destruct r as [a|e]; simpl; split.
  - eauto.
  - intros (a' & [= ->] & H). exact H.
  - discriminate.
  - intros (a' & H & _). discriminate.
Qed.

Lemma rbind_err {A B} (e : py_exc) (f : A -> result B) :
  rbind (Err e) f = Err e.
Proof. reflexivity. Qed.

Lemma getitem_ok {V} (d : gmap pystr V) k v : d !! k = Some v -> getitem d k = Ok v.
Proof. unfold getitem. by intros ->. Qed.

#[export] Hint Rewrite @rbind_err : mindmap_rw.
#[export] Hint Resolve getitem_ok : mindmap.

(** ** Generic lemmas on lists *)

(** Sum of a list of naturals. *)
Definition sum_list (l : list nat) : nat := foldr Nat.add 0 l.

Lemma sum_list_app l1 l2 : sum_list (l1 ++ l2) = sum_list l1 + sum_list l2.
Proof. induction l1; simpl; lia. Qed.

Lemma length_filter_le {A} (P : A -> Prop) `{forall x, Decision (P x)} (l : list A) :
  length (filter P l) <= length l.
Proof.
  induction l as [|a l IH]; simpl; [lia|].
  rewrite filter_cons. case_decide; simpl; lia.
Qed.

(** Counting the elements of a list that satisfy a boolean test. *)
Definition countb {A} (p : A -> bool) (l : list A) : nat :=
  length (List.filter p l).

Lemma countb_app {A} (p : A -> bool) l1 l2 :
  countb p (l1 ++ l2) = countb p l1 + countb p l2.
Proof. unfold countb. by rewrite List.filter_app, length_app. Qed.

Lemma countb_cons {A} (p : A -> bool) a l :
  countb p (a :: l) = (if p a then 1 else 0) + countb p l.
Proof. unfold countb. simpl. by destruct (p a). Qed.

Lemma countb_nil {A} (p : A -> bool) : countb p [] = 0.
Proof. reflexivity. Qed.

#[export] Hint Rewrite @countb_app @countb_cons @countb_nil @sum_list_app : mindmap_rw.
