(* ===== verification/PyValue.v ===== *)
(** Python values as the mind-map service receives them: the JSON values
    [request.get_json()] yields (objects as association lists, Python's
    [json] keeping the last of duplicated keys), their truthiness,
    [str(i)] of a natural number, [str(e)] of the exceptions the service
    reports, and [dict.update(other)] on a dictionary with string keys
    (CPython's [dict_update_arg] and [PyDict_MergeFromSeq2]), which is what
    [colors.update(style)] (mindmap_service.py 137-138) runs on whatever
    value the request's [style] holds. *)

From S2P Require Import Prelude.
Local Open Scope Z_scope.

Unset Elimination Schemes.
Inductive json :=
| JNull
| JBool (b : bool)
| JInt (z : Z)
| JStr (s : pystr)
| JArr (l : list json)
| JObj (fields : list (pystr * json)).
Set Elimination Schemes.

(** Induction with the hypothesis on every element and every field. *)
Section json_ind.
Variable P : json -> Prop.
Hypotheses (Hnull : P JNull) (Hbool : forall b, P (JBool b)) (Hint : forall z, P (JInt z))
  (Hstr : forall s, P (JStr s)) (Harr : forall l, Forall P l -> P (JArr l))
  (Hobj : forall fs, Forall (fun kv => P kv.2) fs -> P (JObj fs)).

Fixpoint json_ind (j : json) : P j :=
  match j with
  | JNull => Hnull
  | JBool b => Hbool b
  | JInt z => Hint z
  | JStr s => Hstr s
  | JArr l => Harr l ((fix go (l : list json) : Forall P l :=
                        match l with [] => Forall_nil_2 _ | x :: r => Forall_cons_2 _ _ _ (json_ind x) (go r) end) l)
  | JObj fs => Hobj fs ((fix go (fs : list (pystr * json)) : Forall (fun kv => P kv.2) fs :=
                          match fs with
                          | [] => Forall_nil_2 _
                          | kv :: r => Forall_cons_2 _ _ _ (json_ind kv.2) (go r)
                          end) fs)
  end.
End json_ind.

(** Structural equality of values, as a boolean test. *)
Fixpoint json_eqb (x y : json) : bool :=
  match x, y with
  | JNull, JNull => true
  | JBool a, JBool b => bool_decide (a = b)
  | JInt a, JInt b => bool_decide (a = b)
  | JStr a, JStr b => bool_decide (a = b)
  | JArr l1, JArr l2 =>
      (fix go (l1 l2 : list json) : bool :=
         match l1, l2 with
         | [], [] => true
         | a :: r, b :: s => json_eqb a b && go r s
         | _, _ => false
         end) l1 l2
  | JObj f1, JObj f2 =>
      (fix go (f1 f2 : list (pystr * json)) : bool :=
         match f1, f2 with
         | [], [] => true
         | (k, a) :: r, (k', b) :: s => bool_decide (k = k') && json_eqb a b && go r s
         | _, _ => false
         end) f1 f2
  | _, _ => false
  end.

Lemma json_eqb_spec x : forall y, json_eqb x y = true <-> x = y.
Proof.
  induction x as [| | | |l Hl|fs Hfs] using json_ind; intros [| | | |l'|fs']; cbn [json_eqb];
    rewrite ?bool_decide_eq_true; try (split; congruence).
  - revert l'. induction Hl as [|a l Ha Hl IH]; intros [|b l']; try (split; congruence).
    rewrite andb_true_iff, Ha, (IH l'). split; [intros [-> [= ->]]; done|intros [= -> ->]; done].
  - revert fs'. induction Hfs as [|[k a] fs Ha Hfs IH]; intros [|[k' b] fs']; try (split; congruence).
    cbn [snd] in Ha. rewrite !andb_true_iff, bool_decide_eq_true, Ha, (IH fs').
    split; [intros [[-> ->] [= ->]]; done|intros [= -> -> ->]; done].
Qed.

#[global] Instance json_eq_dec : EqDecision json.
Proof.
  intros x y. destruct (json_eqb x y) eqn:E.
  - left. by apply json_eqb_spec.
  - right. intros <-. assert (json_eqb x x = true) as Hx by (by apply json_eqb_spec). congruence.
Defined.

(** [obj[k]] / [obj.get(k)]: the last binding of [k]. *)
Definition jget (k : pystr) (fs : list (pystr * json)) : option json :=
  fold_left (fun acc kv => if bool_decide (kv.1 = k) then Some kv.2 else acc) fs None.

(** Python truthiness of [obj.get(k)]. *)
Definition jtruthy (o : option json) : bool :=
  match o with
  | None | Some JNull | Some (JBool false) | Some (JInt 0) | Some (JStr []) | Some (JArr [])
  | Some (JObj []) => false
  | Some _ => true
  end.

(** [list(obj)]: the keys of the dict an object is read into, in the
    order of their first occurrence. *)
Definition dict_keys (fs : list (pystr * json)) : list pystr :=
  foldl (fun ks kv => if bool_decide (kv.1 ∈ ks) then ks else ks ++ [kv.1]) [] fs.

(** ** [str] of numbers and exceptions *)

(** [str(i)] for a natural number: decimal digits, most significant
    first.  The fuel [S n] is enough because each step divides by ten. *)
Fixpoint decimal_aux (fuel n : nat) (acc : pystr) : pystr :=
  match fuel with
  | O => acc
  | S fuel' =>
      let acc' := (48 + Z.of_nat (n mod 10)) :: acc in
      if Nat.ltb n 10 then acc' else decimal_aux fuel' (n / 10) acc'
  end.

Definition decimal (n : nat) : pystr := decimal_aux (S n) n [].

(** [str(e)].  A [KeyError] prints the [repr] of its key: the key in
    single quotes, for the keys the service looks up (literals without
    quotes or backslashes). *)
Definition str_exc (e : py_exc) : pystr :=
  match e with
  | KeyError k => [39] ++ k ++ [39]
  | ValueError s | OSError s | TypeError s | AttributeError s | Exception s => s
  end.

(** ** [dict.update(other)] *)

(** The name [type(v).__name__] of a value. *)
Definition type_name (v : json) : pystr :=
  match v with
  | JNull => lit "NoneType"
  | JBool _ => lit "bool"
  | JInt _ => lit "int"
  | JStr _ => lit "str"
  | JArr _ => lit "list"
  | JObj _ => lit "dict"
  end.

Definition msg_not_iterable (v : json) : pystr := [39] ++ type_name v ++ lit "' object is not iterable".

Definition msg_cannot_convert (i : nat) : pystr :=
  lit "cannot convert dictionary update sequence element #" ++ decimal i ++ lit " to a sequence".

Definition msg_bad_length (i n : nat) : pystr :=
  lit "dictionary update sequence element #" ++ decimal i ++ lit " has length " ++ decimal n ++
  lit "; 2 is required".

Definition msg_unhashable (v : json) : pystr := lit "unhashable type: '" ++ type_name v ++ [39].

(** [PySequence_Fast(item)]: the elements of a string (its characters,
    each a string of length one), of a list, and of a dict (its keys);
    [None] for a value that is not iterable. *)
Definition seq_items (v : json) : option (list json) :=
  match v with
  | JStr s => Some (map (fun c => JStr [c]) s)
  | JArr l => Some l
  | JObj fs => Some (map JStr (dict_keys fs))
  | _ => None
  end.

(** A key of [PyDict_SetItem]: a string key is stored, a list or a dict
    raises [TypeError]; another hashable key ([None], a bool or an int) is
    stored under a key that is not a string, which nothing in the service
    reads back (the palette is only indexed with string keys and never
    iterated), so the model does not keep it. *)
Definition dict_key (k : json) : py_exc + option pystr :=
  match k with
  | JStr s => inr (Some s)
  | JArr _ | JObj _ => inl (TypeError (msg_unhashable k))
  | _ => inr None
  end.

(** Element [i] of the sequence: the exception it raises, or the write
    it makes ([None] for a key the model does not keep). *)
Definition merge_item (i : nat) (item : json) : py_exc + option (pystr * json) :=
  match seq_items item with
  | None => inl (TypeError (msg_cannot_convert i))
  | Some [k; v] =>
      match dict_key k with
      | inl e => inl e
      | inr ko => inr ((fun s => (s, v)) <$> ko)
      end
  | Some l => inl (ValueError (msg_bad_length i (length l)))
  end.

(** [PyDict_MergeFromSeq2(d, seq, 1)] from element [i] on: the writes it
    makes in order, and the exception that stops it, if one does.  The
    writes before the failing element have been made. *)
Fixpoint merge_seq (i : nat) (items : list json) : list (pystr * json) * option py_exc :=
  match items with
  | [] => ([], None)
  | item :: rest =>
      match merge_item i item with
      | inl e => ([], Some e)
      | inr o => let '(ws, e) := merge_seq (S i) rest in (option_list o ++ ws, e)
      end
  end.

(** A key/value pair as a two-element list. *)
Definition pair_json (kv : pystr * json) : json := JArr [JStr kv.1; kv.2].

(** [d.update(other)] as a list of writes and an exception: a dict is
    merged key by key (its later bindings winning, as the dict [json]
    builds keeps them); anything else is iterated as a sequence of pairs. *)
Definition update_writes (other : json) : list (pystr * json) * option py_exc :=
  match other with
  | JObj fs => (fs, None)
  | JStr _ | JArr _ => merge_seq 0 (default [] (seq_items other))
  | _ => ([], Some (TypeError (msg_not_iterable other)))
  end.

(** The writes performed on a dict, in order. *)
Definition write_all {V} (ws : list (pystr * V)) (d : gmap pystr V) : gmap pystr V :=
  foldl (fun m kv => <[kv.1 := kv.2]> m) d ws.

(** The entries the writes leave, the later winning. *)
Definition writes_map {V} (ws : list (pystr * V)) : gmap pystr V := write_all ws ∅.

(** ** Lemmas *)

(** The writes land over the dict as a left-biased union. *)
Lemma write_all_union {V} (ws : list (pystr * V)) (d : gmap pystr V) :
  write_all ws d = writes_map ws ∪ d.
Proof.
  unfold writes_map, write_all. revert d. induction ws as [|[k v] ws IH] using rev_ind; intros d.
  - cbn [foldl]. by rewrite (left_id_L ∅ (∪)).
  - rewrite !foldl_app. cbn [foldl fst snd]. rewrite IH, (IH ∅), (right_id_L ∅ (∪)).
    by rewrite insert_union_l.
Qed.

(** A string of more than one character, or of one, is never a
    sequence of pairs: its first element has length one. *)
Lemma update_writes_str c s :
  update_writes (JStr (c :: s)) = ([], Some (ValueError (msg_bad_length 0 1))).
Proof. reflexivity. Qed.

(** The writes of a list in reverse build the map of the list. *)
Lemma writes_map_reverse {V} (ws : list (pystr * V)) : writes_map (reverse ws) = list_to_map ws.
Proof.
  unfold writes_map, write_all. induction ws as [|[k v] ws IH]; [done|].
  rewrite reverse_cons, foldl_app. cbn [foldl fst snd list_to_map foldr]. by rewrite IH.
Qed.

(** Writing out the entries of a dict rebuilds it. *)
Lemma writes_map_to_list {V} (m : gmap pystr V) : writes_map (map_to_list m) = m.
Proof.
  rewrite <-(reverse_involutive (map_to_list m)), writes_map_reverse.
  rewrite (list_to_map_proper (reverse (map_to_list m)) (map_to_list m)).
  - apply list_to_map_to_list.
  - rewrite reverse_Permutation. apply NoDup_fst_map_to_list.
  - apply reverse_Permutation.
Qed.

(** A sequence of pairs followed by an element that is not one: the
    pairs are written, and the element's exception stops the update. *)
Lemma merge_seq_prefix i ws bad rest e :
  merge_item (i + length ws) bad = inl e ->
  merge_seq i (map pair_json ws ++ bad :: rest) = (ws, Some e).
Proof.
  revert i. induction ws as [|[k v] ws IH]; intros i Hbad.
  - cbn [map app merge_seq]. rewrite Nat.add_0_r in Hbad. by rewrite Hbad.
  - cbn [map app merge_seq]. rewrite IH; [reflexivity|].
    cbn [length] in Hbad. by replace (S i + length ws)%nat with (i + S (length ws))%nat by lia.
Qed.

#[export] Hint Rewrite @write_all_union : mindmap_rw.
