(* ===== verification/PyStr.v ===== *)
(** Python [str] primitives used by [MindMapGenerator.parse_content]:
    [strip] with CPython's whitespace table, [split('\n')], [startswith],
    and the substitution [re.sub(r'^[-*•]\s*', '', line)].  A Python
    string is a list of code points ([Prelude.pystr]). *)

From S2P Require Import Prelude.
Local Open Scope Z_scope.

(** ** Whitespace

    [Py_UNICODE_ISSPACE]: the characters [str.strip()] removes and the
    class [\s] of a [str] regular expression matches. *)
Definition is_space (c : Z) : bool :=
  ((9 <=? c) && (c <=? 13)) || ((28 <=? c) && (c <=? 32))
  || (c =? 133) || (c =? 160) || (c =? 5760)
  || ((8192 <=? c) && (c <=? 8202))
  || (c =? 8232) || (c =? 8233) || (c =? 8239) || (c =? 8287)
  || (c =? 12288).

Definition TAB : Z := 9.
Definition NEWLINE : Z := 10.
Definition SPACE : Z := 32.

(** [s.lstrip()] *)
Fixpoint lstrip (s : pystr) : pystr :=
  match s with
  | [] => []
  | c :: s' => if is_space c then lstrip s' else s
  end.

(** [s.rstrip()] *)
Definition rstrip (s : pystr) : pystr := rev (lstrip (rev s)).

(** [s.strip()] *)
Definition strip (s : pystr) : pystr := rstrip (lstrip s).

(** [s.split(chr(sep))]: always at least one piece. *)
Fixpoint split_on (sep : Z) (s : pystr) : list pystr :=
  match s with
  | [] => [[]]
  | c :: s' =>
      if c =? sep then [] :: split_on sep s'
      else match split_on sep s' with
           | h :: t => (c :: h) :: t
           | [] => [[c]]
           end
  end.

(** [s.startswith(p)] *)
Fixpoint startswith (s p : pystr) : bool :=
  match p, s with
  | [], _ => true
  | c :: p', d :: s' => (c =? d) && startswith s' p'
  | _ :: _, [] => false
  end.

(** The bullet class [[-*•]] of the pattern. *)
Definition is_bullet (c : Z) : bool := (c =? 45) || (c =? 42) || (c =? 8226).

(** [re.sub(r'^[-*•]\s*', '', s)]: the pattern is anchored at the start of
    the string (no MULTILINE), so it matches at most once. *)
Definition strip_bullet (s : pystr) : pystr :=
  match s with
  | c :: s' => if is_bullet c then lstrip s' else s
  | [] => []
  end.

(** ** Lemmas *)

(** The head of a list, as a test on its first character. *)
Definition head_is (p : Z -> bool) (s : pystr) : bool :=
  match s with c :: _ => p c | [] => false end.

Lemma lstrip_head s : head_is is_space (lstrip s) = false.
Proof. induction s as [|c s IH]; simpl; [done|]. by destruct (is_space c) eqn:E; simpl. Qed.

Lemma lstrip_suffix s : exists p, s = p ++ lstrip s /\ Forall (fun c => is_space c = true) p.
Proof.
  induction s as [|c s (p & Hp & Hs)]; simpl; [by exists []|].
  destruct (is_space c) eqn:E.
  - exists (c :: p). split; [by rewrite Hp at 1|by constructor].
  - by exists [].
Qed.

Lemma lstrip_app_l l r :
  head_is is_space (l ++ r) = false -> l <> [] -> lstrip (l ++ r) = l ++ r.
Proof. destruct l as [|c l]; simpl; [done|]. by intros -> _. Qed.

Lemma lstrip_app_nonspace l c :
  is_space c = false ->
  lstrip (l ++ [c]) = lstrip l ++ [c] \/ (lstrip l = [] /\ lstrip (l ++ [c]) = [c]).
Proof.
  intros Hc. induction l as [|d l IH]; simpl.
  - rewrite Hc. by right.
  - destruct (is_space d) eqn:E; [exact IH|by left].
Qed.

(** [rstrip] keeps a first character that is not whitespace. *)
Lemma rstrip_cons_nonspace c s :
  is_space c = false -> rstrip (c :: s) = c :: rstrip s.
Proof.
  intros Hc. unfold rstrip. simpl.
  destruct (lstrip_app_nonspace (rev s) c Hc) as [-> | [H ->]].
  - by rewrite rev_app_distr.
  - by rewrite H.
Qed.

(** After [strip] a string never starts with whitespace. *)
Lemma strip_head s : head_is is_space (strip s) = false.
Proof.
  unfold strip. pose proof (lstrip_head s) as H.
  destruct (lstrip s) as [|c t]; [done|]. simpl in H.
  by rewrite rstrip_cons_nonspace.
Qed.

Lemma startswith_space_head s p :
  head_is is_space p = true -> startswith s p = true -> head_is is_space s = true.
Proof.
  destruct p as [|c p], s as [|d s]; simpl; try done.
  intros Hc [Hcd _]%andb_true_iff. apply Z.eqb_eq in Hcd. by subst.
Qed.

(** Hence no stripped line starts with two spaces or a tab: the test the
    parser uses for indentation is always false on it. *)
Lemma strip_not_indented s p :
  head_is is_space p = true -> startswith (strip s) p = false.
Proof.
  intros Hp. destruct (startswith (strip s) p) eqn:E; [|done].
  pose proof (startswith_space_head _ _ Hp E). by rewrite strip_head in *.
Qed.

Lemma lstrip_idem s : lstrip (lstrip s) = lstrip s.
Proof.
  induction s as [|c s IH]; simpl; [done|].
  destruct (is_space c) eqn:E; [exact IH|]. simpl. by rewrite E.
Qed.

Lemma strip_bullet_nil s : strip_bullet s = [] -> s = [] \/ exists c t, s = c :: t /\ is_bullet c = true /\ lstrip t = [].
Proof.
  destruct s as [|c t]; simpl; [by left|].
  destruct (is_bullet c) eqn:E; [|done]. intros H. right. eauto.
Qed.

#[export] Hint Resolve strip_head strip_not_indented lstrip_head : mindmap.

(** [split] on a string without the separator, and across one. *)
Lemma split_on_no_sep sep s : sep ∉ s -> split_on sep s = [s].
Proof.
  induction s as [|c s IH]; intros Hn; [done|]. apply not_elem_of_cons in Hn as [Hc Hs].
  cbn. rewrite (proj2 (Z.eqb_neq c sep) (not_eq_sym Hc)), IH by exact Hs. reflexivity.
Qed.

Lemma split_on_app_sep sep a b : sep ∉ a -> split_on sep (a ++ sep :: b) = a :: split_on sep b.
Proof.
  induction a as [|c a IH]; intros Hn; cbn; [by rewrite Z.eqb_refl|].
  apply not_elem_of_cons in Hn as [Hc Ha].
  rewrite (proj2 (Z.eqb_neq c sep) (not_eq_sym Hc)), IH by exact Ha. reflexivity.
Qed.

(** Lines each ended by the separator split back into the lines and a
    final empty piece. *)
Lemma split_on_terminated sep lines :
  Forall (fun l => sep ∉ l) lines ->
  split_on sep (concat (map (fun l => l ++ [sep]) lines)) = lines ++ [[]].
Proof.
  induction 1 as [|l lines Hl Hls IH]; [done|]. cbn [map concat].
  rewrite <-app_assoc. cbn [app]. by rewrite split_on_app_sep, IH.
Qed.
