(* ===== verification/Outline.v ===== *)
(** The outline parser [MindMapGenerator.parse_content] and the diagram
    builder [generate_mind_map_data] (mindmap_service.py 68-127).  A node
    dictionary [{'id', 'text', 'level', 'children'}] is the record [node];
    [uuid.uuid4()] is a counter threaded through the parse. *)

From S2P Require Import Prelude PyStr.
Local Open Scope Z_scope.

(** ** Nodes *)

#[warnings="-register-all"]
Inductive node := mkNode {
  nid : N;
  text : pystr;
  level : Z;
  children : list node
}.

(** Induction over the rose tree, with [Forall] on the children. *)
Section node_ind.
Variable P : node -> Prop.
Hypothesis P_node : forall i t l cs, Forall P cs -> P (mkNode i t l cs).

Fixpoint node_ind' (n : node) : P n :=
  match n with
  | mkNode i t l cs =>
      P_node i t l cs
        ((fix go (cs : list node) : Forall P cs :=
            match cs with
            | [] => Forall_nil_2 _
            | c :: cs' => Forall_cons_2 _ _ _ (node_ind' c) (go cs')
            end) cs)
  end.
End node_ind.

(** [node['children'].append(c)] *)
Definition add_child (n c : node) : node :=
  mkNode (nid n) (text n) (level n) (children n ++ [c]).

(** [l[-1] = f(l[-1])] for a non-empty list. *)
Fixpoint update_last (f : node -> node) (l : list node) : list node :=
  match l with
  | [] => []
  | [x] => [f x]
  | x :: l' => x :: update_last f l'
  end.

Definition last_node (l : list node) : option node := last l.

(** ** The parser *)

(** Lines 84-88: the level test, applied to the stripped [line]. *)
Definition indent_level (line : pystr) : Z :=
  if startswith line [SPACE; SPACE] || startswith line [TAB] then 1
  else if startswith line [SPACE; SPACE; SPACE; SPACE] || startswith line [TAB; TAB] then 2
  else 0.

(** Lines 97-102: where a new node goes. *)
Definition attach (nodes : list node) (n : node) : list node :=
  if level n =? 0 then nodes ++ [n]
  else if (level n =? 1) && negb (bool_decide (nodes = [])) then
    update_last (fun p => add_child p n) nodes
  else if (level n =? 2) && negb (bool_decide (nodes = [])) &&
          negb (bool_decide (from_option children [] (last_node nodes) = [])) then
    update_last (fun p => mkNode (nid p) (text p) (level p)
                            (update_last (fun q => add_child q n) (children p))) nodes
  else nodes.

(** One iteration of the loop of lines 73-102; the state is the node list
    and the next uuid. *)
Definition parse_line (st : list node * N) (raw : pystr) : list node * N :=
  let '(nodes, next) := st in
  let line := strip raw in
  if bool_decide (line = []) then st else
  let clean_line := strip_bullet line in
  if bool_decide (clean_line = []) then st else
  let n := mkNode next clean_line (indent_level line) [] in
  (attach nodes n, (next + 1)%N).

(** [parse_content(content)], with the first uuid [start]. *)
Definition parse_content (content : pystr) (start : N) : list node * N :=
  foldl parse_line ([], start) (split_on NEWLINE (strip content)).

(** ** The diagram *)

(** The result dictionary of [generate_mind_map_data]; a field is [None]
    when the key is absent (a diagram sent back by a client to the download
    endpoint may lack some). *)
Record mind_map_data := {
  md_title : option pystr;
  md_description : option pystr;
  md_nodes : option (list node);
  md_theme : option pystr;
  md_layout : option pystr;
  md_generated_at : option pystr;
  md_node_count : option Z
}.

(** [generate_mind_map_data(title, description, content, theme, layout)];
    [now] is [datetime.now().isoformat()], [start] the next uuid. *)
Definition generate_mind_map_data (title description content theme layout now : pystr)
    (start : N) : mind_map_data * N :=
  let '(nodes, next) := parse_content content start in
  let center_node := mkNode next title (-1) nodes in
  ({| md_title := Some title;
      md_description := Some description;
      md_nodes := Some [center_node];
      md_theme := Some theme;
      md_layout := Some layout;
      md_generated_at := Some now;
      md_node_count := Some (Z.of_nat (length nodes) + 1) |}, (next + 1)%N).

(** ** Specification functions *)

(** The lines the parser keeps, after strip and bullet removal. *)
Definition kept_lines (lines : list pystr) : list pystr :=
  List.filter (fun l => negb (bool_decide (l = [])))
    (map (fun l => strip_bullet (strip l)) lines).

Definition clean_lines (content : pystr) : list pystr :=
  kept_lines (split_on NEWLINE (strip content)).

(** Flat level-0 nodes with consecutive ids from [next]. *)
Fixpoint flat_nodes (next : N) (ts : list pystr) : list node :=
  match ts with
  | [] => []
  | t :: ts' => mkNode next t 0 [] :: flat_nodes (next + 1)%N ts'
  end.

(** Levels step by one from parent to child, everywhere in the tree. *)
Fixpoint wf_levels (n : node) : bool :=
  forallb (fun c => (level c =? level n + 1) && wf_levels c) (children n).

(** Depth of a tree: a leaf has depth 1. *)
Fixpoint depth (n : node) : nat :=
  S (foldr Nat.max 0%nat (map depth (children n))).

(** All ids of a tree, in pre-order. *)
Fixpoint ids (n : node) : list N := nid n :: concat (map ids (children n)).

(** A flat node: level 0, no children. *)
Definition flat (n : node) : Prop := level n = 0 /\ children n = [].

(** ** Lemmas *)

Lemma indent_level_strip s : indent_level (strip s) = 0.
Proof.
  unfold indent_level.
  rewrite !strip_not_indented by reflexivity. reflexivity.
Qed.

Lemma attach_level0 nodes n : level n = 0 -> attach nodes n = nodes ++ [n].
Proof. intros H. unfold attach. by rewrite H. Qed.

(** One step of the loop, on a kept line. *)
Lemma parse_line_keep nodes next raw :
  strip_bullet (strip raw) <> [] ->
  parse_line (nodes, next) raw =
    (nodes ++ [mkNode next (strip_bullet (strip raw)) 0 []], (next + 1)%N).
Proof.
  intros H. unfold parse_line.
  rewrite bool_decide_false by (intros E; apply H; rewrite E; reflexivity).
  rewrite bool_decide_false by exact H.
  rewrite indent_level_strip. reflexivity.
Qed.

Lemma parse_line_skip nodes next raw :
  strip_bullet (strip raw) = [] -> parse_line (nodes, next) raw = (nodes, next).
Proof.
  intros H. unfold parse_line.
  case_bool_decide; [done|]. by rewrite bool_decide_true.
Qed.

(** The loop, in closed form: it appends one flat node per kept line. *)
Lemma foldl_parse_line lines nodes next :
  foldl parse_line (nodes, next) lines =
    (nodes ++ flat_nodes next (kept_lines lines),
     (next + N.of_nat (length (kept_lines lines)))%N).
Proof.
  revert nodes next. induction lines as [|raw lines IH]; intros nodes next; cbn [foldl].
  - cbn. by rewrite app_nil_r, N.add_0_r.
  - unfold kept_lines in *. cbn [map List.filter].
    destruct (decide (strip_bullet (strip raw) = [])) as [E|E].
    + rewrite bool_decide_true by exact E. cbn [negb].
      rewrite parse_line_skip by exact E. apply IH.
    + rewrite bool_decide_false by exact E. cbn [negb].
      rewrite parse_line_keep, IH, <-app_assoc by exact E.
      cbn [length flat_nodes app]. f_equal. lia.
Qed.

Lemma flat_nodes_flat next ts : Forall flat (flat_nodes next ts).
Proof.
  revert next. induction ts as [|t ts IH]; intros next; constructor; [|apply IH].
  split; reflexivity.
Qed.

Lemma flat_nodes_ids next ts :
  map nid (flat_nodes next ts) = map (fun k => (next + N.of_nat k)%N) (seq 0 (length ts)).
Proof.
  revert next. induction ts as [|t ts IH]; intros next; [done|].
  cbn [flat_nodes map length seq nid]. rewrite IH, <-seq_shift, map_map. f_equal; [lia|].
  apply map_ext. intros k. lia.
Qed.

Lemma flat_nodes_length next ts : length (flat_nodes next ts) = length ts.
Proof. revert next. induction ts; intros; simpl; auto. Qed.

Lemma flat_nodes_text next ts : map text (flat_nodes next ts) = ts.
Proof. revert next. induction ts; intros; simpl; f_equal; auto. Qed.

Lemma NoDup_offsets_from (next : N) a k :
  NoDup (map (fun i => (next + N.of_nat i)%N) (seq a k)).
Proof.
  revert a. induction k as [|k IH]; intros a; simpl; constructor; [|apply IH].
  intros Hin%list_elem_of_In. apply in_map_iff in Hin as (i & Hi & Hin%in_seq). lia.
Qed.

Lemma NoDup_offsets (next : N) k :
  NoDup (map (fun i => (next + N.of_nat i)%N) (seq 0 k)).
Proof. apply NoDup_offsets_from. Qed.

Lemma wf_levels_flat_children n :
  Forall flat (children n) -> level n = -1 -> wf_levels n = true.
Proof.
  destruct n as [i t l cs]; simpl. intros Hcs Hl. subst l.
  apply forallb_forall. intros c Hc%list_elem_of_In.
  rewrite Forall_forall in Hcs. destruct (Hcs c Hc) as [Hlc Hcc].
  destruct c as [ci ct cl ccs]; simpl in *. subst. reflexivity.
Qed.

Lemma depth_flat_children n : Forall flat (children n) -> (depth n <= 2)%nat.
Proof.
  destruct n as [i t l cs]; simpl. intros Hcs.
  induction cs as [|c cs IH]; simpl; [lia|].
  apply Forall_cons in Hcs as [[_ Hc] Hcs].
  destruct c as [ci ct cl ccs]; simpl in *. subst ccs. specialize (IH Hcs). simpl. lia.
Qed.

Lemma ids_flat l : Forall flat l -> concat (map ids l) = map nid l.
Proof.
  induction l as [|[i t lv cs] l IH]; intros Hl; [done|].
  apply Forall_cons in Hl as [[_ Hcs] Hl]. simpl in *. subst cs.
  rewrite IH by exact Hl. reflexivity.
Qed.

#[export] Hint Resolve flat_nodes_flat NoDup_offsets : mindmap.

(** ** Theorems *)

(** C1: [parse_content] keeps exactly the lines that are non-empty after
    [strip] and bullet removal, in source order, each as a level-0 node
    with no children and the next uuid; the indentation tests of lines
    84-88 run on the stripped line and never fire, so the outline is
    always flat. *)
Theorem parse_content_spec content start :
  parse_content content start =
    (flat_nodes start (clean_lines content),
     (start + N.of_nat (length (clean_lines content)))%N).
Proof. unfold parse_content, clean_lines. by rewrite foldl_parse_line. Qed.

(** C13: [generate_mind_map_data] wraps the parsed outline in a single
    centre node of level -1 holding the title; the tree is well formed
    (every child is one level below its parent), has depth at most two,
    [node_count] is the number of top-level nodes plus one, and all ids
    of the diagram are distinct. *)
Theorem generate_mind_map_data_wf title description content theme layout now start :
  let '(d, next) := generate_mind_map_data title description content theme layout now start in
  exists center,
    md_nodes d = Some [center] /\
    text center = title /\ level center = -1 /\
    children center = fst (parse_content content start) /\
    wf_levels center = true /\ (depth center <= 2)%nat /\
    md_node_count d = Some (Z.of_nat (length (children center)) + 1) /\
    NoDup (ids center).
Proof.
  unfold generate_mind_map_data, parse_content. rewrite foldl_parse_line. cbn [app fst snd].
  set (ts := kept_lines _).
  eexists. repeat split; try reflexivity.
  - apply wf_levels_flat_children; [apply flat_nodes_flat|reflexivity].
  - apply depth_flat_children, flat_nodes_flat.
  - cbn [ids children nid]. rewrite ids_flat by apply flat_nodes_flat.
    constructor; [|rewrite flat_nodes_ids; apply NoDup_offsets].
    rewrite flat_nodes_ids. intros Hin%list_elem_of_In.
    apply in_map_iff in Hin as (k & Hk & Hin%in_seq). lia.
Qed.

(** The spec's example outline ["Topic\n  Sub1\n  Sub2"], which the
    spec says yields one level-0 node with two level-1 children, is
    parsed into three flat level-0 nodes. *)
Example parse_spec_example :
  fst (parse_content (lit "Topic" ++ [NEWLINE] ++ lit "  Sub1" ++ [NEWLINE] ++ lit "  Sub2") 0) =
    [mkNode 0 (lit "Topic") 0 []; mkNode 1 (lit "Sub1") 0 []; mkNode 2 (lit "Sub2") 0 []].
Proof. vm_compute. reflexivity. Qed.
