(* ===== verification/Pil.v ===== *)
(** The part of Pillow the renderer uses, as an interface: fonts
    ([ImageFont.truetype], [ImageFont.load_default]), text metrics
    ([ImageDraw.textbbox]) and colours: a string is parsed by
    [ImageColor.getrgb], any other value goes to the C [getink], and
    [Image.new] leaves a canvas whose colour is [None] unfilled.  A colour
    is whatever value the palette holds (a style can store any JSON
    value there).  The renderer's calls into [ImageDraw] are
    [draw_call]s; [paint] performs them in order on an [image], raising at
    the first colour Pillow rejects ([ValueError] for a string), and
    [KeyError] where the colour argument was a missing dictionary entry.  A concrete instance, [stub_pil], is used
    by the witnesses. *)

From S2P Require Import Prelude PyValue.
Local Open Scope Z_scope.

Definition rgb : Type := Z * Z * Z.

Class PIL := {
  font : Type;
  (** [ImageFont.truetype(path, size)]; [None] when it raises. *)
  truetype : option pystr -> Z -> option font;
  load_default : font;
  (** [draw.textbbox((0, 0), text, font=font)] = (left, top, right, bottom) *)
  textbbox : font -> pystr -> Z * Z * Z * Z;
  (** [ImageColor.getrgb(color)]; [None] when it raises [ValueError]. *)
  getrgb : pystr -> option rgb;
  (** [ImageDraw._getink] and [core.fill] on a colour that is not a
      string: an int is a packed colour, [None] the default ink, and a
      list, a dict or a float raise [TypeError] ("color must be int or
      tuple"). *)
  ink_value : json -> result rgb;
  (** The pixels of [Image.new(mode, size, None)], which fills nothing. *)
  blank : rgb
}.

Section Canvas.
Context `{PIL}.

(** A call of the renderer into [ImageDraw]; a colour argument is the
    result of the dictionary lookup [colors[key]] that produced it. *)
Inductive draw_call :=
| CText (x y : Z) (s : pystr) (fill : result json) (f : font)
| CLine (x1 y1 x2 y2 : Z) (fill : result json) (width : Z)
| CEllipse (x0 y0 x1 y1 : Z) (fill outline : result json) (width : Z).

(** What a call leaves on the canvas. *)
Inductive prim :=
| PText (x y : Z) (s : pystr) (fill : rgb) (f : font)
| PLine (x1 y1 x2 y2 : Z) (fill : rgb) (width : Z)
| PEllipse (x0 y0 x1 y1 : Z) (fill outline : rgb) (width : Z).

Record image := {
  img_size : Z * Z;
  img_background : rgb;
  img_prims : list prim
}.

(** [ImageDraw._getink]: a colour string is parsed by [getrgb], which
    raises [ValueError]; another value goes to [getink]. *)
Definition ink (c : result json) : result rgb :=
  v ← c;
  match v with
  | JStr s => match getrgb s with Some v => Ok v | None => Err (ValueError s) end
  | _ => ink_value v
  end.

(** One call.  [ellipse] converts its outline before its fill. *)
Definition paint_call (dc : draw_call) : result prim :=
  match dc with
  | CText x y s fill f => c ← ink fill; Ok (PText x y s c f)
  | CLine x1 y1 x2 y2 fill w => c ← ink fill; Ok (PLine x1 y1 x2 y2 c w)
  | CEllipse x0 y0 x1 y1 fill outline w =>
      _ ← fill; _ ← outline;
      o ← ink outline; c ← ink fill; Ok (PEllipse x0 y0 x1 y1 c o w)
  end.

(** The calls in order; the first exception stops the rendering. *)
Fixpoint paint (l : list draw_call) : result (list prim) :=
  match l with
  | [] => Ok []
  | dc :: l' => p ← paint_call dc; ps ← paint l'; Ok (p :: ps)
  end.

(** [Image.new('RGB', size, color)]: [None] fills nothing, any other
    colour is converted as [ink] does. *)
Definition new_fill (color : result json) : result rgb :=
  v ← color; match v with JNull => Ok blank | _ => ink (Ok v) end.

Definition image_new (size : Z * Z) (color : result json) : result image :=
  c ← new_fill color; Ok {| img_size := size; img_background := c; img_prims := [] |}.

Definition is_line (p : prim) : bool := match p with PLine _ _ _ _ _ _ => true | _ => false end.
Definition is_ellipse (p : prim) : bool :=
  match p with PEllipse _ _ _ _ _ _ _ => true | _ => false end.
Definition is_line_call (c : draw_call) : bool :=
  match c with CLine _ _ _ _ _ _ => true | _ => false end.
Definition is_ellipse_call (c : draw_call) : bool :=
  match c with CEllipse _ _ _ _ _ _ _ => true | _ => false end.

(** Every colour of a call is a present key whose value Pillow parses. *)
Definition colour_ok (c : result json) : bool := is_ok (ink c).

(** The background colour is one [Image.new] accepts. *)
Definition background_ok (c : result json) : bool := is_ok (new_fill c).

Definition call_ok (dc : draw_call) : bool :=
  match dc with
  | CText _ _ _ fill _ | CLine _ _ _ _ fill _ => colour_ok fill
  | CEllipse _ _ _ _ fill outline _ => colour_ok fill && colour_ok outline
  end.

(** A colour [ink] accepts is one [Image.new] accepts. *)
Lemma colour_ok_background c : colour_ok c = true -> background_ok c = true.
Proof. unfold colour_ok, background_ok, new_fill. unfold_bind. by destruct c as [[]|]. Qed.

Lemma ink_ok c : colour_ok c = true -> exists v, ink c = Ok v.
Proof. unfold colour_ok, is_ok. destruct (ink c); [eauto|done]. Qed.

Lemma paint_call_ok dc : call_ok dc = true -> exists p, paint_call dc = Ok p.
Proof.
  destruct dc; simpl.
  - intros (v & ->)%ink_ok. eauto.
  - intros (v & ->)%ink_ok. eauto.
  - intros [(v & Hv)%ink_ok (w & Hw)%ink_ok]%andb_true_iff.
    unfold ink in Hv, Hw. destruct fill, outline; simpl in *; try discriminate.
    unfold ink; simpl. rewrite Hv, Hw. simpl. eauto.
Qed.

Lemma paint_call_kind dc p :
  paint_call dc = Ok p -> is_line p = is_line_call dc /\ is_ellipse p = is_ellipse_call dc.
Proof.
  destruct dc; cbn [paint_call]; unfold_bind; case_results; intros Hp;
    simplify_eq; split; reflexivity.
Qed.

Lemma paint_app l1 l2 :
  paint (l1 ++ l2) = (ps1 ← paint l1; ps2 ← paint l2; Ok (ps1 ++ ps2)).
Proof.
  induction l1 as [|dc l1 IH]; simpl.
  - by destruct (paint l2).
  - destruct (paint_call dc); simpl; [|done].
    rewrite IH. destruct (paint l1); simpl; [|done]. by destruct (paint l2).
Qed.

Lemma is_ok_rbind {A B} (r : result A) (f : A -> result B) :
  is_ok (rbind r f) = match r with Ok a => is_ok (f a) | Err _ => false end.
Proof. by destruct r. Qed.



Lemma is_ok_paint_call dc : is_ok (paint_call dc) = call_ok dc.
Proof.
  unfold call_ok, colour_ok. destruct dc; cbn [paint_call]; unfold_bind.
  1,2: by destruct (ink fill).
  assert (forall e, ink (Err e) = Err e) as He by reflexivity.
  destruct fill as [f|], outline as [o|]; cbn [rbind]; rewrite ?He; cbn [is_ok]; rewrite ?andb_false_r; [|done..].
  destruct (ink (Ok o)), (ink (Ok f)); cbn [is_ok]; by rewrite ?andb_false_r.
Qed.

(** [paint] succeeds exactly when every call's colours are good. *)
Lemma is_ok_paint l : is_ok (paint l) = forallb call_ok l.
Proof.
  induction l as [|dc l IH]; [done|]. cbn [paint forallb]. unfold_bind.
  rewrite <-is_ok_paint_call, <-IH.
  destruct (paint_call dc), (paint l); reflexivity.
Qed.

(** A successful [paint] keeps one primitive per call, of the same kind. *)
Lemma paint_counts l ps :
  paint l = Ok ps ->
  length ps = length l /\ countb is_line ps = countb is_line_call l /\
  countb is_ellipse ps = countb is_ellipse_call l.
Proof.
  revert ps. induction l as [|dc l IH]; intros ps Hp; cbn [paint] in Hp; unfold_bind.
  - by simplify_eq.
  - destruct (paint_call dc) as [p|] eqn:Hdc; [|done].
    destruct (paint l) as [ps'|]; [|done]. simplify_eq.
    destruct (IH ps' eq_refl) as (Hlen & Hli & Hel).
    destruct (paint_call_kind _ _ Hdc) as [Hk1 Hk2].
    rewrite !countb_cons, Hli, Hel, Hk1, Hk2. simpl. lia.
Qed.
(** The colour arguments of a call, in the order Pillow converts them. *)
Definition call_colours (dc : draw_call) : list (result json) :=
  match dc with
  | CText _ _ _ fill _ | CLine _ _ _ _ fill _ => [fill]
  | CEllipse _ _ _ _ fill outline _ => [fill; outline]
  end.

Lemma paint_call_err dc e :
  paint_call dc = Err e -> exists c, c ∈ call_colours dc /\ ink c = Err e.
Proof.
  destruct dc; cbn [paint_call call_colours]; unfold_bind.
  1,2: destruct (ink fill) eqn:Ei; intros; simplify_eq; eexists; split; [by left|done].
  destruct fill as [f|ef]; [|intros [= ->]; exists (Err e); split; [by left|done]].
  destruct outline as [o|eo]; [|intros [= ->]; exists (Err e); split; [by right; left|done]].
  cbn [rbind]. destruct (ink (Ok o)) eqn:Eo; [|intros [= ->]; exists (Ok o); split; [by right; left|done]].
  destruct (ink (Ok f)) eqn:Ef; intros; simplify_eq. exists (Ok f). split; [by left|done].
Qed.

(** The exception [paint] raises is the conversion error of one of the
    colour arguments of its calls. *)
Lemma paint_err l e :
  paint l = Err e -> exists c, c ∈ concat (map call_colours l) /\ ink c = Err e.
Proof.
  induction l as [|dc l IH]; [done|]. cbn [paint map concat]. unfold_bind.
  destruct (paint_call dc) as [p|e'] eqn:Hp.
  - destruct (paint l) eqn:E; intros; simplify_eq. destruct (IH eq_refl) as (c & Hc & Hi).
    exists c. split; [apply elem_of_app; by right|done].
  - intros; simplify_eq. destruct (paint_call_err dc e Hp) as (c & Hc & Hi).
    exists c. split; [apply elem_of_app; by left|done].
Qed.

(** [Image.new] raises only when [ink] raises on the same colour. *)
Lemma new_fill_err c e : new_fill c = Err e -> ink c = Err e.
Proof. unfold new_fill. unfold_bind. destruct c as [[]|]; cbn [rbind]; done. Qed.
End Canvas.

Arguments draw_call {_}.
Arguments prim {_}.
Arguments image {_}.

(** ** A concrete Pillow for the witnesses

    Fonts are their sizes, a font file always loads, glyphs are half as
    wide as the font size, and colours are [#rrggbb]. *)

Definition hex_digit (c : Z) : option Z :=
  if (48 <=? c) && (c <=? 57) then Some (c - 48)
  else if (97 <=? c) && (c <=? 102) then Some (c - 87)
  else if (65 <=? c) && (c <=? 70) then Some (c - 55)
  else None.

Definition hex_byte (a b : Z) : option Z :=
  match hex_digit a, hex_digit b with
  | Some x, Some y => Some (16 * x + y)
  | _, _ => None
  end.

Definition parse_hex_colour (s : pystr) : option rgb :=
  match s with
  | [h; r1; r2; g1; g2; b1; b2] =>
      if h =? 35 then
        match hex_byte r1 r2, hex_byte g1 g2, hex_byte b1 b2 with
        | Some r, Some g, Some b => Some (r, g, b)
        | _, _, _ => None
        end
      else None
  | _ => None
  end.

#[export] Instance stub_pil : PIL := {|
  font := Z;
  truetype p size := match p with Some _ => Some size | None => None end;
  load_default := 10;
  textbbox f s := (0, 0, Z.of_nat (length s) * f / 2, f);
  getrgb := parse_hex_colour;
  ink_value v := match v with
                 | JInt z => Ok (Z.land z 255, Z.land (Z.shiftr z 8) 255, Z.land (Z.shiftr z 16) 255)
                 | JNull => Ok (255, 255, 255)
                 | _ => Err (TypeError (lit "color must be int or tuple"))
                 end;
  blank := (0, 0, 0)
|}.
