(* ===== verification/Palette.v ===== *)
(** The theme table [MindMapGenerator.default_colors]
    (mindmap_service.py 35-66) and the palette resolution at the top of
    [create_mind_map_image] (133-138).  A palette is a dict with string
    keys whose values start as colour strings but can be any JSON value a
    style stored there: a [gmap pystr json]; the table is a [gmap] of
    them.  The palette that [create_mind_map_image] obtains is the dict
    stored in the table (not a copy), so [colors.update(style)] writes
    into the table, under the key the palette was found at, and what it
    wrote stays there even when it raises part-way. *)

From S2P Require Import Prelude PyValue.
Local Open Scope Z_scope.

Abbreviation palette := (gmap pystr json).
Abbreviation theme_table := (gmap pystr palette).

Definition K_node : pystr := lit "node".
Definition K_line : pystr := lit "line".
Definition K_background : pystr := lit "background".
Definition K_text : pystr := lit "text".
Definition K_default : pystr := lit "default".

Definition mk_palette (node line background text : String.string) : palette :=
  <[K_node := JStr (lit node)]> (<[K_line := JStr (lit line)]> (<[K_background := JStr (lit background)]>
    (<[K_text := JStr (lit text)]> ∅))).

(** Lines 35-66. *)
Definition default_colors : theme_table :=
  <[lit "default" := mk_palette "#1890ff" "#d9d9d9" "#ffffff" "#333333"]> (
  <[lit "business" := mk_palette "#52c41a" "#8c8c8c" "#fafafa" "#262626"]> (
  <[lit "creative" := mk_palette "#722ed1" "#d3adf7" "#f9f0ff" "#531dab"]> (
  <[lit "education" := mk_palette "#fa8c16" "#ffd591" "#fff7e6" "#d46b08"]> (
  <[lit "technology" := mk_palette "#13c2c2" "#87e8de" "#e6fffb" "#08979c"]> ∅)))).

(** Line 134: [self.default_colors.get(theme, self.default_colors['default'])].
    The default argument is evaluated first; the result is the key of the
    dict that was returned, and the dict itself. *)
Definition select_palette (table : theme_table) (theme : pystr) : result (pystr * palette) :=
  dflt ← getitem table K_default;
  match table !! theme with
  | Some p => Ok (theme, p)
  | None => Ok (K_default, dflt)
  end.

(** Lines 137-138: [if style: colors.update(style)], on the dict stored at
    [key] in the table: the writes [dict.update] makes land in the table,
    also those before an element that makes it raise; the palette is
    returned when it does not raise. *)
Definition apply_style (table : theme_table) (key : pystr) (colors : palette)
    (style : option json) : theme_table * result palette :=
  match style with
  | Some s =>
      if jtruthy (Some s) then
        let '(ws, e) := update_writes s in
        (<[key := write_all ws colors]> table,
         match e with None => Ok (write_all ws colors) | Some e => Err e end)
      else (table, Ok colors)
  | None => (table, Ok colors)
  end.

(** The writes and the exception of [if style: colors.update(style)]. *)
Definition style_writes (style : option json) : list (pystr * json) * option py_exc :=
  match style with
  | Some s => if jtruthy (Some s) then update_writes s else ([], None)
  | None => ([], None)
  end.

(** The entries a style writes over the palette, the later winning. *)
Definition style_palette (style : option json) : palette := writes_map (style_writes style).1.

(** The four keys the renderer reads. *)
Definition palette_keys : list pystr := [K_node; K_line; K_background; K_text].

Definition full_palette (p : palette) : Prop := Forall (fun k => is_Some (p !! k)) palette_keys.

(** The table invariant: a default palette exists and every palette has
    the four keys. *)
Definition wf_table (table : theme_table) : Prop :=
  is_Some (table !! K_default) /\ map_Forall (fun _ p => full_palette p) table.

(** ** Lemmas *)

#[export] Instance full_palette_dec p : Decision (full_palette p).
Proof. unfold full_palette. apply _. Defined.

Lemma full_palette_union s p : full_palette p -> full_palette (s ∪ p).
Proof.
  unfold full_palette. rewrite !Forall_forall. intros Hp k Hk.
  destruct (Hp k Hk) as [v Hv]. rewrite lookup_union, Hv.
  destruct (s !! k); simpl; eauto.
Qed.

Lemma select_palette_ok table theme :
  wf_table table ->
  exists key p, select_palette table theme = Ok (key, p) /\ table !! key = Some p /\
    (key = theme \/ (key = K_default /\ table !! theme = None)).
Proof.
  intros [[d Hd] _]. unfold select_palette. rewrite (getitem_ok _ _ _ Hd). simpl.
  destruct (table !! theme) as [p|] eqn:E; eauto 10.
Qed.

(** A theme the table holds selects its own palette. *)
Lemma select_palette_present table theme p :
  wf_table table -> table !! theme = Some p -> select_palette table theme = Ok (theme, p).
Proof.
  intros [[d Hd] _] Hp. unfold select_palette. rewrite (getitem_ok _ _ _ Hd). simpl. by rewrite Hp.
Qed.

Lemma select_palette_full table theme key p :
  wf_table table -> select_palette table theme = Ok (key, p) -> full_palette p.
Proof.
  intros Hwf Hsel. destruct (select_palette_ok table theme Hwf) as (k & q & Hs & Hk & _).
  rewrite Hs in Hsel. simplify_eq. destruct Hwf as [_ Hall]. exact (Hall _ _ Hk).
Qed.

#[export] Hint Resolve full_palette_union : mindmap.

Lemma default_colors_wf : wf_table default_colors.
Proof.
  split; [eexists; reflexivity|].
  apply (bool_decide_unpack _). vm_compute. reflexivity.
Qed.

#[export] Hint Resolve default_colors_wf : mindmap.

(** On the dict the table holds at [key], the update is an insertion of
    [style_palette style ∪ colors] at the key (the same dict when the
    style writes nothing), and it raises what [dict.update] raises. *)
Lemma apply_style_eq table key colors style :
  table !! key = Some colors ->
  apply_style table key colors style =
    (<[key := style_palette style ∪ colors]> table,
     match (style_writes style).2 with None => Ok (style_palette style ∪ colors) | Some e => Err e end).
Proof.
  intros Hk. unfold style_palette, style_writes, apply_style.
  assert (<[key := writes_map [] ∪ colors]> table = table) as Hid.
  { unfold writes_map, write_all. cbn [foldl]. rewrite (left_id_L ∅ (∪)). by apply insert_id. }
  destruct style as [s|]; [destruct (jtruthy (Some s))|]; cbn [fst snd].
  - destruct (update_writes s) as [ws e]. cbn [fst snd]. by rewrite write_all_union.
  - rewrite Hid. unfold writes_map, write_all. cbn [foldl]. by rewrite (left_id_L ∅ (∪)).
  - rewrite Hid. unfold writes_map, write_all. cbn [foldl]. by rewrite (left_id_L ∅ (∪)).
Qed.

(** [apply_style] keeps the invariant, and the dict it leaves at the key
    has the four colours. *)
Lemma apply_style_wf table key colors style :
  wf_table table -> table !! key = Some colors ->
  wf_table (fst (apply_style table key colors style)) /\
  fst (apply_style table key colors style) !! key = Some (style_palette style ∪ colors) /\
  full_palette (style_palette style ∪ colors).
Proof.
  intros [Hd Hall] Hk. rewrite (apply_style_eq _ _ _ _ Hk). cbn [fst].
  pose proof (full_palette_union (style_palette style) _ (Hall _ _ Hk)) as Hfull.
  split; [split|split; [apply lookup_insert_eq|exact Hfull]].
  - rewrite lookup_insert. case_decide; [done|exact Hd].
  - by apply map_Forall_insert_2.
Qed.

(** A palette [apply_style] returns is the one it stored. *)
Lemma apply_style_ok table key colors style p :
  table !! key = Some colors -> snd (apply_style table key colors style) = Ok p ->
  p = style_palette style ∪ colors /\ (style_writes style).2 = None.
Proof.
  intros Hk. rewrite (apply_style_eq _ _ _ _ Hk). cbn [snd].
  destruct (style_writes style).2; [done|]. by intros [= <-].
Qed.

Lemma apply_style_dom table key colors style :
  table !! key = Some colors -> dom (fst (apply_style table key colors style)) = dom table.
Proof.
  intros Hk. rewrite (apply_style_eq _ _ _ _ Hk). cbn [fst].
  rewrite dom_insert_L. apply elem_of_dom_2 in Hk. set_solver.
Qed.
