(* ===== verification/Layout.v ===== *)
(** The layout engine: [_draw_node] (mindmap_service.py 326-348), the four
    layout methods [_draw_radial_layout], [_draw_tree_layout],
    [_draw_horizontal_layout], [_draw_vertical_layout] (194-324) and the
    dispatcher [_draw_nodes] (177-192).  Each method draws [nodes[0]] as
    the centre at [(center_x, center_y)], then every node of [nodes[1:]]
    at a position computed from its index, with an edge from the centre,
    and recurses on that node's [children] with the node's position as
    the new centre.  The four methods differ only in the position formula,
    so they are one function [draw_layout] applied to four position
    functions.  A method is modelled by the list of [ImageDraw] calls it
    makes, in order. *)

From S2P Require Import Prelude PyValue Outline Pil Palette.
Local Open Scope Z_scope.

(** ** Node circles *)

(** Lines 335-338. *)
Definition node_radius (text_width : Z) (is_center : bool) : Z :=
  if is_center then Z.max 40 (text_width / 2 + 20) else Z.max 30 (text_width / 2 + 15).

Section Layout.
Context `{PIL}.

(** [_draw_node(draw, x, y, text, node_color, text_color, font, is_center)] *)
Definition _draw_node (x y : Z) (txt : pystr) (node_color text_color : result json)
    (f : font) (is_center : bool) : list draw_call :=
  let '(l, t, r, b) := textbbox f txt in
  let text_width := r - l in
  let text_height := b - t in
  let rad := node_radius text_width is_center in
  [CEllipse (x - rad) (y - rad) (x + rad) (y + rad) node_color text_color 2;
   CText (x - text_width / 2) (y - text_height / 2) txt text_color f].

(** ** The shared recursive shape

    [pos cx cy i n] is the position of child [i] of [n] around the
    centre [(cx, cy)].  The loop of each method (e.g. lines 213-226):
    for every child, an edge from the centre, then [draw_child] for the
    child at its position. *)
Fixpoint loop_from (draw_child : node -> Z -> Z -> list draw_call)
    (pos : Z -> Z -> Z -> Z -> Z * Z) (n cx cy : Z) (colors : palette)
    (l : list node) (i : Z) : list draw_call :=
  match l with
  | [] => []
  | nd :: l' =>
      let '(x, y) := pos cx cy i n in
      CLine cx cy x y (colors.[K_line]) 3 ::
      draw_child nd x y ++ loop_from draw_child pos n cx cy colors l' (i + 1)
  end.

Definition children_loop (draw_child : node -> Z -> Z -> list draw_call)
    (pos : Z -> Z -> Z -> Z -> Z * Z) (child_nodes : list node) (cx cy : Z)
    (colors : palette) : list draw_call :=
  loop_from draw_child pos (Z.of_nat (length child_nodes)) cx cy colors child_nodes 0.

(** One child at [(x, y)]: its circle, then, when it has children, the
    recursive call [layout(node['children'], x, y, colors, font_small,
    font_small)], which draws [children[0]] as a centre at [(x, y)] and
    [children[1:]] around it. *)
Fixpoint draw_child (pos : Z -> Z -> Z -> Z -> Z * Z) (nd : node) (x y : Z)
    (colors : palette) (font_small : font) {struct nd} : list draw_call :=
  match nd with
  | mkNode _ t _ ch =>
      _draw_node x y t (colors.[K_node]) (colors.[K_text]) font_small false ++
      match ch with
      | [] => []
      | c :: rest =>
          _draw_node x y (text c) (colors.[K_node]) (colors.[K_text])
            font_small true ++
          children_loop (fun nd' x' y' => draw_child pos nd' x' y' colors font_small)
            pos rest x y colors
      end
  end.

(** A layout method: [nodes[0]] is the centre, drawn with [font_medium],
    and [nodes[1:]] are its children. *)
Definition draw_layout (pos : Z -> Z -> Z -> Z -> Z * Z) (nodes : list node)
    (cx cy : Z) (colors : palette) (font_medium font_small : font) : list draw_call :=
  match nodes with
  | [] => []
  | center_node :: child_nodes =>
      _draw_node cx cy (text center_node) (colors.[K_node]) (colors.[K_text])
        font_medium true ++
      children_loop (fun nd x y => draw_child pos nd x y colors font_small)
        pos child_nodes cx cy colors
  end.

(** ** The four position formulas *)

(** Lines 210-216: [angle = i * (2 * 3.14159 / n)] and
    [int(radius * 3.14159 * 2 * angle / (2 * 3.14159))] with
    [radius = 200], i.e. [int(200 * i * 6.28318 / n)], for x and y
    alike. *)
Definition radial_offset (i n : Z) : Z := (1256636 * i) / (1000 * n).

Definition radial_pos (cx cy i n : Z) : Z * Z :=
  (cx + radial_offset i n, cy + radial_offset i n).

(** Lines 244-249. *)
Definition tree_pos (cx cy i n : Z) : Z * Z := (cx + (i - n / 2) * 300, cy + 120).

(** Lines 277-281. *)
Definition horizontal_pos (cx cy i n : Z) : Z * Z := (cx + (i - n / 2) * 250, cy).

(** Lines 309-314. *)
Definition vertical_pos (cx cy i n : Z) : Z * Z := (cx + (i - n / 2) * 200, cy + 120).

Definition _draw_radial_layout := draw_layout radial_pos.
Definition _draw_tree_layout := draw_layout tree_pos.
Definition _draw_horizontal_layout := draw_layout horizontal_pos.
Definition _draw_vertical_layout := draw_layout vertical_pos.

(** [_draw_nodes(draw, nodes, center_x, center_y, colors, font_medium,
    font_small, layout)]: any other name selects the vertical layout. *)
Definition _draw_nodes (nodes : list node) (cx cy : Z) (colors : palette)
    (font_medium font_small : font) (layout : pystr) : list draw_call :=
  match nodes with
  | [] => []
  | _ =>
      if bool_decide (layout = lit "radial") then
        _draw_radial_layout nodes cx cy colors font_medium font_small
      else if bool_decide (layout = lit "tree") then
        _draw_tree_layout nodes cx cy colors font_medium font_small
      else if bool_decide (layout = lit "horizontal") then
        _draw_horizontal_layout nodes cx cy colors font_medium font_small
      else _draw_vertical_layout nodes cx cy colors font_medium font_small
  end.
End Layout.

(** ** What a layout draws, counted on the node list *)

(** Edges and circles drawn for a child node and for a layout call. *)
Fixpoint child_edges (nd : node) : nat :=
  match nd with
  | mkNode _ _ _ [] => 0
  | mkNode _ _ _ (_ :: rest) => sum_list (map (fun n' => S (child_edges n')) rest)
  end.

Fixpoint child_circles (nd : node) : nat :=
  match nd with
  | mkNode _ _ _ [] => 1
  | mkNode _ _ _ (_ :: rest) => 2 + sum_list (map child_circles rest)
  end.

Definition layout_edges (nodes : list node) : nat :=
  match nodes with
  | [] => 0
  | _ :: rest => sum_list (map (fun n' => S (child_edges n')) rest)
  end.

Definition layout_circles (nodes : list node) : nat :=
  match nodes with
  | [] => 0
  | _ :: rest => 1 + sum_list (map child_circles rest)
  end.

Section LayoutLemmas.
Context `{PIL}.
Implicit Types (pos : Z -> Z -> Z -> Z -> Z * Z) (colors : palette).

Lemma draw_child_eq pos nd x y colors fs :
  draw_child pos nd x y colors fs =
    _draw_node x y (text nd) (colors.[K_node]) (colors.[K_text]) fs false ++
    match children nd with
    | [] => []
    | _ :: _ => draw_layout pos (children nd) x y colors fs fs
    end.
Proof. by destruct nd as [? ? ? [|c rest]]. Qed.

Lemma draw_node_lines x y t nc tc f c : countb is_line_call (_draw_node x y t nc tc f c) = 0%nat.
Proof. unfold _draw_node. by destruct (textbbox f t) as [[[? ?] ?] ?]. Qed.

Lemma draw_node_circles x y t nc tc f c :
  countb is_ellipse_call (_draw_node x y t nc tc f c) = 1%nat.
Proof. unfold _draw_node. by destruct (textbbox f t) as [[[? ?] ?] ?]. Qed.

(** Counting the calls of the loop, when each child's own calls have a
    count [g] that does not depend on its position. *)
Lemma loop_from_countb (p : draw_call -> bool) (pl : nat)
    (f : node -> Z -> Z -> list draw_call) pos (n cx cy : Z) colors (g : node -> nat)
    (l : list node) (i : Z) :
  (forall a b c d e w, (if p (CLine a b c d e w) then 1 else 0)%nat = pl) ->
  Forall (fun nd => forall x y, countb p (f nd x y) = g nd) l ->
  countb p (loop_from f pos n cx cy colors l i) = sum_list (map (fun nd => pl + g nd)%nat l).
Proof.
  intros Hp Hl. revert i. induction Hl as [|nd l Hnd Hl IH]; intros i; [done|].
  cbn [loop_from]. destruct (pos cx cy i n) as [x y].
  rewrite countb_cons, countb_app, Hnd, IH, Hp. simpl. lia.
Qed.

Lemma draw_child_lines pos nd x y colors fs :
  countb is_line_call (draw_child pos nd x y colors fs) = child_edges nd.
Proof.
  revert x y. induction nd as [i t lv cs IH] using node_ind'. intros x y.
  destruct cs as [|c rest]; cbn [draw_child child_edges];
    rewrite ?app_nil_r, ?countb_app, ?draw_node_lines; [done|].
  unfold children_loop. apply Forall_cons in IH as [_ IH].
  rewrite (loop_from_countb _ 1%nat _ _ _ _ _ _ child_edges); [reflexivity|done|exact IH].
Qed.

Lemma draw_child_circles pos nd x y colors fs :
  countb is_ellipse_call (draw_child pos nd x y colors fs) = child_circles nd.
Proof.
  revert x y. induction nd as [i t lv cs IH] using node_ind'. intros x y.
  destruct cs as [|c rest]; cbn [draw_child child_circles];
    rewrite ?app_nil_r, ?countb_app, ?draw_node_circles; [done|].
  unfold children_loop. apply Forall_cons in IH as [_ IH].
  rewrite (loop_from_countb _ 0%nat _ _ _ _ _ _ child_circles); [reflexivity|done|exact IH].
Qed.
End LayoutLemmas.

(** ** Edge geometry *)

Section Geometry.
Context `{PIL}.
Implicit Types (pos : Z -> Z -> Z -> Z -> Z * Z) (colors : palette).

(** The endpoints of the [draw.line] calls, in order. *)
Fixpoint line_coords (l : list draw_call) : list (Z * Z * Z * Z) :=
  match l with
  | [] => []
  | CLine x1 y1 x2 y2 _ _ :: l' => (x1, y1, x2, y2) :: line_coords l'
  | _ :: l' => line_coords l'
  end.

Lemma line_coords_app l1 l2 : line_coords (l1 ++ l2) = line_coords l1 ++ line_coords l2.
Proof. induction l1 as [|[] l1 IH]; simpl; rewrite ?IH; reflexivity. Qed.

Lemma draw_node_coords x y t nc tc f c : line_coords (_draw_node x y t nc tc f c) = [].
Proof. unfold _draw_node. by destruct (textbbox f t) as [[[? ?] ?] ?]. Qed.

Variable Q : Z * Z * Z * Z -> Prop.
Variable pos : Z -> Z -> Z -> Z -> Z * Z.
Hypothesis Hpos : forall cx cy i n, Q (cx, cy, fst (pos cx cy i n), snd (pos cx cy i n)).

Lemma loop_from_coords f n cx cy colors l i :
  Forall (fun nd => forall x y, Forall Q (line_coords (f nd x y))) l ->
  Forall Q (line_coords (loop_from f pos n cx cy colors l i)).
Proof.
  intros Hl. revert i. induction Hl as [|nd l Hnd Hl IH]; intros i; [constructor|].
  cbn [loop_from]. specialize (Hpos cx cy i n).
  destruct (pos cx cy i n) as [x y]. cbn [line_coords].
  rewrite line_coords_app. constructor; [exact Hpos|]. apply Forall_app. auto.
Qed.

Lemma draw_child_coords nd x y colors fs :
  Forall Q (line_coords (draw_child pos nd x y colors fs)).
Proof.
  revert x y. induction nd as [i t lv cs IH] using node_ind'. intros x y.
  destruct cs as [|c rest]; cbn [draw_child];
    rewrite ?app_nil_r, ?line_coords_app, ?draw_node_coords; [constructor|].
  apply loop_from_coords. by apply Forall_cons in IH as [_ IH].
Qed.

(** Every edge a layout draws satisfies what its position formula
    guarantees of one parent-child pair. *)
Lemma draw_layout_coords nodes cx cy colors fm fs :
  Forall Q (line_coords (draw_layout pos nodes cx cy colors fm fs)).
Proof.
  destruct nodes as [|c rest]; simpl; [constructor|].
  rewrite line_coords_app, draw_node_coords. apply loop_from_coords.
  apply Forall_forall. intros nd _ x y. apply draw_child_coords.
Qed.
End Geometry.

(** ** Theorems *)

Section LayoutTheorems.
Context `{PIL}.
Implicit Types (colors : palette).

Lemma draw_layout_counts pos nodes cx cy colors fm fs :
  countb is_line_call (draw_layout pos nodes cx cy colors fm fs) = layout_edges nodes /\
  countb is_ellipse_call (draw_layout pos nodes cx cy colors fm fs) = layout_circles nodes.
Proof.
  destruct nodes as [|c rest]; [done|]. cbn [draw_layout layout_edges layout_circles].
  rewrite !countb_app, draw_node_lines, draw_node_circles. unfold children_loop. split.
  - rewrite (loop_from_countb _ 1%nat _ _ _ _ _ _ child_edges); [reflexivity|done|].
    apply Forall_forall. intros nd _ x y. apply draw_child_lines.
  - rewrite (loop_from_countb _ 0%nat _ _ _ _ _ _ child_circles); [reflexivity|done|].
    apply Forall_forall. intros nd _ x y. apply draw_child_circles.
Qed.

Lemma draw_nodes_cases nodes cx cy colors fm fs layout :
  exists pos, pos ∈ [radial_pos; tree_pos; horizontal_pos; vertical_pos] /\
    _draw_nodes nodes cx cy colors fm fs layout = draw_layout pos nodes cx cy colors fm fs.
Proof.
  destruct nodes as [|c rest]; [exists vertical_pos; split; [set_solver|done]|].
  unfold _draw_nodes. repeat case_bool_decide; eexists; (split; [|reflexivity]); set_solver.
Qed.

(** C8: for every layout name, the number of edges and of node circles
    [_draw_nodes] draws is [layout_edges] and [layout_circles] of the
    node list: [nodes[0]] is drawn as a centre without its own
    children, and for every other node the first of its children is
    drawn as a centre on top of it, so that child's subtree is lost. *)
Theorem draw_nodes_counts nodes cx cy colors fm fs layout :
  countb is_line_call (_draw_nodes nodes cx cy colors fm fs layout) = layout_edges nodes /\
  countb is_ellipse_call (_draw_nodes nodes cx cy colors fm fs layout) = layout_circles nodes.
Proof.
  destruct (draw_nodes_cases nodes cx cy colors fm fs layout) as (pos & _ & ->).
  apply draw_layout_counts.
Qed.

(** called, as [create_mind_map_image] does, on the one-element list
    [[center_node]], every layout draws the centre node and nothing else:
    its children are never visited. *)
Lemma draw_nodes_center_only c cx cy colors fm fs layout :
  _draw_nodes [c] cx cy colors fm fs layout =
    _draw_node cx cy (text c) (colors.[K_node]) (colors.[K_text]) fm true.
Proof.
  destruct (draw_nodes_cases [c] cx cy colors fm fs layout) as (pos & _ & ->).
  simpl. apply app_nil_r.
Qed.

(** C10: the tree and vertical layouts draw every edge 120 pixels
    downwards, so no edge of theirs has length zero; every horizontal
    edge stays on its parent's row; every radial edge runs along the
    diagonal [x - cx = y - cy] (the spec promises a circle of radius
    200). *)
Theorem layout_edge_directions nodes cx cy colors fm fs :
  Forall (fun '(x1, y1, x2, y2) => y2 = y1 + 120)
    (line_coords (_draw_tree_layout nodes cx cy colors fm fs)) /\
  Forall (fun '(x1, y1, x2, y2) => y2 = y1 + 120)
    (line_coords (_draw_vertical_layout nodes cx cy colors fm fs)) /\
  Forall (fun '(x1, y1, x2, y2) => y2 = y1)
    (line_coords (_draw_horizontal_layout nodes cx cy colors fm fs)) /\
  Forall (fun '(x1, y1, x2, y2) => x2 - x1 = y2 - y1)
    (line_coords (_draw_radial_layout nodes cx cy colors fm fs)).
Proof.
  repeat split; apply draw_layout_coords; intros; simpl; lia.
Qed.
End LayoutTheorems.

Section Degenerate.
Context `{PIL}.
Implicit Types (colors : palette).

Lemma loop_from_edge_in f pos n cx cy colors l i k :
  i <= k < i + Z.of_nat (length l) ->
  (cx, cy, fst (pos cx cy k n), snd (pos cx cy k n))
    ∈ line_coords (loop_from f pos n cx cy colors l i).
Proof.
  revert i. induction l as [|nd l IH]; intros i Hk; simpl in Hk; [lia|].
  cbn [loop_from]. destruct (Z.eq_dec k i) as [->|Hne].
  - destruct (pos cx cy i n) as [x y]. cbn [line_coords]. left.
  - specialize (IH (i + 1) ltac:(lia)).
    destruct (pos cx cy i n) as [x y] eqn:E. cbn [line_coords]. right.
    rewrite line_coords_app. apply elem_of_app. by right.
Qed.

(** Child [k] of the centre, for [k] below the number of children, is
    joined to the centre by an edge ending at [pos cx cy k n]. *)
Lemma draw_layout_edge_in pos c rest cx cy colors fm fs k :
  0 <= k < Z.of_nat (length rest) ->
  (cx, cy, fst (pos cx cy k (Z.of_nat (length rest))),
           snd (pos cx cy k (Z.of_nat (length rest))))
    ∈ line_coords (draw_layout pos (c :: rest) cx cy colors fm fs).
Proof.
  intros Hk. cbn [draw_layout]. rewrite line_coords_app, draw_node_coords.
  unfold children_loop. apply loop_from_edge_in. lia.
Qed.

(** C9: as soon as the centre has a child, the radial layout draws a
    zero-length edge (its first child sits on the centre) and so does the
    horizontal layout (child [n // 2] sits on the centre); the spec
    requires every child to differ from its parent. *)
Theorem degenerate_edges c rest cx cy colors fm fs :
  rest <> [] ->
  (cx, cy, cx, cy) ∈ line_coords (_draw_radial_layout (c :: rest) cx cy colors fm fs) /\
  (cx, cy, cx, cy) ∈ line_coords (_draw_horizontal_layout (c :: rest) cx cy colors fm fs).
Proof.
  intros Hrest. assert (0 < Z.of_nat (length rest)) as Hn.
  { destruct rest; [done|simpl; lia]. }
  split.
  - pose proof (draw_layout_edge_in radial_pos c rest cx cy colors fm fs 0 ltac:(lia)) as Hin.
    unfold radial_pos, radial_offset in Hin. simpl in Hin.
    rewrite Z.div_0_l, !Z.add_0_r in Hin by lia. exact Hin.
  - set (n := Z.of_nat (length rest)) in *.
    assert (0 <= n / 2 < n) as Hk by (split; [apply Z.div_pos|apply Z.div_lt]; lia).
    pose proof (draw_layout_edge_in horizontal_pos c rest cx cy colors fm fs (n / 2) Hk) as Hin.
    unfold horizontal_pos in Hin. simpl in Hin.
    rewrite Z.sub_diag, Z.mul_0_l, Z.add_0_r in Hin. exact Hin.
Qed.
End Degenerate.

(** ** Positions of the direct children *)

Definition sumZ (l : list Z) : Z := foldr Z.add 0 l.

Lemma sumZ_app l1 l2 : sumZ (l1 ++ l2) = sumZ l1 + sumZ l2.
Proof. induction l1; simpl; lia. Qed.

(** Twice the sum of [(i - q) * s] for [i < m]. *)
Lemma sumZ_linear_offsets (m : nat) (q s : Z) :
  2 * sumZ (map (fun i => (Z.of_nat i - q) * s) (seq 0 m)) =
    (Z.of_nat m * (Z.of_nat m - 1) - 2 * Z.of_nat m * q) * s.
Proof.
  induction m as [|m IH]; [reflexivity|].
  rewrite seq_S, map_app, sumZ_app. simpl. rewrite Z.mul_add_distr_l, IH. lia.
Qed.

(** The x offsets, relative to the centre, of the [n] direct children. *)
Definition child_x_offsets (pos : Z -> Z -> Z -> Z -> Z * Z) (n : nat) : list Z :=
  map (fun i => fst (pos 0 0 (Z.of_nat i) (Z.of_nat n))) (seq 0 n).

(** C11: the tree layout is centred on its parent only for an odd number
    of children: for an even number [n] the offsets [(i - n // 2) * 300]
    sum to [-(n/2) * 300], i.e. the row is shifted half a spacing to the
    left (the spec says children are placed symmetrically). *)
Theorem tree_offsets_sum n :
  sumZ (child_x_offsets tree_pos n) =
    if Nat.even n then - (Z.of_nat n / 2) * 300 else 0.
Proof.
  unfold child_x_offsets, tree_pos. simpl.
  pose proof (sumZ_linear_offsets n (Z.of_nat n / 2) 300) as Hs.
  erewrite map_ext in Hs; [|intros i; rewrite <-(Z.add_0_l ((_ - _) * 300)); reflexivity].
  destruct (Nat.even n) eqn:E.
  - apply Nat.even_spec in E as [k ->].
    replace (Z.of_nat (2 * k) / 2) with (Z.of_nat k) in *
      by (rewrite Nat2Z.inj_mul, Z.mul_comm, Z.div_mul; lia).
    nia.
  - assert (Nat.odd n = true) as [k ->]%Nat.odd_spec by (by rewrite <-Nat.negb_even, E).
    replace (Z.of_nat (2 * k + 1) / 2) with (Z.of_nat k) in *
      by (Z.div_mod_to_equations; lia).
    nia.
Qed.

(** C12: a node circle is never smaller than 40 pixels for the centre and
    30 pixels for any other node, and grows with the width of its label. *)
Theorem node_radius_bounds (tw tw' : Z) (is_center : bool) :
  tw <= tw' ->
  (if is_center then 40 else 30) <= node_radius tw is_center <= node_radius tw' is_center.
Proof.
  intros Hw. assert (tw / 2 <= tw' / 2) by (apply Z.div_le_mono; lia).
  unfold node_radius. destruct is_center; lia.
Qed.

(** [_draw_nodes] draws an unknown layout name with the vertical
    layout. *)
Theorem draw_nodes_fallback `{PIL} nodes cx cy colors fm fs layout :
  layout ∉ [lit "radial"; lit "tree"; lit "horizontal"] ->
  _draw_nodes nodes cx cy colors fm fs layout = _draw_vertical_layout nodes cx cy colors fm fs.
Proof.
  intros Hl. destruct nodes as [|c rest]; [done|]. unfold _draw_nodes.
  rewrite !bool_decide_false by (intros ->; apply Hl; set_solver). reflexivity.
Qed.

Section Placement.
Context `{PIL}.

(** [_draw_node] draws the circle, then the label centred on the
    node to within one pixel in both directions; the label's width always
    fits inside the circle (the radius is at least half the width plus
    the padding).  The height is not taken into account. *)
Theorem node_label_placement x y t nc tc f c :
  let '(l, tp, r, b) := textbbox f t in
  exists tx ty rad,
    _draw_node x y t nc tc f c =
      [CEllipse (x - rad) (y - rad) (x + rad) (y + rad) nc tc 2; CText tx ty t tc f] /\
    x - rad <= tx /\ tx + (r - l) <= x + rad /\
    -1 <= (x - tx) - (tx + (r - l) - x) <= 0 /\ -1 <= (y - ty) - (ty + (b - tp) - y) <= 0.
Proof.
  unfold _draw_node. destruct (textbbox f t) as [[[l tp] r] b].
  do 3 eexists. split; [reflexivity|].
  unfold node_radius. destruct c; Z.div_mod_to_equations; lia.
Qed.
End Placement.

(** ** Witnesses, with the concrete Pillow of [Pil.v] *)

Definition sample_colors : palette := mk_palette "#1890ff" "#d9d9d9" "#ffffff" "#333333".
Definition sample_font : @font stub_pil := 10.
Definition sample_center : node := mkNode 0 (lit "Root") (-1) [].
Definition sample_children : list node :=
  [mkNode 1 (lit "A") 0 []; mkNode 2 (lit "B") 0 [mkNode 3 (lit "B1") 1 []]].

Lemma degenerate_edges_witness :
  sample_children <> [] /\
  (600, 200, 600, 200) ∈ line_coords (_draw_radial_layout (sample_center :: sample_children)
                                        600 200 sample_colors sample_font sample_font) /\
  (600, 200, 600, 200) ∈ line_coords (_draw_horizontal_layout (sample_center :: sample_children)
                                        600 200 sample_colors sample_font sample_font).
Proof.
  split; [discriminate|].
  apply (degenerate_edges sample_center sample_children 600 200 sample_colors sample_font sample_font).
  discriminate.
Defined.

Lemma node_radius_bounds_witness :
  0 <= 100 /\ (40 <= node_radius 0 true <= node_radius 100 true).
Proof. split; [lia|apply (node_radius_bounds 0 100 true); lia]. Defined.

Lemma draw_nodes_fallback_witness :
  (lit "spiral" ∉ [lit "radial"; lit "tree"; lit "horizontal"]) /\
  _draw_nodes (sample_center :: sample_children) 600 200 sample_colors sample_font sample_font
    (lit "spiral") =
  _draw_vertical_layout (sample_center :: sample_children) 600 200 sample_colors sample_font sample_font.
Proof.
  assert (lit "spiral" ∉ [lit "radial"; lit "tree"; lit "horizontal"]) as H
    by (apply (bool_decide_unpack _); vm_compute; reflexivity).
  split; [exact H|]. apply (draw_nodes_fallback _ 600 200 sample_colors sample_font sample_font (lit "spiral")).
  exact H.
Defined.
