(* ===== verification/Render.v ===== *)
(** The generator object and its renderer: [MindMapGenerator.__init__]
    (mindmap_service.py 21-66) and [create_mind_map_image] (129-175).
    The generator's state is its font path and its theme table; the
    renderer returns the generator it leaves behind next to its result,
    because the palette update of line 138 happens before any exception
    the drawing may raise. *)

From S2P Require Import Prelude PyValue Outline Pil Palette Layout.
Local Open Scope Z_scope.

Record generator := {
  font_path : option pystr;
  colors_table : theme_table
}.

(** Lines 23-28. *)
Definition font_paths : list pystr :=
  [lit "arial.ttf"; lit "C:/Windows/Fonts/arial.ttf"; lit "/System/Library/Fonts/Arial.ttf";
   lit "/usr/share/fonts/truetype/dejavu/DejaVuSans.ttf"].

(** [MindMapGenerator()], given [os.path.exists]: the first existing font
    path, and the literal theme table. *)
Definition init_generator (path_exists : pystr -> bool) : generator :=
  {| font_path := List.find path_exists font_paths; colors_table := default_colors |}.

Definition set_table (g : generator) (t : theme_table) : generator :=
  {| font_path := font_path g; colors_table := t |}.

Definition WIDTH : Z := 1200.
Definition HEIGHT : Z := 800.

Section Render.
Context `{PIL}.

(** Lines 145-154: the three fonts, all replaced by the default font as
    soon as one of them fails to load. *)
Definition load_fonts (path : option pystr) : font * font * font :=
  match truetype path 32, truetype path 24, truetype path 18 with
  | Some fl, Some fm, Some fs => (fl, fm, fs)
  | _, _, _ => (load_default, load_default, load_default)
  end.

(** Lines 157-168: a line of text centred horizontally at height [y]. *)
Definition centered_text (s : pystr) (y : Z) (fill : result json) (f : font) : draw_call :=
  let '(l, _, r, _) := textbbox f s in
  CText ((WIDTH - (r - l)) / 2) y s fill f.

(** [mind_map_data[key]] *)
Definition field {A} (o : option A) (key : String.string) : result A :=
  match o with Some a => Ok a | None => Err (KeyError (lit key)) end.

(** Lines 140-175, after the palette has been chosen: everything that
    can raise. *)
Definition draw_image (path : option pystr) (colors : palette) (data : mind_map_data)
    : result image :=
  img ← image_new (WIDTH, HEIGHT) (colors.[K_background]);
  let '(font_large, font_medium, font_small) := load_fonts path in
  title ← field (md_title data) "title";
  p1 ← paint [centered_text title 30 (colors.[K_text]) font_large];
  description ← field (md_description data) "description";
  p2 ← paint [centered_text description 80 (colors.[K_text]) font_small];
  nodes ← field (md_nodes data) "nodes";
  p3 ← paint (_draw_nodes nodes (WIDTH / 2) 200 colors font_medium font_small
                (get_default (md_layout data) (lit "radial")));
  Ok {| img_size := img_size img; img_background := img_background img;
        img_prims := p1 ++ p2 ++ p3 |}.

(** [create_mind_map_image(mind_map_data, style)]: lines 133-138 choose
    the palette and update it in the table, then [draw_image]; an
    exception of the update leaves what it wrote in the table. *)
Definition create_mind_map_image (g : generator) (data : mind_map_data)
    (style : option json) : generator * result image :=
  let theme := get_default (md_theme data) K_default in
  match select_palette (colors_table g) theme with
  | Err e => (g, Err e)
  | Ok (key, colors) =>
      let '(table', r) := apply_style (colors_table g) key colors style in
      (set_table g table', colors' ← r; draw_image (font_path g) colors' data)
  end.
End Render.

(** The palette a call renders with: the selected dict after the update,
    when the update does not raise. *)
Definition resolved_palette (table : theme_table) (theme : pystr) (style : option json)
    : option palette :=
  match select_palette table theme with
  | Ok (key, colors) =>
      match snd (apply_style table key colors style) with Ok p => Some p | Err _ => None end
  | Err _ => None
  end.

(** The key the palette is stored at. *)
Definition resolved_key (table : theme_table) (theme : pystr) : option pystr :=
  match select_palette table theme with Ok (key, _) => Some key | Err _ => None end.

(** ** Lemmas *)


Section RenderLemmas.
Context `{PIL}.

(** The call, unfolded on a well-formed table. *)
Lemma create_mind_map_image_unfold g data style :
  wf_table (colors_table g) ->
  exists key colors,
    select_palette (colors_table g) (get_default (md_theme data) K_default) = Ok (key, colors) /\
    colors_table g !! key = Some colors /\
    create_mind_map_image g data style =
      (set_table g (<[key := style_palette style ∪ colors]> (colors_table g)),
       match (style_writes style).2 with
       | None => draw_image (font_path g) (style_palette style ∪ colors) data
       | Some e => Err e
       end).
Proof.
  intros Hwf. destruct (select_palette_ok (colors_table g) (get_default (md_theme data) K_default) Hwf)
    as (key & colors & Hsel & Hk & _).
  exists key, colors. split; [done|]. split; [done|].
  unfold create_mind_map_image. rewrite Hsel, (apply_style_eq _ _ _ _ Hk).
  by destruct (style_writes style).2.
Qed.

Lemma is_ok_image_new size c : is_ok (image_new size c) = background_ok c.
Proof. unfold image_new, background_ok. unfold_bind. by destruct (new_fill c). Qed.

Lemma is_ok_centered_text s y fill f : call_ok (centered_text s y fill f) = colour_ok fill.
Proof. unfold centered_text. by destruct (textbbox f s) as [[[? ?] ?] ?]. Qed.

Lemma call_ok_draw_node x y t nc tc f c :
  forallb call_ok (_draw_node x y t nc tc f c) = colour_ok nc && colour_ok tc && colour_ok tc.
Proof. unfold _draw_node. destruct (textbbox f t) as [[[? ?] ?] ?]. simpl. by rewrite andb_true_r. Qed.

(** [draw_image] on a diagram with a title, a description and nodes: it
    succeeds when the background and every call's colours are good, and
    the image holds what [paint] makes of the calls. *)
Lemma draw_image_calls path colors data t dsc nodes :
  md_title data = Some t -> md_description data = Some dsc -> md_nodes data = Some nodes ->
  let '(fl, fm, fs) := load_fonts path in
  let calls := [centered_text t 30 (colors.[K_text]) fl;
                centered_text dsc 80 (colors.[K_text]) fs] ++
               _draw_nodes nodes (WIDTH / 2) 200 colors fm fs
                 (get_default (md_layout data) (lit "radial")) in
  is_ok (draw_image path colors data) =
    background_ok (colors.[K_background]) && forallb call_ok calls /\
  (forall img, draw_image path colors data = Ok img -> paint calls = Ok (img_prims img)).
Proof.
  intros Ht Hd Hn. unfold draw_image. rewrite Ht, Hd, Hn.
  destruct (load_fonts path) as [[fl fm] fs]. cbn [field forallb app].
  rewrite <-(is_ok_image_new (WIDTH, HEIGHT)).
  pose proof (is_ok_paint [centered_text t 30 (colors.[K_text]) fl]) as H1.
  pose proof (is_ok_paint [centered_text dsc 80 (colors.[K_text]) fs]) as H2.
  pose proof (is_ok_paint (_draw_nodes nodes (WIDTH / 2) 200 colors fm fs
                             (get_default (md_layout data) (lit "radial")))) as H3.
  cbn [forallb] in H1, H2. rewrite andb_true_r in H1, H2. rewrite <-H1, <-H2, <-H3.
  cbn [paint]. unfold mbind, result_bind, rbind.
  split; [case_results; reflexivity|].
  intros img Himg. case_results; simplify_eq; reflexivity.
Qed.

(** On a generated diagram the layout calls are the centre node's. *)
Lemma generated_fields title description content theme layout now start :
  let d := fst (generate_mind_map_data title description content theme layout now start) in
  exists center,
    md_title d = Some title /\ md_description d = Some description /\
    md_nodes d = Some [center] /\ md_theme d = Some theme /\ md_layout d = Some layout /\
    text center = title.
Proof.
  unfold generate_mind_map_data. destruct (parse_content content start) as [nodes next].
  eexists. repeat split.
Qed.
End RenderLemmas.

Lemma select_palette_insert table theme key colors colors' :
  wf_table table -> select_palette table theme = Ok (key, colors) ->
  select_palette (<[key := colors']> table) theme = Ok (key, colors').
Proof.
  intros Hwf Hsel. destruct (select_palette_ok table theme Hwf) as (k & c & Hs & Hk & Hcase).
  rewrite Hs in Hsel. simplify_eq. unfold select_palette.
  destruct Hwf as [[d Hd] _].
  rewrite (getitem_ok _ _ (if decide (key = K_default) then colors' else d)) by
    (rewrite lookup_insert; case_decide; [done|exact Hd]).
  cbn. destruct Hcase as [->|[-> Hnone]].
  - by rewrite lookup_insert_eq.
  - rewrite lookup_insert_ne by (intros <-; rewrite Hd in Hnone; discriminate).
    rewrite Hnone. by rewrite decide_True.
Qed.

Lemma set_table_id g : set_table g (colors_table g) = g.
Proof. by destruct g. Qed.

Section RenderTheorems.
Context `{PIL}.

Lemma centered_text_kind s y fill f :
  is_line_call (centered_text s y fill f) = false /\ is_ellipse_call (centered_text s y fill f) = false.
Proof. unfold centered_text. by destruct (textbbox f s) as [[[? ?] ?] ?]. Qed.

Lemma draw_node_length x y t nc tc f c : length (_draw_node x y t nc tc f c) = 2%nat.
Proof. unfold _draw_node. by destruct (textbbox f t) as [[[? ?] ?] ?]. Qed.

(** the theme-table invariant (a default palette, four colours in
    every palette) holds after [create_mind_map_image] whenever it held
    before, whatever the diagram and the style. *)
Lemma create_preserves_wf g data style :
  wf_table (colors_table g) -> wf_table (colors_table (fst (create_mind_map_image g data style))).
Proof.
  intros Hwf. destruct (create_mind_map_image_unfold g data style Hwf) as (key & c & _ & Hk & ->).
  pose proof (apply_style_wf _ key c style Hwf Hk) as [Hst _].
  by rewrite (apply_style_eq _ _ _ _ Hk) in Hst.
Qed.

(** A style stored by one call is the palette of the next call without a
    style: redrawing the diagram gives the same image. *)
Lemma redraw_after_create g d s g' img :
  wf_table (colors_table g) -> create_mind_map_image g d (Some s) = (g', Ok img) ->
  snd (create_mind_map_image g' d None) = Ok img.
Proof.
  intros Hwf Hc. destruct (create_mind_map_image_unfold g d (Some s) Hwf) as (key & c & Hsel & Hk & Hu).
  rewrite Hu in Hc. destruct (style_writes (Some s)).2; [done|]. injection Hc as <- Hdraw.
  unfold create_mind_map_image. cbn [colors_table set_table font_path].
  rewrite (select_palette_insert _ _ _ c (style_palette (Some s) ∪ c) Hwf Hsel). exact Hdraw.
Qed.

(** The calls [create_mind_map_image] makes on a generated diagram: the
    title, the description and the centre node, in the palette in use. *)
Lemma generated_image_calls g title description content theme layout now start style p :
  wf_table (colors_table g) ->
  resolved_palette (colors_table g) theme style = Some p ->
  let d := fst (generate_mind_map_data title description content theme layout now start) in
  exists fl fm fs center,
    let calls := [centered_text title 30 (p.[K_text]) fl; centered_text description 80 (p.[K_text]) fs] ++
                 _draw_node (WIDTH / 2) 200 (text center) (p.[K_node]) (p.[K_text]) fm true in
    is_ok (snd (create_mind_map_image g d style)) =
      background_ok (p.[K_background]) && forallb call_ok calls /\
    (forall img, snd (create_mind_map_image g d style) = Ok img -> paint calls = Ok (img_prims img)).
Proof.
  intros Hwf Hres d.
  destruct (generated_fields title description content theme layout now start)
    as (center & Ht & Hd & Hn & Hth & _ & _).
  destruct (create_mind_map_image_unfold g d style Hwf) as (key & c & Hsel & Hk & ->).
  unfold d in Hsel. rewrite Hth in Hsel. cbn [get_default] in Hsel.
  unfold resolved_palette in Hres. rewrite Hsel in Hres.
  destruct (snd (apply_style _ _ _ _)) as [p'|] eqn:Eap; [|done]. injection Hres as ->.
  destruct (apply_style_ok _ _ _ _ _ Hk Eap) as [-> ->]. cbn [snd].
  pose proof (draw_image_calls (font_path g) (style_palette style ∪ c)
                d title description [center] Ht Hd Hn) as Hcalls.
  destruct (load_fonts (font_path g)) as [[fl fm] fs].
  rewrite draw_nodes_center_only in Hcalls. exists fl, fm, fs, center. exact Hcalls.
Qed.

(** Rendering a generated diagram succeeds exactly when the background,
    text and node colours of the palette in use parse. *)
Lemma generated_render_ok g title description content theme layout now start style p :
  wf_table (colors_table g) ->
  resolved_palette (colors_table g) theme style = Some p ->
  is_ok (snd (create_mind_map_image g
               (fst (generate_mind_map_data title description content theme layout now start)) style)) =
    background_ok (p.[K_background]) && colour_ok (p.[K_text]) && colour_ok (p.[K_node]).
Proof.
  intros Hwf Hres.
  destruct (generated_image_calls g title description content theme layout now start style p Hwf Hres)
    as (fl & fm & fs & center & Hok & _).
  rewrite Hok. cbn [forallb app]. rewrite !is_ok_centered_text, call_ok_draw_node.
  destruct (background_ok (p.[K_background])), (colour_ok (p.[K_text])), (colour_ok (p.[K_node]));
    reflexivity.
Qed.

(** C2: once the style update has gone through, rendering a diagram made
    by [generate_mind_map_data] succeeds exactly when Pillow accepts the
    background, text and node colours of the palette in use (the line
    colour is never used), and then the image holds four primitives:
    title, description, one circle and its label; no edge and none of the
    outline's nodes is drawn. *)
Theorem render_generated g title description content theme layout now start style p :
  wf_table (colors_table g) ->
  resolved_palette (colors_table g) theme style = Some p ->
  let d := fst (generate_mind_map_data title description content theme layout now start) in
  is_ok (snd (create_mind_map_image g d style)) =
    background_ok (p.[K_background]) && colour_ok (p.[K_text]) &&
    colour_ok (p.[K_node]) /\
  (forall img, snd (create_mind_map_image g d style) = Ok img ->
     length (img_prims img) = 4%nat /\ countb is_ellipse (img_prims img) = 1%nat /\
     countb is_line (img_prims img) = 0%nat).
Proof.
  intros Hwf Hres d. split; [by apply generated_render_ok|].
  destruct (generated_image_calls g title description content theme layout now start style p Hwf Hres)
    as (fl & fm & fs & center & _ & Himg).
  intros img Hi. apply Himg, paint_counts in Hi as (Hlen & Hli & Hel).
  rewrite Hlen, Hli, Hel. cbn [app length].
  rewrite draw_node_length, !countb_cons, draw_node_lines, draw_node_circles.
  destruct (centered_text_kind title 30 (p.[K_text]) fl) as [-> ->].
  destruct (centered_text_kind description 80 (p.[K_text]) fs) as [-> ->].
  repeat split.
Qed.

(** C3: a style sent with one request stays in the generator: the
    next request for the same theme without any style renders with the
    palette overridden by what [colors.update(style)] wrote, whether the
    update finished or raised part-way (the spec says requests share no
    mutable state). *)
Theorem style_override_leaks g data s theme colors :
  wf_table (colors_table g) -> md_theme data = Some theme ->
  resolved_palette (colors_table g) theme None = Some colors ->
  resolved_palette (colors_table (fst (create_mind_map_image g data (Some s)))) theme None =
    Some (style_palette (Some s) ∪ colors).
Proof.
  intros Hwf Hth Hres.
  destruct (create_mind_map_image_unfold g data (Some s) Hwf) as (key & c & Hsel & _ & ->).
  rewrite Hth in Hsel. cbn [get_default] in Hsel.
  unfold resolved_palette in *. rewrite Hsel in Hres. cbn [apply_style snd] in Hres.
  injection Hres as <-. cbn [fst colors_table set_table].
  by rewrite (select_palette_insert _ _ _ c (style_palette (Some s) ∪ c) Hwf Hsel).
Qed.

End RenderTheorems.

(** ** Unknown themes *)

Lemma select_palette_unknown table theme :
  wf_table table -> table !! theme = None -> select_palette table theme = select_palette table K_default.
Proof.
  intros [[dflt Hd] _] Hnone. unfold select_palette. rewrite (getitem_ok _ _ _ Hd).
  unfold_bind. cbn [rbind]. by rewrite Hnone, Hd.
Qed.

Section ThemeAndTitle.
Context `{PIL}.

(** [draw_image] reads the title, description, nodes and layout of the
    diagram, not its theme. *)
Lemma draw_image_fields path c d1 d2 :
  md_title d1 = md_title d2 -> md_description d1 = md_description d2 ->
  md_nodes d1 = md_nodes d2 -> md_layout d1 = md_layout d2 ->
  draw_image path c d1 = draw_image path c d2.
Proof. intros E1 E2 E3 E4. unfold draw_image. by rewrite E1, E2, E3, E4. Qed.

(** C20: a theme name the table does not hold behaves exactly as
    ["default"]: the same image, and the same update of the table (the
    style is written into the default palette). *)
Theorem unknown_theme_is_default g d1 d2 theme style :
  wf_table (colors_table g) -> colors_table g !! theme = None ->
  md_theme d1 = Some theme -> md_theme d2 = Some K_default ->
  md_title d1 = md_title d2 -> md_description d1 = md_description d2 ->
  md_nodes d1 = md_nodes d2 -> md_layout d1 = md_layout d2 ->
  create_mind_map_image g d1 style = create_mind_map_image g d2 style.
Proof.
  intros Hwf Hnone Ht1 Ht2 E1 E2 E3 E4. unfold create_mind_map_image.
  rewrite Ht1, Ht2. cbn [get_default]. rewrite (select_palette_unknown _ _ Hwf Hnone).
  destruct (select_palette _ K_default) as [[k c]|e]; [|done].
  destruct (apply_style _ _ _ _) as [t [p|e]]; f_equal. cbn [mbind result_bind rbind].
  by apply draw_image_fields.
Qed.

(** The title and the description are centred on the 1200-pixel
    canvas to within one pixel: the right margin is the left one or one
    more ([//] rounds down). *)
Theorem title_centred s y fill f :
  let '(l, _, r, _) := textbbox f s in
  exists x, centered_text s y fill f = CText x y s fill f /\
    0 <= (WIDTH - (x + (r - l))) - x <= 1.
Proof.
  unfold centered_text. destruct (textbbox f s) as [[[l t] r] b].
  eexists. split; [reflexivity|]. unfold WIDTH. Z.div_mod_to_equations. lia.
Qed.
End ThemeAndTitle.

Section RenderErrors.
Context `{PIL}.

(** A background Pillow rejects makes [Image.new] raise, before anything
    is drawn. *)
Lemma draw_image_bad_background path colors d b e :
  colors !! K_background = Some b -> new_fill (Ok b) = Err e ->
  draw_image path colors d = Err e.
Proof.
  intros Hb He. unfold draw_image, image_new. rewrite (getitem_ok _ _ _ Hb).
  unfold_bind. by rewrite He.
Qed.

(** A failed conversion of [p[k]], for a key the palette has, is the
    conversion of the value stored there. *)
Lemma palette_colour_err p k e :
  full_palette p -> k ∈ palette_keys -> ink (p.[k]) = Err e ->
  exists c, p !! k = Some c /\ ink (Ok c) = Err e.
Proof.
  unfold full_palette. rewrite Forall_forall. intros Hp Hk.
  destruct (Hp k Hk) as [v Hv]. rewrite (getitem_ok _ _ _ Hv). eauto.
Qed.

(** On a generated diagram and a full palette, [draw_image] can only
    raise what Pillow raises on one of the palette's colours. *)
Lemma draw_image_generated_err path p title description content theme layout now start e :
  full_palette p ->
  draw_image path p (fst (generate_mind_map_data title description content theme layout now start))
    = Err e ->
  exists k c, k ∈ palette_keys /\ p !! k = Some c /\ ink (Ok c) = Err e.
Proof.
  intros Hp. destruct (generated_fields title description content theme layout now start)
    as (center & Ht & Hd & Hn & _ & _ & _).
  assert (forall k, k ∈ palette_keys -> ink (p.[k]) = Err e ->
            exists k c, k ∈ palette_keys /\ p !! k = Some c /\ ink (Ok c) = Err e) as Hk.
  { intros k Hk He. destruct (palette_colour_err p k e Hp Hk He) as (c & ? & ?). eauto. }
  unfold draw_image. rewrite Ht, Hd, Hn. destruct (load_fonts path) as [[fl fm] fs].
  unfold mbind, result_bind, rbind. cbn [field]. rewrite draw_nodes_center_only.
  destruct (image_new _ _) eqn:E0.
  2:{ intros [= ->]. unfold image_new in E0. unfold_bind.
      destruct (new_fill (p.[K_background])) eqn:Ei; simplify_eq.
      apply (Hk K_background); [set_solver|by apply new_fill_err]. }
  case_results; intros; simplify_eq;
    match goal with H : paint _ = Err _ |- _ => apply paint_err in H as (c & Hc & Hi) end;
    revert Hc; unfold centered_text, _draw_node; repeat case_match;
    cbn [map concat call_colours app]; intros Hc; apply list_elem_of_In in Hc; cbn [In] in Hc;
    repeat (destruct Hc as [<-|Hc];
            [first [apply (Hk K_text); [set_solver|done] | apply (Hk K_node); [set_solver|done]]|]);
    destruct Hc.
Qed.
End RenderErrors.

(** ** Witnesses, with the concrete Pillow of [Pil.v] *)

Definition sample_generator : generator := init_generator (fun _ => false).
Definition sample_data : mind_map_data :=
  fst (generate_mind_map_data (lit "Root") (lit "notes") (lit "A" ++ [10] ++ lit "  B")
         (lit "business") (lit "tree") (lit "2026-11-09T00:00:00") 0).
Definition sample_style : json := JObj [(K_background, JStr (lit "#000000"))].
Definition business_palette : palette := mk_palette "#52c41a" "#8c8c8c" "#fafafa" "#262626".

Lemma render_generated_witness :
  wf_table (colors_table sample_generator) /\
  resolved_palette (colors_table sample_generator) (lit "business") None = Some business_palette /\
  (is_ok (snd (@create_mind_map_image stub_pil sample_generator sample_data None)) =
     background_ok (getitem business_palette K_background) && colour_ok (getitem business_palette K_text) &&
     colour_ok (getitem business_palette K_node) /\
   (forall img, snd (@create_mind_map_image stub_pil sample_generator sample_data None) = Ok img ->
      length (img_prims img) = 4%nat /\ countb is_ellipse (img_prims img) = 1%nat /\
      countb is_line (img_prims img) = 0%nat)).
Proof.
  assert (resolved_palette (colors_table sample_generator) (lit "business") None =
            Some business_palette) as Hres by (vm_compute; reflexivity).
  split; [apply default_colors_wf|split; [exact Hres|]].
  apply (render_generated sample_generator (lit "Root") (lit "notes") (lit "A" ++ [10] ++ lit "  B")
           (lit "business") (lit "tree") (lit "2026-11-09T00:00:00") 0 None business_palette).
  - apply default_colors_wf.
  - exact Hres.
Defined.

Lemma style_override_leaks_witness :
  wf_table (colors_table sample_generator) /\ md_theme sample_data = Some (lit "business") /\
  resolved_palette (colors_table sample_generator) (lit "business") None = Some business_palette /\
  resolved_palette (colors_table (fst (@create_mind_map_image stub_pil sample_generator sample_data
                                       (Some sample_style)))) (lit "business") None =
    Some (style_palette (Some sample_style) ∪ business_palette).
Proof.
  assert (resolved_palette (colors_table sample_generator) (lit "business") None =
            Some business_palette) as Hres by (vm_compute; reflexivity).
  split; [apply default_colors_wf|split; [reflexivity|split; [exact Hres|]]].
  apply (style_override_leaks sample_generator sample_data sample_style (lit "business")
           business_palette); [apply default_colors_wf|reflexivity|exact Hres].
Defined.

Definition neon_data : mind_map_data :=
  fst (generate_mind_map_data (lit "Root") (lit "notes") (lit "A") (lit "neon") (lit "tree")
         (lit "2026-11-09T00:00:00") 0).
Definition default_data : mind_map_data :=
  fst (generate_mind_map_data (lit "Root") (lit "notes") (lit "A") (lit "default") (lit "tree")
         (lit "2026-11-09T00:00:00") 0).

Lemma unknown_theme_is_default_witness :
  colors_table sample_generator !! lit "neon" = None /\
  @create_mind_map_image stub_pil sample_generator neon_data (Some sample_style) =
    create_mind_map_image sample_generator default_data (Some sample_style).
Proof.
  assert (colors_table sample_generator !! lit "neon" = None) as Hn by (vm_compute; reflexivity).
  split; [exact Hn|].
  apply (unknown_theme_is_default sample_generator neon_data default_data (lit "neon")
           (Some sample_style)); [apply default_colors_wf|exact Hn|..];
    vm_compute; reflexivity.
Defined.
