(* ===== verification/Service.v ===== *)
(** The service layer: [MindMapService.generate_mindmap] and
    [download_mindmap] (mindmap_service.py 350-416) and the Flask handlers
    of app.py that call them through the module-level service
    [mindmap_service] (line 408; app.py's own instance, line 36, is never
    used).  The server state is that one generator plus the uuid counter;
    a request is a function from the state to the next state and a
    response, and [reachable] closes the request steps. *)

From S2P Require Import Prelude PyValue Outline Pil Palette Layout Render.
Local Open Scope Z_scope.

Record service := {
  svc_gen : generator;
  svc_uuid : N
}.

(** The JSON body of a generate or preview request; [None] is an absent key. *)
Record request := {
  rq_title : option pystr;
  rq_description : option pystr;
  rq_content : option pystr;
  rq_theme : option pystr;
  rq_layout : option pystr;
  rq_style : option json
}.

(** [style = request_data.get('style', {})], as [create_mind_map_image]
    receives it. *)
Definition request_style (req : request) : option json := Some (get_default (rq_style req) (JObj [])).

(** ['思维导图'], the default title of line 359. *)
Definition default_title : pystr := [24605; 32500; 23548; 22270].

(** ['图片生成失败: '], the prefix of line 405. *)
Definition msg_image_failed : pystr := [22270; 29255; 29983; 25104; 22833; 36133] ++ lit ": ".

Section Service.
Context `{PIL}.

Inductive gen_response :=
| GenSuccess (data : mind_map_data) (img : image)
| GenFailure (e : py_exc).

(** [generate_mindmap(request_data)] at time [now]. *)
Definition generate_mindmap (svc : service) (req : request) (now : pystr)
    : service * gen_response :=
  let title := get_default (rq_title req) default_title in
  let description := get_default (rq_description req) [] in
  let content := get_default (rq_content req) [] in
  let theme := get_default (rq_theme req) K_default in
  let layout := get_default (rq_layout req) (lit "radial") in
  let style := get_default (rq_style req) (JObj []) in
  let '(d, next) := generate_mind_map_data title description content theme layout now
                      (svc_uuid svc) in
  let '(g', r) := create_mind_map_image (svc_gen svc) d (Some style) in
  ({| svc_gen := g'; svc_uuid := next |},
   match r with Ok img => GenSuccess d img | Err e => GenFailure e end).

(** [download_mindmap(mind_map_data)]: re-renders without a style; its
    [except Exception as e: raise Exception(f"图片生成失败: {str(e)}")]
    (lines 404-405) wraps whatever the renderer raised. *)
Definition download_mindmap (svc : service) (d : mind_map_data) : service * result image :=
  let '(g', r) := create_mind_map_image (svc_gen svc) d None in
  ({| svc_gen := g'; svc_uuid := svc_uuid svc |},
   match r with
   | Ok img => Ok img
   | Err e => Err (Exception (msg_image_failed ++ str_exc e))
   end).

(** ** The Flask handlers (app.py) *)

Inductive http_body :=
| MissingField (field : pystr)
| NoNodes
| GenerateBody (r : gen_response)
| PreviewBody (img : image)
| PreviewError (e : py_exc)
| PngFile (img : image)
| DownloadError (e : py_exc).

Record http_response := { status : Z; body : http_body }.

(** Python truthiness of [data.get(field)] for a string field. *)
Definition truthy (o : option pystr) : bool :=
  match o with Some (_ :: _) => true | _ => false end.

(** Lines 56-63 and 144-151: [title] then [content] must be non-empty. *)
Definition validate (req : request) : option pystr :=
  if negb (truthy (rq_title req)) then Some (lit "title")
  else if negb (truthy (rq_content req)) then Some (lit "content")
  else None.

(** [POST /api/mindmap/generate] (app.py 43-81). *)
Definition http_generate (svc : service) (req : request) (now : pystr)
    : service * http_response :=
  match validate req with
  | Some f => (svc, {| status := 400; body := MissingField f |})
  | None =>
      let '(svc', r) := generate_mindmap svc req now in
      (svc', {| status := match r with GenSuccess _ _ => 200 | GenFailure _ => 500 end;
                body := GenerateBody r |})
  end.

(** [POST /api/mindmap/preview] (app.py 131-173). *)
Definition http_preview (svc : service) (req : request) (now : pystr)
    : service * http_response :=
  match validate req with
  | Some f => (svc, {| status := 400; body := MissingField f |})
  | None =>
      let '(svc', r) := generate_mindmap svc req now in
      (svc', match r with
             | GenSuccess _ img => {| status := 200; body := PreviewBody img |}
             | GenFailure e => {| status := 500; body := PreviewError e |}
             end)
  end.

(** [POST /api/mindmap/download] (app.py 83-129): [nodes] must be a
    non-empty list. *)
Definition http_download (svc : service) (d : mind_map_data) : service * http_response :=
  match md_nodes d with
  | None | Some [] => (svc, {| status := 400; body := NoNodes |})
  | Some _ =>
      let '(svc', r) := download_mindmap svc d in
      (svc', match r with
             | Ok img => {| status := 200; body := PngFile img |}
             | Err e => {| status := 500; body := DownloadError e |}
             end)
  end.

(** ** The server as a state machine *)

Inductive step : service -> service -> Prop :=
| step_generate svc req now : step svc (fst (http_generate svc req now))
| step_preview svc req now : step svc (fst (http_preview svc req now))
| step_download svc d : step svc (fst (http_download svc d)).

(** The state at import time, given which font files exist. *)
Definition init_service (path_exists : pystr -> bool) : service :=
  {| svc_gen := init_generator path_exists; svc_uuid := 0 |}.

Definition reachable (svc : service) : Prop :=
  exists path_exists, rtc step (init_service path_exists) svc.

(** A sequence of generate requests, with their responses. *)
Fixpoint run_generates (svc : service) (reqs : list (request * pystr)) : list gen_response :=
  match reqs with
  | [] => []
  | (req, now) :: reqs' =>
      let '(svc', r) := generate_mindmap svc req now in r :: run_generates svc' reqs'
  end.
End Service.

(** [GET /api/mindmap/themes] (app.py 175-199): the theme values listed. *)
Definition listed_themes : list pystr :=
  [lit "default"; lit "business"; lit "creative"; lit "education"; lit "technology"].

(** [GET /api/mindmap/layouts] (app.py 201-224): the layout values listed. *)
Definition listed_layouts : list pystr :=
  [lit "radial"; lit "tree"; lit "horizontal"; lit "vertical"].

(** ** Lemmas *)

(** The invariant of the server: the theme table is well formed and has
    the keys it started with. *)
Definition svc_inv (svc : service) : Prop :=
  wf_table (colors_table (svc_gen svc)) /\ dom (colors_table (svc_gen svc)) = dom default_colors.

Section ServiceLemmas.
Context `{PIL}.

Lemma create_dom g data style :
  wf_table (colors_table g) ->
  dom (colors_table (fst (create_mind_map_image g data style))) = dom (colors_table g).
Proof.
  intros Hwf. destruct (create_mind_map_image_unfold g data style Hwf) as (key & c & _ & Hk & ->).
  cbn [fst colors_table set_table]. pose proof (apply_style_dom _ _ _ style Hk) as Hd.
  by rewrite (apply_style_eq _ _ _ _ Hk) in Hd.
Qed.

Lemma create_inv g data style :
  wf_table (colors_table g) -> dom (colors_table g) = dom default_colors ->
  wf_table (colors_table (fst (create_mind_map_image g data style))) /\
  dom (colors_table (fst (create_mind_map_image g data style))) = dom default_colors.
Proof. intros Hwf Hdom. split; [by apply create_preserves_wf|by rewrite create_dom]. Qed.

(** [generate_mindmap] unfolded: the diagram, then the renderer. *)
Lemma generate_mindmap_unfold svc req now :
  let title := get_default (rq_title req) default_title in
  let content := get_default (rq_content req) [] in
  let theme := get_default (rq_theme req) K_default in
  let '(d, next) := generate_mind_map_data title (get_default (rq_description req) [])
                      content theme (get_default (rq_layout req) (lit "radial")) now (svc_uuid svc) in
  let '(g', r) := create_mind_map_image (svc_gen svc) d (request_style req) in
  svc_gen (fst (generate_mindmap svc req now)) = g' /\
  snd (generate_mindmap svc req now) = match r with Ok img => GenSuccess d img | Err e => GenFailure e end.
Proof.
  unfold generate_mindmap. destruct (generate_mind_map_data _ _ _ _ _ _ _) as [d next].
  by destruct (create_mind_map_image _ _ _).
Qed.

Lemma step_inv svc svc' : step svc svc' -> svc_inv svc -> svc_inv svc'.
Proof.
  intros Hstep [Hwf Hdom].
  assert (forall req now, svc_inv (fst (generate_mindmap svc req now))) as Hgen.
  { intros req now. pose proof (generate_mindmap_unfold svc req now) as Hu. cbn zeta in Hu.
    destruct (generate_mind_map_data _ _ _ _ _ _ _) as [d next].
    pose proof (create_inv (svc_gen svc) d (request_style req) Hwf Hdom) as Hi.
    destruct (create_mind_map_image _ _ _) as [g' r]. unfold svc_inv. destruct Hu as [-> _]. exact Hi. }
  destruct Hstep as [svc req now|svc req now|svc d]; cbn [fst].
  - unfold http_generate. destruct (validate req); [done|].
    specialize (Hgen req now). destruct (generate_mindmap svc req now). exact Hgen.
  - unfold http_preview. destruct (validate req); [done|].
    specialize (Hgen req now). destruct (generate_mindmap svc req now). exact Hgen.
  - unfold http_download. destruct (md_nodes d) as [[|]|]; [done| |done].
    unfold download_mindmap. pose proof (create_inv (svc_gen svc) d None Hwf Hdom) as Hi.
    destruct (create_mind_map_image _ _ _). exact Hi.
Qed.

(** A style that goes through and leaves a background Pillow rejects:
    the request fails on [Image.new] and the rejected colour is stored
    for the theme. *)
Lemma generate_bad_background svc req now th p b e :
  svc_inv svc -> colors_table (svc_gen svc) !! th = Some p -> rq_theme req = Some th ->
  (style_writes (request_style req)).2 = None ->
  (style_palette (request_style req) ∪ p) !! K_background = Some b -> new_fill (Ok b) = Err e ->
  snd (generate_mindmap svc req now) = GenFailure e /\
  svc_inv (fst (generate_mindmap svc req now)) /\
  colors_table (svc_gen (fst (generate_mindmap svc req now))) !! th =
    Some (style_palette (request_style req) ∪ p).
Proof.
  intros [Hwf Hdom] Hth Hreq Hnoexc Hb Hbad.
  pose proof (generate_mindmap_unfold svc req now) as Hu. cbn zeta in Hu. rewrite Hreq in Hu.
  destruct (generate_mind_map_data _ _ _ _ _ _ _) as [d next] eqn:Egen.
  change (get_default (Some th) K_default) with th in Egen.
  pose proof (create_inv (svc_gen svc) d (request_style req) Hwf Hdom) as Hi.
  assert (md_theme d = Some th) as Hdth.
  { destruct (generated_fields (get_default (rq_title req) default_title)
      (get_default (rq_description req) []) (get_default (rq_content req) []) th
      (get_default (rq_layout req) (lit "radial")) now (svc_uuid svc))
      as (? & _ & _ & _ & Ht & _). by rewrite Egen in Ht. }
  unfold create_mind_map_image in Hu, Hi |- *. rewrite Hdth in Hu, Hi. cbn [get_default] in Hu, Hi.
  pose proof (select_palette_present _ th p Hwf Hth) as Hsel.
  rewrite Hsel, (apply_style_eq _ _ _ _ Hth), Hnoexc in Hu, Hi. destruct Hu as [Hg Hr].
  split; [|split].
  - rewrite Hr. cbn [mbind result_bind rbind]. by rewrite (draw_image_bad_background _ _ _ b e Hb Hbad).
  - unfold svc_inv. rewrite Hg. exact Hi.
  - rewrite Hg. cbn [colors_table set_table]. apply lookup_insert_eq.
Qed.
End ServiceLemmas.

Lemma dom_default_colors : dom default_colors = list_to_set listed_themes.
Proof. apply (bool_decide_unpack _). vm_compute. reflexivity. Qed.

Section ServiceTheorems.
Context `{PIL}.

Lemma reachable_svc_inv svc : reachable svc -> svc_inv svc.
Proof.
  intros [pe Hrtc].
  assert (svc_inv (init_service pe)) as Hinit by (split; [apply default_colors_wf|reflexivity]).
  revert Hinit. induction Hrtc as [x|x y z Hxy _ IH]; [done|].
  intros Hx. apply IH. by eapply step_inv.
Qed.

(** A request for the theme whose style goes through and leaves its
    background alone. *)
Definition keeps_background (th : pystr) (req : request) : Prop :=
  rq_theme req = Some th /\ (style_writes (request_style req)).2 = None /\
  style_palette (request_style req) !! K_background = None.

Lemma poisoned_run svc reqs th p b e :
  svc_inv svc -> colors_table (svc_gen svc) !! th = Some p -> p !! K_background = Some b ->
  new_fill (Ok b) = Err e ->
  Forall (fun rn => keeps_background th rn.1) reqs ->
  run_generates svc reqs = replicate (length reqs) (GenFailure e).
Proof.
  intros Hinv Hth Hb Hbad Hreqs. revert svc p Hinv Hth Hb.
  induction Hreqs as [|[req now] reqs (Hrth & Hexc & Hst) _ IH]; intros svc p Hinv Hth Hb; [done|].
  cbn [fst] in Hrth, Hexc, Hst.
  assert ((style_palette (request_style req) ∪ p) !! K_background = Some b) as Hb'
    by (rewrite lookup_union, Hst, Hb; reflexivity).
  destruct (generate_bad_background svc req now th p b e Hinv Hth Hrth Hexc Hb' Hbad) as (Hr & Hi & Ht).
  cbn [run_generates length replicate].
  destruct (generate_mindmap svc req now) as [svc' r]. cbn [fst snd] in *. subst r.
  f_equal. by eapply IH.
Qed.

(** C5: in every state the server can reach, the theme table is well
    formed (a default palette, four colours in every palette) and holds
    exactly the themes that [GET /api/mindmap/themes] lists. *)
Theorem reachable_table_inv svc :
  reachable svc ->
  wf_table (colors_table (svc_gen svc)) /\
  dom (colors_table (svc_gen svc)) = list_to_set listed_themes.
Proof.
  intros Hr. destruct (reachable_svc_inv svc Hr) as [Hwf Hdom].
  split; [exact Hwf|]. by rewrite Hdom, dom_default_colors.
Qed.


(** C4: a request whose style gives a theme a background Pillow rejects
    (a colour string it cannot parse, or a value of another type, such as
    a list) fails, and from then on every request for that theme whose
    style goes through without overriding the background fails with the
    same error: the bad value is stored in the shared theme table. *)
Theorem bad_background_poisons_theme svc req now reqs th p b e :
  reachable svc -> colors_table (svc_gen svc) !! th = Some p -> rq_theme req = Some th ->
  (style_writes (request_style req)).2 = None ->
  (style_palette (request_style req) ∪ p) !! K_background = Some b -> new_fill (Ok b) = Err e ->
  Forall (fun rn => keeps_background th rn.1) reqs ->
  run_generates svc ((req, now) :: reqs) = replicate (S (length reqs)) (GenFailure e).
Proof.
  intros Hr Hth Hrth Hexc Hb Hbad Hreqs. pose proof (reachable_svc_inv svc Hr) as Hinv.
  destruct (generate_bad_background svc req now th p b e Hinv Hth Hrth Hexc Hb Hbad) as (Hres & Hi & Ht).
  cbn [run_generates replicate].
  destruct (generate_mindmap svc req now) as [svc' r]. cbn [fst snd] in *. subst r.
  f_equal. by eapply poisoned_run.
Qed.

(** C7: a failed update is not undone.  A request whose style is a list
    of key/value pairs followed by an element that is not a pair fails
    with the exception [dict.update] raises for that element (its index
    in the message), and the pairs before it stay written in the shared
    palette of the theme, for every later request (the spec says a
    failed request is aborted with no effect on others). *)
Theorem failed_style_persists svc req now th p ws bad rest e :
  reachable svc -> colors_table (svc_gen svc) !! th = Some p -> rq_theme req = Some th ->
  rq_style req = Some (JArr (map pair_json ws ++ bad :: rest)) ->
  merge_item (length ws) bad = inl e ->
  snd (generate_mindmap svc req now) = GenFailure e /\
  colors_table (svc_gen (fst (generate_mindmap svc req now))) !! th = Some (writes_map ws ∪ p).
Proof.
  intros Hr Hth Hrth Hst Hbad. destruct (reachable_svc_inv svc Hr) as [Hwf _].
  assert (style_writes (request_style req) = (ws, Some e)) as Hw.
  { unfold request_style. rewrite Hst. cbn [get_default style_writes].
    destruct (map pair_json ws ++ bad :: rest) as [|x l] eqn:E.
    - symmetry in E. by apply app_cons_not_nil in E.
    - cbn [jtruthy update_writes seq_items default]. rewrite <-E. by apply merge_seq_prefix. }
  pose proof (generate_mindmap_unfold svc req now) as Hu. cbn zeta in Hu. rewrite Hrth in Hu.
  destruct (generate_mind_map_data _ _ _ _ _ _ _) as [d next] eqn:Egen.
  change (get_default (Some th) K_default) with th in Egen.
  assert (md_theme d = Some th) as Hdth.
  { destruct (generated_fields (get_default (rq_title req) default_title)
      (get_default (rq_description req) []) (get_default (rq_content req) []) th
      (get_default (rq_layout req) (lit "radial")) now (svc_uuid svc))
      as (? & _ & _ & _ & Ht & _). by rewrite Egen in Ht. }
  destruct (create_mind_map_image_unfold (svc_gen svc) d (request_style req) Hwf)
    as (key & c & Hsel & _ & Hc).
  rewrite Hdth in Hsel. cbn [get_default] in Hsel.
  rewrite (select_palette_present _ th p Hwf Hth) in Hsel. injection Hsel as <- <-.
  rewrite Hc in Hu. unfold style_palette in Hu. rewrite Hw in Hu. cbn [fst snd] in Hu.
  destruct Hu as [Hg ->]. split; [done|]. rewrite Hg. cbn [colors_table set_table]. apply lookup_insert_eq.
Qed.

(** Downloading the diagram that a successful generate request just
    returned renders the same image, although the download passes no
    style: the style of the generate request is by then stored in the
    generator's theme table. *)
Theorem download_after_generate svc req now d img :
  reachable svc -> snd (generate_mindmap svc req now) = GenSuccess d img ->
  snd (download_mindmap (fst (generate_mindmap svc req now)) d) = Ok img.
Proof.
  intros Hr. destruct (reachable_svc_inv svc Hr) as [Hwf _].
  pose proof (generate_mindmap_unfold svc req now) as Hu. cbn zeta in Hu.
  destruct (generate_mind_map_data _ _ _ _ _ _ _) as [d0 next].
  destruct (create_mind_map_image _ d0 _) as [g' [img0|e]] eqn:Hc; destruct Hu as [Hg ->];
    [|discriminate]. intros [= <- <-].
  unfold download_mindmap. rewrite Hg. pose proof (redraw_after_create _ _ _ _ _ Hwf Hc) as Hd.
  destruct (create_mind_map_image g' d0 None) as [g'' r']. cbn [snd] in *. by subst r'.
Qed.

(** When [POST /api/mindmap/generate] answers 200, the request had a
    non-empty title and content, and the returned diagram is one centre
    node carrying the title whose children are the kept lines of the
    content, as flat nodes with fresh ids. *)
Theorem http_generate_success svc req now :
  status (snd (http_generate svc req now)) = 200 ->
  exists t c d img center,
    rq_title req = Some t /\ t <> [] /\ rq_content req = Some c /\ c <> [] /\
    body (snd (http_generate svc req now)) = GenerateBody (GenSuccess d img) /\
    md_nodes d = Some [center] /\ text center = t /\
    children center = flat_nodes (svc_uuid svc) (clean_lines c).
Proof.
  unfold http_generate, validate.
  destruct (rq_title req) as [[|a t]|] eqn:Ht; cbn [truthy negb]; [done| |done].
  destruct (rq_content req) as [[|b c]|] eqn:Hc; cbn [truthy negb]; [done| |done].
  unfold generate_mindmap. rewrite Ht, Hc. cbn [get_default].
  destruct (generate_mind_map_data _ _ _ _ _ _ _) as [d next] eqn:Egen.
  destruct (create_mind_map_image _ _ _) as [g' [img|e]]; cbn [snd status body]; [|discriminate].
  intros _. exists (a :: t), (b :: c), d, img.
  unfold generate_mind_map_data, parse_content in Egen. rewrite foldl_parse_line in Egen.
  cbn [app] in Egen.
  injection Egen as <- _. eexists. repeat split; done || discriminate.
Qed.
(** C27: [POST /api/mindmap/download] with a diagram that has nodes
    but no [title] answers 500 once the background colour is one
    [Image.new] accepts: the renderer reads [mind_map_data['title']]
    after [Image.new] and before drawing anything, and [download_mindmap]
    re-raises the [KeyError('title')] as
    [Exception("图片生成失败: 'title'")], whose text the handler returns. *)
Theorem download_missing_title svc d ns p :
  reachable svc -> md_nodes d = Some ns -> ns <> [] -> md_title d = None ->
  resolved_palette (colors_table (svc_gen svc)) (get_default (md_theme d) K_default) None = Some p ->
  background_ok (p.[K_background]) = true ->
  snd (http_download svc d) =
    {| status := 500; body := DownloadError (Exception (msg_image_failed ++ lit "'title'")) |}.
Proof.
  intros Hr Hn Hne Ht Hres Hbg. destruct (reachable_svc_inv svc Hr) as [Hwf _].
  unfold http_download. rewrite Hn. destruct ns as [|n ns]; [done|].
  unfold download_mindmap.
  destruct (create_mind_map_image_unfold (svc_gen svc) d None Hwf) as (key & c & Hsel & Hk & ->).
  unfold resolved_palette in Hres. rewrite Hsel, (apply_style_eq _ _ _ _ Hk) in Hres.
  cbn [style_writes snd] in Hres |- *. injection Hres as <-.
  unfold background_ok in Hbg. destruct (new_fill _) as [v|] eqn:Hv; [|done].
  unfold draw_image, image_new. unfold_bind. rewrite Hv. cbn [rbind]. destruct (load_fonts _) as [[? ?] ?].
  cbn [rbind field]. by rewrite Ht.
Qed.
End ServiceTheorems.

(** ** Witnesses, with the concrete Pillow of [Pil.v] *)

Definition sample_service : service := init_service (fun _ => false).
Definition sample_now : pystr := lit "2026-11-09T00:00:00".
Definition sample_request : request :=
  {| rq_title := Some (lit "Root"); rq_description := Some (lit "notes");
     rq_content := Some (lit "A" ++ [10] ++ lit "  B"); rq_theme := Some (lit "business");
     rq_layout := Some (lit "tree"); rq_style := None |}.
Definition bad_request : request :=
  {| rq_title := Some (lit "Root"); rq_description := Some (lit "notes");
     rq_content := Some (lit "A"); rq_theme := Some (lit "business");
     rq_layout := Some (lit "radial"); rq_style := Some (JObj [(K_background, JStr (lit "oops"))]) |}.
Definition sample_response : @gen_response stub_pil :=
  snd (generate_mindmap sample_service sample_request sample_now).
Definition empty_image : @image stub_pil :=
  {| img_size := (0, 0); img_background := (0, 0, 0); img_prims := [] |}.
Definition sample_data_out : mind_map_data :=
  match sample_response with GenSuccess d _ => d | GenFailure _ => sample_data end.
Definition sample_image_out : @image stub_pil :=
  match sample_response with GenSuccess _ i => i | GenFailure _ => empty_image end.

Lemma sample_service_reachable : @reachable stub_pil sample_service.
Proof. exists (fun _ => false). apply rtc_refl. Qed.

Lemma reachable_table_inv_witness :
  @reachable stub_pil (fst (http_generate sample_service bad_request sample_now)) /\
  wf_table (colors_table (svc_gen (fst (@http_generate stub_pil sample_service bad_request sample_now)))) /\
  dom (colors_table (svc_gen (fst (@http_generate stub_pil sample_service bad_request sample_now)))) =
    list_to_set listed_themes.
Proof.
  assert (@reachable stub_pil (fst (http_generate sample_service bad_request sample_now))) as Hr.
  { exists (fun _ => false). apply rtc_once. apply step_generate. }
  split; [exact Hr|]. apply (reachable_table_inv _ Hr).
Defined.


Definition msg_ink_type : pystr := lit "color must be int or tuple".


(** A style that stores a list as the background. *)
Definition list_background_request : request :=
  {| rq_title := Some (lit "Root"); rq_description := Some (lit "notes");
     rq_content := Some (lit "A"); rq_theme := Some (lit "business");
     rq_layout := Some (lit "radial");
     rq_style := Some (JObj [(K_background, JArr [JInt 255; JInt 0; JInt 0])]) |}.

Lemma bad_background_poisons_theme_witness :
  @reachable stub_pil sample_service /\
  colors_table (svc_gen sample_service) !! lit "business" = Some business_palette /\
  rq_theme list_background_request = Some (lit "business") /\
  (style_writes (request_style list_background_request)).2 = None /\
  (style_palette (request_style list_background_request) ∪ business_palette) !! K_background =
    Some (JArr [JInt 255; JInt 0; JInt 0]) /\
  @new_fill stub_pil (Ok (JArr [JInt 255; JInt 0; JInt 0])) = Err (TypeError msg_ink_type) /\
  Forall (fun rn => keeps_background (lit "business") rn.1) [(sample_request, sample_now)] /\
  @run_generates stub_pil sample_service
    [(list_background_request, sample_now); (sample_request, sample_now)] =
    replicate 2 (GenFailure (TypeError msg_ink_type)).
Proof.
  assert (colors_table (svc_gen sample_service) !! lit "business" = Some business_palette)
    as Hp by (vm_compute; reflexivity).
  assert ((style_writes (request_style list_background_request)).2 = None) as He by reflexivity.
  assert ((style_palette (request_style list_background_request) ∪ business_palette) !! K_background =
            Some (JArr [JInt 255; JInt 0; JInt 0])) as Hb by (vm_compute; reflexivity).
  assert (@new_fill stub_pil (Ok (JArr [JInt 255; JInt 0; JInt 0])) = Err (TypeError msg_ink_type))
    as Hg by reflexivity.
  assert (Forall (fun rn => keeps_background (lit "business") rn.1) [(sample_request, sample_now)]) as Hall
    by (repeat constructor; vm_compute; reflexivity).
  do 7 (split; [first [exact sample_service_reachable|assumption|reflexivity]|]).
  apply (bad_background_poisons_theme sample_service list_background_request sample_now
           [(sample_request, sample_now)] (lit "business") business_palette _ _
           sample_service_reachable Hp eq_refl He Hb Hg Hall).
Defined.

Lemma download_after_generate_witness :
  @reachable stub_pil sample_service /\
  snd (generate_mindmap sample_service sample_request sample_now) =
    GenSuccess sample_data_out sample_image_out /\
  snd (download_mindmap (fst (generate_mindmap sample_service sample_request sample_now))
         sample_data_out) = Ok sample_image_out.
Proof.
  assert (snd (generate_mindmap sample_service sample_request sample_now) =
            GenSuccess sample_data_out sample_image_out) as Hs by (vm_compute; reflexivity).
  split; [exact sample_service_reachable|split; [exact Hs|]].
  apply (download_after_generate sample_service sample_request sample_now _ _
           sample_service_reachable Hs).
Defined.

Lemma http_generate_success_witness :
  status (snd (@http_generate stub_pil sample_service sample_request sample_now)) = 200 /\
  exists t c d img center,
    rq_title sample_request = Some t /\ t <> [] /\ rq_content sample_request = Some c /\ c <> [] /\
    body (snd (@http_generate stub_pil sample_service sample_request sample_now)) =
      GenerateBody (GenSuccess d img) /\
    md_nodes d = Some [center] /\ text center = t /\
    children center = flat_nodes (svc_uuid sample_service) (clean_lines c).
Proof.
  assert (status (snd (@http_generate stub_pil sample_service sample_request sample_now)) = 200)
    as Hs by (vm_compute; reflexivity).
  split; [exact Hs|]. apply (http_generate_success sample_service sample_request sample_now Hs).
Defined.

(** A diagram sent back without its title. *)
Definition untitled_data : mind_map_data :=
  {| md_title := None; md_description := Some (lit "notes");
     md_nodes := Some [mkNode 0 (lit "Root") (-1) []]; md_theme := Some (lit "business");
     md_layout := Some (lit "tree"); md_generated_at := None; md_node_count := Some 1 |}.

Lemma download_missing_title_witness :
  md_nodes untitled_data <> Some [] /\
  resolved_palette (colors_table (svc_gen sample_service)) (lit "business") None = Some business_palette /\
  @background_ok stub_pil (business_palette.[K_background]) = true /\
  snd (@http_download stub_pil sample_service untitled_data) =
    {| status := 500; body := DownloadError (Exception (msg_image_failed ++ lit "'title'")) |}.
Proof.
  assert (resolved_palette (colors_table (svc_gen sample_service)) (lit "business") None =
            Some business_palette) as Hres by (vm_compute; reflexivity).
  assert (@background_ok stub_pil (business_palette.[K_background]) = true) as Hbg
    by (vm_compute; reflexivity).
  split; [discriminate|split; [exact Hres|split; [exact Hbg|]]].
  apply (download_missing_title sample_service untitled_data [mkNode 0 (lit "Root") (-1) []]
           business_palette sample_service_reachable);
    [reflexivity|discriminate|reflexivity|exact Hres|exact Hbg].
Defined.

(** A style list whose second element has three characters: the first
    pair sets the text colour, the second element raises. *)
Definition half_style_request : request :=
  {| rq_title := Some (lit "Root"); rq_description := Some (lit "notes");
     rq_content := Some (lit "A"); rq_theme := Some (lit "business");
     rq_layout := Some (lit "radial");
     rq_style := Some (JArr [pair_json (K_text, JStr (lit "#ff0000")); JStr (lit "xyz")]) |}.

Lemma failed_style_persists_witness :
  @reachable stub_pil sample_service /\
  colors_table (svc_gen sample_service) !! lit "business" = Some business_palette /\
  rq_theme half_style_request = Some (lit "business") /\
  rq_style half_style_request = Some (JArr (map pair_json [(K_text, JStr (lit "#ff0000"))] ++ [JStr (lit "xyz")])) /\
  merge_item (length [(K_text, JStr (lit "#ff0000"))]) (JStr (lit "xyz")) = inl (ValueError (msg_bad_length 1 3)) /\
  snd (@generate_mindmap stub_pil sample_service half_style_request sample_now) =
    GenFailure (ValueError (msg_bad_length 1 3)) /\
  colors_table (svc_gen (fst (@generate_mindmap stub_pil sample_service half_style_request sample_now)))
    !! lit "business" = Some (writes_map [(K_text, JStr (lit "#ff0000"))] ∪ business_palette).
Proof.
  assert (colors_table (svc_gen sample_service) !! lit "business" = Some business_palette)
    as Hp by (vm_compute; reflexivity).
  assert (merge_item (length [(K_text, JStr (lit "#ff0000"))]) (JStr (lit "xyz")) =
            inl (ValueError (msg_bad_length 1 3))) as Hb by reflexivity.
  do 5 (split; [first [exact sample_service_reachable|assumption|reflexivity]|]).
  exact (failed_style_persists sample_service half_style_request sample_now (lit "business") business_palette
           [(K_text, JStr (lit "#ff0000"))] (JStr (lit "xyz")) [] _ sample_service_reachable Hp eq_refl eq_refl Hb).
Defined.
