(* ===== verification/Slides.v ===== *)
(** The slide-deck service of src/server/ppt_service_simple.py: the deck
    assembly [create_simple_ppt] (lines 32-124), the save-and-verify step
    [generate_ppt_simple] (126-173) and the endpoint [generate_ppt]
    (175-233).  A deck is the list of its slides, each with the layout it
    was added with, the title text it was given and the body text of its
    second placeholder ([None] where the code never set one).  A section of
    the request is either a JSON object, read with [.get], or any other
    value, on which [.get] raises [AttributeError]. *)

From S2P Require Import Prelude PyValue.
Local Open Scope Z_scope.

Inductive section :=
| SecDict (title description : option pystr)
| SecOther.

Record slide := {
  sl_layout : nat;
  sl_title : option pystr;
  sl_body : option pystr
}.

(** [int(s)] on a string of decimal digits, most significant first. *)
Definition decimal_value (s : pystr) : Z := fold_left (fun v c => v * 10 + (c - 48)) s 0.

Definition is_digit (c : Z) : bool := (48 <=? c) && (c <=? 57).

Definition s_author : pystr := [20316; 32773; 58; 32].
Definition s_date : pystr := [26085; 26399; 58; 32].
Definition s_contents : pystr := [30446; 24405].
Definition s_untitled : pystr := [26410; 21629; 21517; 31456; 33410].
Definition s_no_description : pystr := [26242; 26080; 25551; 36848].
Definition s_chapter_pre : pystr := [31532].
Definition s_chapter_post : pystr := [31456; 58; 32].
Definition s_thanks : pystr := [35874; 35874; 35266; 30475].
Definition s_default_author : pystr := [26234; 35838; 20113; 24072].

(** [section.get('title', '未命名章节')]; [None] when [.get] raises. *)
Definition section_title (s : section) : option pystr :=
  match s with SecDict t _ => Some (get_default t s_untitled) | SecOther => None end.

Module SimpleDeck.

(** Lines 45-61: layout 0, the title and the subtitle
    [f"作者: {author}\n日期: {date}"]. *)
Definition title_slide (title author date : pystr) : slide :=
  {| sl_layout := 0; sl_title := Some title;
     sl_body := Some (s_author ++ author ++ [10] ++ s_date ++ date) |}.

(** Lines 73-75: [f"{i}. {title}\n"] for each section from [i]; the
    whole text is lost ([None]) when one [.get] raises. *)
Fixpoint toc_text (i : nat) (secs : list section) : option pystr :=
  match secs with
  | [] => Some []
  | s :: secs' =>
      t ← section_title s;
      rest ← toc_text (S i) secs';
      Some (decimal i ++ [46; 32] ++ t ++ [10] ++ rest)
  end.

(** Lines 63-80: layout 1, titled ['目录']; the body is set only when the
    loop of lines 74-75 finished. *)
Definition toc_slide (secs : list section) : slide :=
  {| sl_layout := 1; sl_title := Some s_contents; sl_body := toc_text 1 secs |}.

(** Lines 86-107, one section [i]: a chapter slide and a content slide.
    When [.get] raises, the chapter slide has already been added without
    a title and the [continue] skips the content slide. *)
Definition section_slides (i : nat) (s : section) : list slide :=
  match s with
  | SecOther => [{| sl_layout := 1; sl_title := None; sl_body := None |}]
  | SecDict t d =>
      let title := get_default t s_untitled in
      [{| sl_layout := 1; sl_title := Some (s_chapter_pre ++ decimal i ++ s_chapter_post ++ title);
          sl_body := None |};
       {| sl_layout := 1; sl_title := Some title;
          sl_body := Some (get_default d s_no_description) |}]
  end.

Fixpoint sections_slides (i : nat) (secs : list section) : list slide :=
  match secs with
  | [] => []
  | s :: secs' => section_slides i s ++ sections_slides (S i) secs'
  end.

(** Lines 110-112. *)
Definition end_slide : slide := {| sl_layout := 1; sl_title := Some s_thanks; sl_body := None |}.

(** [create_simple_ppt(title, content, author, date)] with
    [content['sections'] = secs]. *)
Definition create_simple_ppt (title : pystr) (secs : list section) (author date : pystr)
    : list slide :=
  [title_slide title author date; toc_slide secs] ++ sections_slides 1 secs ++ [end_slide].

Section Endpoint.
(** [prs.save(output_path)] and the file checks' view of the result:
    the file's size and first four bytes, [None] when saving raised or
    no file exists. *)
Variable save : list slide -> option (Z * list Z).

(** [generate_ppt_simple(...)] (lines 126-173). *)
Definition generate_ppt_simple (deck : list slide) : bool :=
  match save deck with
  | None => false
  | Some (size, header) =>
      if size <? 1000 then false else bool_decide (header = [80; 75; 3; 4])
  end.

(** The JSON body: [pq_content] is [None] for a missing or empty
    [content], [Some None] when it has no [sections] key. *)
Record ppt_request := {
  pq_title : option pystr;
  pq_content : option (option (list section));
  pq_author : option pystr;
  pq_date : option pystr
}.

Inductive ppt_response :=
| PptMissingTitle
| PptMissingSections
| PptEmptySections
| PptSaved (filename : pystr)
| PptFailed.

Definition response_status (r : ppt_response) : Z :=
  match r with
  | PptMissingTitle | PptMissingSections | PptEmptySections => 400
  | PptSaved _ => 200
  | PptFailed => 500
  end.

(** [POST /api/generate-ppt] (lines 175-233); [data] is [None] when
    the body is not a non-empty JSON object, [hex] is
    [uuid.uuid4().hex]. *)
Definition generate_ppt (data : option ppt_request) (hex : pystr) : ppt_response :=
  match data with
  | None => PptMissingTitle
  | Some d =>
      match pq_title d with
      | None => PptMissingTitle
      | Some title =>
          match pq_content d with
          | None | Some None => PptMissingSections
          | Some (Some []) => PptEmptySections
          | Some (Some secs) =>
              let deck := create_simple_ppt title secs (get_default (pq_author d) s_default_author)
                            (get_default (pq_date d) []) in
              if generate_ppt_simple deck
              then PptSaved (lit "lecture_" ++ hex ++ lit ".pptx")
              else PptFailed
          end
      end
  end.
End Endpoint.
End SimpleDeck.

(** ** Theorems *)

Module SimpleDeckFacts.
Import SimpleDeck.

Definition section_slide_count (s : section) : nat :=
  match s with SecDict _ _ => 2 | SecOther => 1 end.

Lemma sections_slides_length i secs :
  length (sections_slides i secs) = sum_list (map section_slide_count secs).
Proof.
  revert i. induction secs as [|s secs IH]; intros i; [done|]. cbn [sections_slides map].
  rewrite length_app, IH. by destruct s.
Qed.

Lemma toc_text_other i secs : SecOther ∈ secs -> toc_text i secs = None.
Proof.
  revert i. induction secs as [|s secs IH]; intros i Hin; [by apply not_elem_of_nil in Hin|].
  apply elem_of_cons in Hin as [<-|Hin]; [done|]. cbn [toc_text].
  destruct (section_title s); [|done]. cbn. by rewrite IH.
Qed.

Lemma sections_slides_other i secs :
  SecOther ∈ secs -> exists sl, sl ∈ sections_slides i secs /\ sl_title sl = None.
Proof.
  revert i. induction secs as [|s secs IH]; intros i Hin; [by apply not_elem_of_nil in Hin|].
  cbn [sections_slides]. apply elem_of_cons in Hin as [<-|Hin].
  - eexists. split; [apply elem_of_app; left; left|]; reflexivity.
  - destruct (IH (S i) Hin) as (sl & Hsl & Ht). exists sl. split; [|done].
    apply elem_of_app. by right.
Qed.

(** [create_simple_ppt] makes a title slide, a contents slide, two
    slides per section object, one (untitled) slide per section that is
    not an object, and a closing slide. *)
Theorem deck_length title secs author date :
  length (create_simple_ppt title secs author date) =
    (3 + sum_list (map section_slide_count secs))%nat.
Proof.
  unfold create_simple_ppt. rewrite !length_app, sections_slides_length. simpl. lia.
Qed.

(** C17: one section that is not a JSON object blanks the whole table
    of contents (the [try] of lines 71-80 drops the text built so far)
    and leaves a slide without a title in the deck. *)
Theorem non_object_section_blanks_toc title secs author date :
  SecOther ∈ secs ->
  sl_body (toc_slide secs) = None /\
  exists sl, sl ∈ create_simple_ppt title secs author date /\ sl_title sl = None.
Proof.
  intros Hin. split; [by apply toc_text_other|].
  destruct (sections_slides_other 1 secs Hin) as (sl & Hsl & Ht). exists sl.
  split; [|done]. unfold create_simple_ppt. apply elem_of_app. right.
  apply elem_of_app. by left.
Qed.

(** [POST /api/generate-ppt] answers with a file name only for a
    request with a title and a non-empty [content.sections], after the
    deck built from them was saved as a file of at least 1000 bytes
    starting with the ZIP signature [PK\x03\x04]. *)
Theorem generate_ppt_saved save data hex f :
  generate_ppt save data hex = PptSaved f ->
  exists d title secs,
    data = Some d /\ pq_title d = Some title /\ pq_content d = Some (Some secs) /\ secs <> [] /\
    f = lit "lecture_" ++ hex ++ lit ".pptx" /\
    exists size,
      save (create_simple_ppt title secs (get_default (pq_author d) s_default_author)
              (get_default (pq_date d) [])) = Some (size, [80; 75; 3; 4]) /\ 1000 <= size.
Proof.
  unfold generate_ppt. destruct data as [d|]; [|done].
  destruct (pq_title d) as [title|] eqn:Ht; [|done].
  destruct (pq_content d) as [[[|s secs]|]|] eqn:Hc; try done.
  unfold generate_ppt_simple.
  destruct (save _) as [[size header]|] eqn:Hs; [|done].
  destruct (size <? 1000) eqn:Hlt; [done|]. case_bool_decide as Hh; [|done].
  intros [= <-]. exists d, title, (s :: secs). subst header.
  repeat split; try done. exists size. split; [done|]. apply Z.ltb_ge in Hlt. lia.
Qed.
(** Witnesses. *)
Definition sample_sections : list section :=
  [SecDict (Some (lit "Intro")) (Some (lit "Basics")); SecOther; SecDict None None].
Definition sample_save (deck : list slide) : option (Z * list Z) := Some (2048, [80; 75; 3; 4]).
Definition sample_ppt_request : ppt_request :=
  {| pq_title := Some (lit "Course"); pq_content := Some (Some sample_sections);
     pq_author := None; pq_date := None |}.

Lemma non_object_section_blanks_toc_witness :
  SecOther ∈ sample_sections /\
  sl_body (toc_slide sample_sections) = None /\
  exists sl, sl ∈ create_simple_ppt (lit "Course") sample_sections (lit "me") [] /\
             sl_title sl = None.
Proof.
  assert (SecOther ∈ sample_sections) as Hin by (right; left).
  split; [exact Hin|].
  apply (non_object_section_blanks_toc (lit "Course") sample_sections (lit "me") [] Hin).
Defined.

Lemma generate_ppt_saved_witness :
  generate_ppt sample_save (Some sample_ppt_request) (lit "abc") = PptSaved (lit "lecture_abc.pptx") /\
  exists d title secs,
    Some sample_ppt_request = Some d /\ pq_title d = Some title /\
    pq_content d = Some (Some secs) /\ secs <> [] /\
    lit "lecture_abc.pptx" = lit "lecture_" ++ lit "abc" ++ lit ".pptx" /\
    exists size,
      sample_save (create_simple_ppt title secs (get_default (pq_author d) s_default_author)
                     (get_default (pq_date d) [])) = Some (size, [80; 75; 3; 4]) /\ 1000 <= size.
Proof.
  assert (generate_ppt sample_save (Some sample_ppt_request) (lit "abc") =
            PptSaved (lit "lecture_abc.pptx")) as H by reflexivity.
  split; [exact H|].
  apply (generate_ppt_saved sample_save (Some sample_ppt_request) (lit "abc") _ H).
Defined.
End SimpleDeckFacts.

(** ** Printing section numbers *)

Module DecimalFacts.

Lemma fold_left_value s a :
  fold_left (fun v c => v * 10 + (c - 48)) s a = a * 10 ^ Z.of_nat (length s) + decimal_value s.
Proof.
  unfold decimal_value. revert a. induction s as [|c s IH]; intros a; cbn [fold_left length].
  - simpl. lia.
  - rewrite IH, (IH (0 * 10 + (c - 48))), Nat2Z.inj_succ, Z.pow_succ_r by lia. ring.
Qed.

Lemma decimal_value_cons c s :
  decimal_value (c :: s) = (c - 48) * 10 ^ Z.of_nat (length s) + decimal_value s.
Proof. unfold decimal_value at 1. cbn [fold_left]. rewrite fold_left_value. ring. Qed.

(** With more fuel than the number, the loop prepends the digits of [n]. *)
Lemma decimal_aux_value fuel n acc :
  (n < fuel)%nat ->
  decimal_value (decimal_aux fuel n acc) = Z.of_nat n * 10 ^ Z.of_nat (length acc) + decimal_value acc.
Proof.
  revert n acc. induction fuel as [|fuel IH]; intros n acc Hn; [lia|]. cbn [decimal_aux].
  pose proof (Nat.div_mod_eq n 10) as Hdm. pose proof (Nat.mod_upper_bound n 10) as Hr.
  assert (Z.of_nat n = 10 * Z.of_nat (n / 10) + Z.of_nat (n mod 10)) as Hz by lia.
  destruct (Nat.ltb_spec n 10) as [Hlt|Hge].
  - rewrite decimal_value_cons, Nat.mod_small by lia. ring.
  - assert (n / 10 < fuel)%nat by (pose proof (Nat.div_lt n 10); lia).
    rewrite IH, decimal_value_cons by lia. cbn [length].
    rewrite Nat2Z.inj_succ, Z.pow_succ_r, Hz by lia. ring.
Qed.

Lemma decimal_aux_digits fuel n acc :
  Forall (fun c => is_digit c = true) acc ->
  Forall (fun c => is_digit c = true) (decimal_aux fuel n acc).
Proof.
  revert n acc. induction fuel as [|fuel IH]; intros n acc Hacc; [done|]. cbn [decimal_aux].
  assert (is_digit (48 + Z.of_nat (n mod 10)) = true).
  { pose proof (Nat.mod_upper_bound n 10). unfold is_digit.
    apply andb_true_intro. split; apply Z.leb_le; lia. }
  destruct (n <? 10)%nat; [by constructor|]. apply IH. by constructor.
Qed.

Lemma decimal_aux_suffix fuel n acc : exists p, decimal_aux fuel n acc = p ++ acc.
Proof.
  revert n acc. induction fuel as [|fuel IH]; intros n acc; cbn [decimal_aux]; [by exists []|].
  destruct (n <? 10)%nat; [by eexists [_]|].
  destruct (IH (n / 10)%nat (48 + Z.of_nat (n mod 10) :: acc)) as [p ->].
  exists (p ++ [48 + Z.of_nat (n mod 10)]). by rewrite <-app_assoc.
Qed.

(** [decimal n], the [str(i)] of the section numbers, is a
    non-empty string of decimal digits that reads back as [n]: the fuel
    [n + 1] never runs out. *)
Theorem decimal_roundtrip n :
  decimal_value (decimal n) = Z.of_nat n /\
  Forall (fun c => is_digit c = true) (decimal n) /\ decimal n <> [].
Proof.
  unfold decimal. split; [|split].
  - rewrite decimal_aux_value by lia. cbn. lia.
  - by apply decimal_aux_digits.
  - cbn [decimal_aux]. destruct (n <? 10)%nat; [done|].
    destruct (decimal_aux_suffix n (n / 10) [48 + Z.of_nat (n mod 10)]) as [p ->].
    by destruct p.
Qed.
End DecimalFacts.
