(* ===== verification/Pptx.v ===== *)
(** The part of python-pptx the slide-deck services use, as its
    documented behaviour: a text frame is a list of paragraphs, each with
    its text and the font settings made through [paragraph.font];
    assigning [text_frame.text] (or [shape.text]) replaces the paragraphs
    by one unformatted paragraph per line of the new text; assignments to
    [text_frame.paragraphs[0].font] touch the first paragraph only;
    [text_frame.clear()] keeps one emptied paragraph; a slide is its
    layout, its title frame and the frame of its placeholder [1] ([None]
    when the code never wrote it).  Lengths are EMU: 914400 per inch,
    12700 per point. *)

From S2P Require Import Prelude PyStr.
Local Open Scope Z_scope.

Record font_fmt := {
  f_size : option Z;          (** points *)
  f_bold : option bool;
  f_rgb : option (Z * Z * Z)
}.

Record para := {
  p_text : pystr;
  p_font : font_fmt;
  p_space_after : option Z    (** points *)
}.

Definition plain_font : font_fmt := {| f_size := None; f_bold := None; f_rgb := None |}.

Definition plain (s : pystr) : para := {| p_text := s; p_font := plain_font; p_space_after := None |}.

(** [frame.text = s]: [s.split("\n")], one paragraph each. *)
Definition set_text (s : pystr) : list para := map plain (split_on NEWLINE s).

(** [frame.paragraphs[0].<setting> = v] *)
Definition on_first (f : para -> para) (ps : list para) : list para :=
  match ps with [] => [] | p :: r => f p :: r end.

Definition with_font (g : font_fmt -> font_fmt) (p : para) : para :=
  {| p_text := p_text p; p_font := g (p_font p); p_space_after := p_space_after p |}.

(** [p.font.size = Pt(n)] *)
Definition set_size (n : Z) : para -> para :=
  with_font (fun f => {| f_size := Some n; f_bold := f_bold f; f_rgb := f_rgb f |}).

(** [p.font.bold = True] *)
Definition set_bold : para -> para :=
  with_font (fun f => {| f_size := f_size f; f_bold := Some true; f_rgb := f_rgb f |}).

(** [p.font.color.rgb = RGBColor(r, g, b)] *)
Definition set_rgb (c : Z * Z * Z) : para -> para :=
  with_font (fun f => {| f_size := f_size f; f_bold := f_bold f; f_rgb := Some c |}).

(** [p.space_after = Pt(n)] *)
Definition set_space_after (n : Z) (p : para) : para :=
  {| p_text := p_text p; p_font := p_font p; p_space_after := Some n |}.

(** [frame.clear()]: the paragraphs after the first are removed and the
    first loses its text. *)
Definition clear (ps : list para) : list para :=
  match ps with
  | [] => [plain []]
  | p :: _ => [{| p_text := []; p_font := p_font p; p_space_after := p_space_after p |}]
  end.

(** The frame of a placeholder just added with its slide. *)
Definition fresh_frame : list para := [plain []].

Record pslide := {
  ps_layout : nat;
  ps_title : list para;
  ps_body : option (list para)
}.

(** A presentation: its slide size and its slides, in order. *)
Record deck := {
  dk_width : Z;
  dk_height : Z;
  dk_slides : list pslide
}.

Definition EMU_PER_INCH : Z := 914400.

(** [Presentation()]'s default slide size, 10 x 7.5 inches. *)
Definition default_width : Z := 10 * EMU_PER_INCH.
Definition default_height : Z := 75 * EMU_PER_INCH / 10.

(** ** Lemmas *)

Lemma set_text_length s : length (set_text s) = length (split_on NEWLINE s).
Proof. apply length_map. Qed.

Lemma split_on_nonempty sep s : split_on sep s <> [].
Proof. destruct s as [|c s]; cbn; [done|]. case_match; [done|]. by case_match. Qed.

Lemma on_first_tail f ps : tail (on_first f ps) = tail ps.
Proof. by destruct ps. Qed.

Lemma on_first_length f ps : length (on_first f ps) = length ps.
Proof. by destruct ps. Qed.

#[export] Hint Rewrite on_first_tail on_first_length set_text_length : mindmap_rw.
