(* ===== verification/Conformance.v ===== *)
(** Two promises of the design document checked against the whole
    renderer: the image depends on the palette only through its four
    colours, so the style keys the design says are ignored do not reach
    the drawing; and the design's own example outline, run through the
    service, renders to what [Outline] and [Layout] predict rather than
    to what the design describes; so does the module's own test outline
    of mindmap_service.py's [__main__]. *)

From S2P Require Import Prelude PyValue PyStr Outline Pil Palette Layout Render Service.
Local Open Scope Z_scope.

(** Two palettes with the same node, line, background and text entries. *)
Definition same_colours (p1 p2 : palette) : Prop :=
  Forall (fun k => p1 !! k = p2 !! k) palette_keys.

#[export] Instance same_colours_dec p1 p2 : Decision (same_colours p1 p2).
Proof. unfold same_colours. apply _. Defined.

#[export] Instance same_colours_equiv : Equivalence same_colours.
Proof.
  unfold same_colours. split.
  - intros p. by apply Forall_true.
  - intros p1 p2 H. eapply Forall_impl; [exact H|]. done.
  - intros p1 p2 p3 H12 H23. apply Forall_forall. intros k Hk.
    rewrite Forall_forall in H12, H23. by rewrite H12, H23.
Qed.

Section Colours.
Context `{PIL}.
Implicit Types (pos : Z -> Z -> Z -> Z -> Z * Z) (c : palette).

Lemma same_colours_getitem c1 c2 k :
  same_colours c1 c2 -> k ∈ palette_keys -> c1.[k] = c2.[k].
Proof. unfold same_colours, getitem. rewrite Forall_forall. intros Hs Hk. by rewrite (Hs k Hk). Qed.

Ltac colour_keys :=
  repeat match goal with
  | Hs : same_colours ?c1 ?c2 |- context [?c1.[?k]] =>
      rewrite (same_colours_getitem c1 c2 k Hs) by (unfold palette_keys; set_solver)
  end.

Lemma loop_from_ext f1 f2 pos n cx cy c1 c2 l i :
  same_colours c1 c2 -> Forall (fun nd => forall x y, f1 nd x y = f2 nd x y) l ->
  loop_from f1 pos n cx cy c1 l i = loop_from f2 pos n cx cy c2 l i.
Proof.
  intros Hs Hl. revert i. induction Hl as [|nd l Hnd Hl IH]; intros i; [done|].
  cbn [loop_from]. destruct (pos cx cy i n). colour_keys. by rewrite Hnd, IH.
Qed.

Lemma draw_child_colours pos nd x y c1 c2 fs :
  same_colours c1 c2 -> draw_child pos nd x y c1 fs = draw_child pos nd x y c2 fs.
Proof.
  intros Hs. revert x y. induction nd as [i t lv cs IH] using node_ind'. intros x y.
  destruct cs as [|ch rest]; cbn [draw_child]; colour_keys; [done|].
  f_equal. f_equal. unfold children_loop. apply loop_from_ext; [exact Hs|].
  apply Forall_cons in IH as [_ IH]. exact IH.
Qed.

Lemma draw_layout_colours pos nodes cx cy c1 c2 fm fs :
  same_colours c1 c2 -> draw_layout pos nodes cx cy c1 fm fs = draw_layout pos nodes cx cy c2 fm fs.
Proof.
  intros Hs. destruct nodes as [|center rest]; [done|]. cbn [draw_layout]. colour_keys.
  f_equal. unfold children_loop. apply loop_from_ext; [exact Hs|].
  apply Forall_forall. intros nd _ x y. by apply draw_child_colours.
Qed.

Lemma draw_nodes_colours nodes cx cy c1 c2 fm fs layout :
  same_colours c1 c2 -> _draw_nodes nodes cx cy c1 fm fs layout = _draw_nodes nodes cx cy c2 fm fs layout.
Proof.
  intros Hs. destruct nodes as [|n0 rest]; [done|]. unfold _draw_nodes.
  repeat case_bool_decide; by apply draw_layout_colours.
Qed.

(** [draw_image] reads four entries of the palette and nothing else. *)
Lemma draw_image_colours path c1 c2 d :
  same_colours c1 c2 -> draw_image path c1 d = draw_image path c2 d.
Proof.
  intros Hs. unfold draw_image. colour_keys.
  destruct (load_fonts path) as [[fl fm] fs]. unfold_bind.
  destruct (image_new _ _) as [img|]; [|done]. cbn [rbind field].
  destruct (md_title d) as [t|]; [|done]. cbn [rbind field].
  destruct (paint [centered_text t 30 (c2.[K_text]) fl]); [|done]. cbn [rbind].
  destruct (md_description d) as [ds|]; [|done]. cbn [rbind field].
  destruct (paint [centered_text ds 80 (c2.[K_text]) fs]); [|done]. cbn [rbind].
  destruct (md_nodes d) as [ns|]; [|done]. cbn [rbind field].
  by rewrite (draw_nodes_colours _ _ _ c1 c2).
Qed.

(** [dict.update] respects the equivalence: [s ∪ c] only looks at [s]'s
    entries under the four keys when read under them. *)
#[export] Instance union_same_colours : Proper (same_colours ==> same_colours ==> same_colours) (∪).
Proof.
  intros s1 s2 Hs c1 c2 Hc. unfold same_colours in *. rewrite Forall_forall in Hs, Hc |- *.
  intros k Hk. by rewrite !lookup_union, (Hs k Hk), (Hc k Hk).
Qed.

#[export] Instance draw_image_same_colours path :
  Proper (same_colours ==> eq ==> eq) (draw_image path).
Proof. intros c1 c2 Hc d ? <-. by apply draw_image_colours. Qed.
End Colours.

Section StyleKeys.
Context `{PIL}.

(** C19: only the [node], [line], [background] and [text] entries a
    style writes reach the image: two styles whose updates raise alike
    and write the same values under these four keys render the same
    image, so unknown style keys are ignored in the drawing, as the
    design says (they are still stored in the theme table, see
    [Palette.apply_style]). *)
Theorem style_extra_keys_ignored g d s1 s2 :
  wf_table (colors_table g) ->
  (style_writes (Some s1)).2 = (style_writes (Some s2)).2 ->
  same_colours (style_palette (Some s1)) (style_palette (Some s2)) ->
  snd (create_mind_map_image g d (Some s1)) = snd (create_mind_map_image g d (Some s2)).
Proof.
  intros Hwf He Hs.
  destruct (create_mind_map_image_unfold g d (Some s1) Hwf) as (k & c & Hsel & _ & ->).
  destruct (create_mind_map_image_unfold g d (Some s2) Hwf) as (k' & c' & Hsel' & _ & ->).
  rewrite Hsel in Hsel'. injection Hsel' as <- <-. cbn [snd]. rewrite He.
  destruct (style_writes (Some s2)).2; [done|]. by rewrite Hs.
Qed.
End StyleKeys.



(** ** The design's example *)

(** The request of the design's example: outline ["Topic\n  Sub1\n  Sub2"],
    title ["Root"], theme [default], layout [tree]. *)
Definition spec_request : request :=
  {| rq_title := Some (lit "Root"); rq_description := None;
     rq_content := Some (lit "Topic" ++ [NEWLINE] ++ lit "  Sub1" ++ [NEWLINE] ++ lit "  Sub2");
     rq_theme := Some K_default; rq_layout := Some (lit "tree"); rq_style := None |}.

(** The design's example, which it says renders three node circles
    and three edges, renders one circle (the centre holding the title)
    and no edge at all (an instance of [Render.render_generated]). *)
Example spec_example_render :
  match snd (@generate_mindmap stub_pil sample_service spec_request sample_now) with
  | GenSuccess _ img =>
      countb is_ellipse (img_prims img) = 1%nat /\ countb is_line (img_prims img) = 0%nat
  | GenFailure _ => False
  end.
Proof. vm_compute. split; reflexivity. Qed.

(** ** Witnesses, with the concrete Pillow of [Pil.v] *)

(** [sample_style] with an extra key the renderer does not know. *)
Definition extra_style : json :=
  JObj [(K_background, JStr (lit "#000000")); (lit "font", JStr (lit "serif"))].


Lemma style_extra_keys_ignored_witness :
  wf_table (colors_table sample_generator) /\
  (style_writes (Some extra_style)).2 = (style_writes (Some sample_style)).2 /\
  same_colours (style_palette (Some extra_style)) (style_palette (Some sample_style)) /\
  snd (@create_mind_map_image stub_pil sample_generator sample_data (Some extra_style)) =
    snd (create_mind_map_image sample_generator sample_data (Some sample_style)).
Proof.
  assert (same_colours (style_palette (Some extra_style)) (style_palette (Some sample_style))) as Hk
    by (apply (bool_decide_unpack _); vm_compute; reflexivity).
  split; [apply default_colors_wf|split; [reflexivity|split; [exact Hk|]]].
  apply (style_extra_keys_ignored sample_generator sample_data extra_style sample_style);
    [apply default_colors_wf|reflexivity|exact Hk].
Defined.

(** ** The module's own test *)

(** The request of mindmap_service.py's [__main__] (lines 420-437): an
    outline indented by two and four spaces, meant as a three-level
    tree, with the [technology] theme. *)
Definition self_test_request : request :=
  {| rq_title := Some [20154; 24037; 26234; 33021; 21457; 23637; 21382; 31243];
     rq_description := Some [20174; 27010; 24565; 21040; 24212; 29992; 30340; 23436; 25972; 21457; 23637; 33033; 32476];
     rq_content := Some (
       [20154; 24037; 26234; 33021; 27010; 24565] ++ [NEWLINE] ++
       lit "  " ++ [26426; 22120; 23398; 20064] ++ [NEWLINE] ++
       lit "    " ++ [28145; 24230; 23398; 20064] ++ [NEWLINE] ++
       lit "    " ++ [24378; 21270; 23398; 20064] ++ [NEWLINE] ++
       lit "  " ++ [33258; 28982; 35821; 35328; 22788; 29702] ++ [NEWLINE] ++
       lit "    " ++ [26426; 22120; 32763; 35793] ++ [NEWLINE] ++
       lit "    " ++ [23545; 35805; 31995; 32479] ++ [NEWLINE] ++
       lit "  " ++ [35745; 31639; 26426; 35270; 35273] ++ [NEWLINE] ++
       lit "    " ++ [22270; 20687; 35782; 21035] ++ [NEWLINE] ++
       lit "    " ++ [30446; 26631; 26816; 27979] ++ [NEWLINE] ++
       lit "  " ++ [19987; 23478; 31995; 32479] ++ [NEWLINE] ++
       lit "  " ++ [30693; 35782; 22270; 35889]);
     rq_theme := Some (lit "technology"); rq_layout := Some (lit "radial"); rq_style := None |}.

(** The module's own test outline gives the centre twelve childless
    level-0 nodes, its three levels flattened, and the image shows the
    centre node only: one circle, no edge. *)
Example self_test_flat :
  match snd (@generate_mindmap stub_pil sample_service self_test_request sample_now) with
  | GenSuccess d img =>
      match md_nodes d with
      | Some [c] =>
          length (children c) = 12%nat /\ Forall (fun n => level n = 0 /\ children n = []) (children c) /\
          countb is_ellipse (img_prims img) = 1%nat /\ countb is_line (img_prims img) = 0%nat
      | _ => False
      end
  | GenFailure _ => False
  end.
Proof. vm_compute. split; [reflexivity|split; [repeat constructor|split; reflexivity]]. Qed.
