(* ===== verification/Refinement.v ===== *)
(** The server's shared state against an abstract specification.  The
    only state requests leave behind is the theme table (see [Service]);
    abstractly it is an append-only log of style overrides replayed over
    the literal table [default_colors]: a request either leaves the log
    as it is or appends one override for a listed theme.  [step_refines]
    is the forward simulation of [Service.step] by that log; the second
    part shows that the server can always get out of a bad theme
    (liveness): one request with a complete, valid style repairs it. *)

From S2P Require Import Prelude PyValue PyStr Outline Pil Palette Layout Render Service.
Local Open Scope Z_scope.

(** ** The abstract theme store *)

(** One [colors.update(style)] on the palette of theme [k]. *)
Definition override : Type := pystr * palette.

(** The table after the overrides of [log], newest first. *)
Fixpoint replay (log : list override) : theme_table :=
  match log with
  | [] => default_colors
  | (k, s) :: log' =>
      let t := replay log' in <[k := s ∪ from_option id ∅ (t !! k)]> t
  end.

(** What one request may do to the store: nothing, or one non-empty
    override of a listed theme. *)
Inductive abs_step : list override -> list override -> Prop :=
| abs_stutter log : abs_step log log
| abs_override log k s : k ∈ listed_themes -> s <> ∅ -> abs_step log ((k, s) :: log).

Definition refines (svc : service) (log : list override) : Prop :=
  colors_table (svc_gen svc) = replay log.

(** ** Every request is a renderer call or leaves the generator *)

Section Effects.
Context `{PIL}.

(** [create_mind_map_image] leaves the table or overrides one palette
    it holds with a non-empty style. *)
Lemma create_table_effect g d style :
  wf_table (colors_table g) ->
  colors_table (fst (create_mind_map_image g d style)) = colors_table g \/
  exists k s c, s <> ∅ /\ colors_table g !! k = Some c /\
    colors_table (fst (create_mind_map_image g d style)) = <[k := s ∪ c]> (colors_table g).
Proof.
  intros Hwf. destruct (create_mind_map_image_unfold g d style Hwf) as (k & c & _ & Hk & ->).
  cbn [fst colors_table set_table]. destruct (decide (style_palette style = ∅)) as [He|Hs].
  - left. rewrite He, (left_id_L ∅ (∪)). by apply insert_id.
  - right. by exists k, (style_palette style), c.
Qed.

Lemma generate_gen svc req now :
  exists d style, svc_gen (fst (generate_mindmap svc req now)) = fst (create_mind_map_image (svc_gen svc) d style).
Proof.
  unfold generate_mindmap. destruct (generate_mind_map_data _ _ _ _ _ _ _) as [d next].
  exists d, (request_style req).
  by destruct (create_mind_map_image _ _ _).
Qed.

Lemma step_gen svc svc' :
  step svc svc' ->
  svc_gen svc' = svc_gen svc \/ exists d style, svc_gen svc' = fst (create_mind_map_image (svc_gen svc) d style).
Proof.
  destruct 1 as [svc req now|svc req now|svc d].
  - unfold http_generate. destruct (validate req); [by left|]. right.
    destruct (generate_gen svc req now) as (d & style & Hg).
    destruct (generate_mindmap svc req now) as [svc1 r]. by exists d, style.
  - unfold http_preview. destruct (validate req); [by left|]. right.
    destruct (generate_gen svc req now) as (d & style & Hg).
    destruct (generate_mindmap svc req now) as [svc1 r]. by exists d, style.
  - unfold http_download. destruct (md_nodes d) as [[|n ns]|]; [by left| |by left]. right.
    unfold download_mindmap. exists d, None. by destruct (create_mind_map_image _ _ _).
Qed.
End Effects.

Lemma listed_of_lookup (table : theme_table) k c :
  dom table = dom default_colors -> table !! k = Some c -> k ∈ listed_themes.
Proof.
  intros Hdom Hk. apply elem_of_dom_2 in Hk. rewrite Hdom, dom_default_colors in Hk.
  by apply elem_of_list_to_set in Hk.
Qed.

(** ** The simulation *)

Section Simulation.
Context `{PIL}.

(** C28: the server refines the override log: from a reachable state
    related to a log, every request (generate, preview, download) is
    matched by an abstract step, which leaves the log unchanged or
    appends one non-empty override of a listed theme, and the new
    table is the replay of the new log. *)
Theorem step_refines svc svc' log :
  reachable svc -> step svc svc' -> refines svc log ->
  exists log', abs_step log log' /\ refines svc' log'.
Proof.
  intros Hr Hstep Hrel. destruct (reachable_svc_inv svc Hr) as [Hwf Hdom].
  unfold refines in *. destruct (step_gen svc svc' Hstep) as [->|(d & style & ->)].
  - exists log. split; [constructor|exact Hrel].
  - destruct (create_table_effect (svc_gen svc) d style Hwf) as [->|(k & s & c & Hs & Hk & ->)].
    + exists log. split; [constructor|exact Hrel].
    + exists ((k, s) :: log). split; [constructor; [by eapply listed_of_lookup|exact Hs]|].
      cbn [replay]. by rewrite <-Hrel, Hk.
Qed.

Lemma reachable_step svc svc' : reachable svc -> step svc svc' -> reachable svc'.
Proof. intros [pe Hr] Hs. exists pe. by eapply rtc_r. Qed.

End Simulation.

(** ** Recovery *)

Section Recovery.
Context `{PIL}.

(** A style whose four colours Pillow accepts. *)
Definition good_palette (s : palette) : bool := forallb (fun k => colour_ok (s.[k])) palette_keys.

(** The request that repairs theme [th]: a generate request with title
    and content and the style object holding the entries of [s]. *)
Definition repair_request (th : pystr) (s : palette) : request :=
  {| rq_title := Some (lit "repair"); rq_description := None; rq_content := Some (lit "x");
     rq_theme := Some th; rq_layout := None; rq_style := Some (JObj (map_to_list s)) |}.

Lemma good_palette_lookup s k :
  good_palette s = true -> k ∈ palette_keys -> exists c, s !! k = Some c.
Proof.
  unfold good_palette. rewrite forallb_forall. intros Hg Hk%list_elem_of_In.
  specialize (Hg k Hk). unfold colour_ok, getitem in Hg. destruct (s !! k); [by eexists|done].
Qed.

Lemma good_palette_union s p :
  good_palette s = true -> forall k, k ∈ palette_keys -> (s ∪ p).[k] = s.[k].
Proof.
  intros Hg k Hk. destruct (good_palette_lookup s k Hg Hk) as [c Hc].
  unfold getitem. rewrite lookup_union, Hc. by destruct (p !! k).
Qed.

Lemma good_palette_nonempty s : good_palette s = true -> s <> ∅.
Proof.
  intros Hg ->. destruct (good_palette_lookup ∅ K_node Hg) as [c Hc]; [by left|].
  by rewrite lookup_empty in Hc.
Qed.

(** A generate request for a theme the table holds, whose style goes
    through: the palette is updated in place, and the request succeeds
    when the updated palette's background, text and node colours are
    accepted. *)
Lemma generate_present svc req now th p :
  wf_table (colors_table (svc_gen svc)) -> colors_table (svc_gen svc) !! th = Some p ->
  rq_theme req = Some th -> (style_writes (request_style req)).2 = None ->
  let q := style_palette (request_style req) ∪ p in
  colors_table (svc_gen (fst (generate_mindmap svc req now))) = <[th := q]> (colors_table (svc_gen svc)) /\
  (background_ok (q.[K_background]) && colour_ok (q.[K_text]) && colour_ok (q.[K_node]) = true ->
   exists d img, snd (generate_mindmap svc req now) = GenSuccess d img).
Proof.
  intros Hwf Hp Hth Hexc q. pose proof (select_palette_present _ th p Hwf Hp) as Hsel.
  assert (resolved_palette (colors_table (svc_gen svc)) th (request_style req) = Some q) as Hres
    by (unfold resolved_palette; by rewrite Hsel, (apply_style_eq _ _ _ _ Hp), Hexc).
  pose proof (generated_render_ok (svc_gen svc) (get_default (rq_title req) default_title)
    (get_default (rq_description req) []) (get_default (rq_content req) []) th
    (get_default (rq_layout req) (lit "radial")) now (svc_uuid svc) _ q Hwf Hres) as Hok.
  destruct (generated_fields (get_default (rq_title req) default_title)
    (get_default (rq_description req) []) (get_default (rq_content req) []) th
    (get_default (rq_layout req) (lit "radial")) now (svc_uuid svc)) as (c & _ & _ & _ & Hdth & _).
  unfold generate_mindmap. rewrite Hth. cbn [get_default] in *.
  destruct (generate_mind_map_data _ _ _ _ _ _ _) as [d next]. cbn [fst] in Hok, Hdth.
  unfold create_mind_map_image in Hok |- *. rewrite Hdth in Hok |- *. cbn [get_default] in *.
  unfold request_style in Hok, Hexc |- *.
  rewrite Hsel, (apply_style_eq _ _ _ _ Hp) in Hok |- *. rewrite Hexc in Hok |- *. cbn [fst snd] in *.
  split; [done|]. rewrite <-Hok. cbn [mbind result_bind rbind].
  destruct (draw_image _ _ _) as [img|e]; [|done]. intros _. by exists d, img.
Qed.

(** The style object holding a non-empty palette writes exactly that
    palette. *)
Lemma repair_style th s :
  s <> ∅ ->
  (style_writes (request_style (repair_request th s))).2 = None /\
  style_palette (request_style (repair_request th s)) = s.
Proof.
  intros Hs.
  assert (map_to_list s <> []) as Hl by (intros E; apply Hs; by apply map_to_list_empty_iff).
  unfold style_palette, style_writes, request_style, repair_request. cbn [get_default rq_style].
  destruct (map_to_list s) as [|kv l] eqn:E; [done|]. cbn [jtruthy update_writes fst snd].
  split; [done|]. rewrite <-E. apply writes_map_to_list.
Qed.

(** C30: no theme stays broken: from every reachable state, one
    generate request with a complete style of valid colours for a listed
    theme leads to a state where every request for that theme without a
    style of its own succeeds, whatever colours the theme held before. *)
Theorem theme_recovers svc th s (now : pystr) :
  reachable svc -> th ∈ listed_themes -> good_palette s = true ->
  exists svc', step svc svc' /\
    forall req now', rq_theme req = Some th -> rq_style req = None ->
      exists d img, snd (generate_mindmap svc' req now') = GenSuccess d img.
Proof.
  intros Hr Hth Hg. destruct (reachable_svc_inv svc Hr) as [Hwf Hdom].
  assert (is_Some (colors_table (svc_gen svc) !! th)) as [p Hp]
    by (apply elem_of_dom; rewrite Hdom, dom_default_colors; by apply elem_of_list_to_set).
  exists (fst (http_generate svc (repair_request th s) now)). split; [constructor|].
  intros req now' Hreq Hst. unfold http_generate. cbn [validate truthy repair_request negb].
  destruct (repair_style th s (good_palette_nonempty s Hg)) as [Hexc Hsp].
  destruct (generate_present svc (repair_request th s) now th p Hwf Hp eq_refl Hexc) as [Htab _].
  rewrite Hsp in Htab.
  destruct (generate_mindmap svc (repair_request th s) now) as [svc1 r1]. cbn [fst] in *.
  destruct (apply_style_wf _ th p (request_style (repair_request th s)) Hwf Hp) as (Hwf1 & _ & _).
  rewrite (apply_style_eq _ _ _ _ Hp), Hsp in Hwf1. cbn [fst] in Hwf1. rewrite <-Htab in Hwf1.
  assert (colors_table (svc_gen svc1) !! th = Some (s ∪ p)) as Hp1 by (rewrite Htab; apply lookup_insert_eq).
  assert ((style_writes (request_style req)).2 = None /\ style_palette (request_style req) = ∅)
    as [Hexc' Hsp'] by (unfold request_style; by rewrite Hst).
  destruct (generate_present svc1 req now' th (s ∪ p) Hwf1 Hp1 Hreq Hexc') as [_ Hsucc].
  apply Hsucc. rewrite Hsp', (left_id_L ∅ (∪)).
  rewrite !good_palette_union by (done || (unfold palette_keys; set_solver)).
  unfold good_palette in Hg. cbn [forallb palette_keys] in Hg.
  destruct (colour_ok (s.[K_background])) eqn:Eb; [apply colour_ok_background in Eb; rewrite Eb|].
  all: destruct (colour_ok (s.[K_node])), (colour_ok (s.[K_line])), (colour_ok (s.[K_text])); done.
Qed.
(** A generate request that passes validation steps to the state its
    [generate_mindmap] leaves. *)
Lemma generate_step svc req now :
  validate req = None -> step svc (fst (generate_mindmap svc req now)).
Proof.
  intros Hv. pose proof (step_generate svc req now) as Hs. unfold http_generate in Hs.
  rewrite Hv in Hs. by destruct (generate_mindmap svc req now).
Qed.

(** C29: the override log is exactly what the server can do: from a
    reachable state related to a log, every abstract override, a
    non-empty palette for a listed theme, is carried out by one generate
    request (whose style is the object holding that palette), so the
    abstract steps of [step_refines] are all realised and the log
    neither loses nor invents behaviour. *)
Theorem override_realised svc log k s :
  reachable svc -> refines svc log -> k ∈ listed_themes -> s <> ∅ ->
  exists svc', step svc svc' /\ refines svc' ((k, s) :: log).
Proof.
  intros Hr Hrel Hk Hs. destruct (reachable_svc_inv svc Hr) as [Hwf Hdom].
  assert (is_Some (colors_table (svc_gen svc) !! k)) as [p Hp]
    by (apply elem_of_dom; rewrite Hdom, dom_default_colors; by apply elem_of_list_to_set).
  destruct (repair_style k s Hs) as [Hexc Hsp].
  destruct (generate_present svc (repair_request k s) [] k p Hwf Hp eq_refl Hexc) as [Htab _].
  exists (fst (generate_mindmap svc (repair_request k s) [])). split; [by apply generate_step|].
  unfold refines in *. rewrite Htab, Hsp. cbn [replay]. by rewrite <-Hrel, Hp.
Qed.
End Recovery.

(** ** Witnesses, with the concrete Pillow of [Pil.v] *)

Lemma step_refines_witness :
  reachable sample_service /\
  step sample_service (fst (@http_generate stub_pil sample_service bad_request sample_now)) /\
  refines sample_service [] /\
  exists log', abs_step [] log' /\
    refines (fst (@http_generate stub_pil sample_service bad_request sample_now)) log'.
Proof.
  assert (step sample_service (fst (@http_generate stub_pil sample_service bad_request sample_now)))
    as Hs by constructor.
  assert (refines sample_service []) as Hrel by reflexivity.
  split; [exact sample_service_reachable|split; [exact Hs|split; [exact Hrel|]]].
  apply (step_refines _ _ [] sample_service_reachable Hs Hrel).
Defined.

Definition red_text : palette := <[K_text := JStr (lit "#ff0000")]> ∅.

Lemma override_realised_witness :
  reachable sample_service /\ refines sample_service [] /\ lit "business" ∈ listed_themes /\
  red_text <> ∅ /\
  exists svc', @step stub_pil sample_service svc' /\ refines svc' [(lit "business", red_text)].
Proof.
  assert (lit "business" ∈ listed_themes) as Hin
    by (apply (bool_decide_unpack _); vm_compute; reflexivity).
  assert (red_text <> ∅) as Hs by apply insert_non_empty.
  assert (refines sample_service []) as Hrel by reflexivity.
  split; [exact sample_service_reachable|split; [exact Hrel|split; [exact Hin|split; [exact Hs|]]]].
  exact (override_realised sample_service [] (lit "business") red_text sample_service_reachable Hrel Hin Hs).
Defined.

Lemma theme_recovers_witness :
  reachable sample_service /\ lit "business" ∈ listed_themes /\
  @good_palette stub_pil business_palette = true /\
  exists svc', step sample_service svc' /\
    forall req now', rq_theme req = Some (lit "business") -> rq_style req = None ->
      exists d img, snd (generate_mindmap svc' req now') = GenSuccess d img.
Proof.
  assert (lit "business" ∈ listed_themes) as Hin
    by (apply (bool_decide_unpack _); vm_compute; reflexivity).
  assert (@good_palette stub_pil business_palette = true) as Hg by (vm_compute; reflexivity).
  split; [exact sample_service_reachable|split; [exact Hin|split; [exact Hg|]]].
  apply (theme_recovers sample_service (lit "business") business_palette sample_now
           sample_service_reachable Hin Hg).
Defined.
