(* ===== verification/Concurrency.v ===== *)
(** Concurrent requests on the shared theme table.  app.py runs Flask
    with [threaded=True] (line 257, and start_service.py line 54), so two
    requests can run [create_mind_map_image] at the same time on the one
    generator.  A request takes a reference to the palette dict of its
    theme (line 134), updates it with its style (137-138), and reads it
    again at each drawing phase (140-175): the background, the title,
    the description and the nodes.  Here a request is a thread whose
    program counter walks through these steps, each step atomic (the
    node drawing is one step: a coarser grain than Python's, which only
    removes interleavings); the system is the shared table with the list
    of threads, and a step runs one step of one thread.  A thread's
    image is [draw_image] with each phase's colours taken from the
    palette read at that phase; a thread whose update raises is done
    with that exception, after the writes the update made. *)

From S2P Require Import Prelude PyValue PyStr Outline Pil Palette Layout Render Service.
Local Open Scope Z_scope.

Inductive phase := PSelect | PUpdate | PBackground | PTitle | PDescription | PNodes | PDone.

#[global] Instance phase_eq_dec : EqDecision phase.
Proof. solve_decision. Defined.

Section Threads.
Context `{PIL}.

(** Lines 140-175 with the palette dict read afresh at each phase. *)
Definition draw_image_phases (path : option pystr) (p_bg p_title p_desc p_nodes : palette)
    (data : mind_map_data) : result image :=
  img ← image_new (WIDTH, HEIGHT) (p_bg.[K_background]);
  let '(font_large, font_medium, font_small) := load_fonts path in
  title ← field (md_title data) "title";
  p1 ← paint [centered_text title 30 (p_title.[K_text]) font_large];
  description ← field (md_description data) "description";
  p2 ← paint [centered_text description 80 (p_desc.[K_text]) font_small];
  nodes ← field (md_nodes data) "nodes";
  p3 ← paint (_draw_nodes nodes (WIDTH / 2) 200 p_nodes font_medium font_small
                (get_default (md_layout data) (lit "radial")));
  Ok {| img_size := img_size img; img_background := img_background img;
        img_prims := p1 ++ p2 ++ p3 |}.

(** A request inside [create_mind_map_image]: its arguments, the key of
    the dict it holds, where it is, the palettes it has read, and the
    exception it ended with, if it raised. *)
Record thread := {
  t_data : mind_map_data;
  t_style : option json;
  t_key : option pystr;
  t_pc : phase;
  t_reads : list palette;
  t_exc : option py_exc
}.

Definition start_thread (d : mind_map_data) (style : option json) : thread :=
  {| t_data := d; t_style := style; t_key := None; t_pc := PSelect; t_reads := []; t_exc := None |}.

Definition set_pc (t : thread) (pc : phase) (key : option pystr) (reads : list palette) : thread :=
  {| t_data := t_data t; t_style := t_style t; t_key := key; t_pc := pc; t_reads := reads;
     t_exc := t_exc t |}.

(** The request ends with the exception [e]. *)
Definition raise_thread (t : thread) (e : py_exc) : thread :=
  {| t_data := t_data t; t_style := t_style t; t_key := t_key t; t_pc := PDone; t_reads := t_reads t;
     t_exc := Some e |}.

Definition next_read (pc : phase) : option phase :=
  match pc with
  | PBackground => Some PTitle
  | PTitle => Some PDescription
  | PDescription => Some PNodes
  | PNodes => Some PDone
  | _ => None
  end.

(** One atomic step of a thread on the table; [None] when it is done
    (or when the table has no default palette, where it would raise). *)
Definition thread_step (table : theme_table) (t : thread) : option (theme_table * thread) :=
  match t_pc t with
  | PSelect =>
      match select_palette table (get_default (md_theme (t_data t)) K_default) with
      | Ok (key, _) => Some (table, set_pc t PUpdate (Some key) [])
      | Err _ => None
      end
  | PUpdate =>
      key ← t_key t; colors ← table !! key;
      let '(table', r) := apply_style table key colors (t_style t) in
      Some (table', match r with
                    | Ok _ => set_pc t PBackground (Some key) []
                    | Err e => raise_thread t e
                    end)
  | PDone => None
  | pc =>
      key ← t_key t; p ← table !! key; pc' ← next_read pc;
      Some (table, set_pc t pc' (Some key) (t_reads t ++ [p]))
  end.

Definition system : Type := theme_table * list thread.

(** The scheduler runs one step of thread [i]. *)
Inductive sys_step : system -> system -> Prop :=
| sys_run table ts i t table' t' :
    ts !! i = Some t -> thread_step table t = Some (table', t') ->
    sys_step (table, ts) (table', <[i := t']> ts).

(** An executable schedule: the thread indices in the order they run; a
    finished thread's turn is skipped. *)
Fixpoint run_schedule (sched : list nat) (s : system) : system :=
  match sched with
  | [] => s
  | i :: sched' =>
      let '(table, ts) := s in
      match ts !! i with
      | Some t =>
          match thread_step table t with
          | Some (table', t') => run_schedule sched' (table', <[i := t']> ts)
          | None => run_schedule sched' s
          end
      | None => run_schedule sched' s
      end
  end.

(** The result of a finished thread. *)
Definition thread_image (path : option pystr) (t : thread) : option (result image) :=
  match t_pc t, t_exc t, t_reads t with
  | PDone, Some e, _ => Some (Err e)
  | PDone, None, [p_bg; p_title; p_desc; p_nodes] =>
      Some (draw_image_phases path p_bg p_title p_desc p_nodes (t_data t))
  | _, _, _ => None
  end.
End Threads.

(** ** Lemmas *)

(** [if style:] is false: the request writes nothing. *)
Definition no_style (o : option json) : Prop :=
  match o with None => True | Some s => jtruthy (Some s) = false end.

(** How many palettes a thread has read at each point. *)
Definition reads_at (pc : phase) : nat :=
  match pc with
  | PSelect | PUpdate | PBackground => 0
  | PTitle => 1
  | PDescription => 2
  | PNodes => 3
  | PDone => 4
  end.

Section Facts.
Context `{PIL}.

Lemma select_palette_lookup table theme key p :
  select_palette table theme = Ok (key, p) -> table !! key = Some p.
Proof.
  unfold select_palette, getitem. destruct (table !! K_default) eqn:Hd; [|done]. cbn [mbind result_bind rbind].
  destruct (table !! theme) eqn:Ht; by intros [= <- <-].
Qed.

Lemma apply_style_no_style table key colors style :
  no_style style -> apply_style table key colors style = (table, Ok colors).
Proof. destruct style as [s|]; cbn [no_style apply_style]; [|done]. by intros ->. Qed.

(** A thread of a request without style, against the table [table0] it
    never changes: it holds the key its theme selects, and every palette
    it has read is that key's. *)
Definition quiet_thread (table0 : theme_table) (t : thread) : Prop :=
  no_style (t_style t) /\ t_exc t = None /\
  match t_pc t with
  | PSelect => t_reads t = []
  | pc => exists key p, select_palette table0 (get_default (md_theme (t_data t)) K_default) = Ok (key, p) /\
            t_key t = Some key /\ t_reads t = replicate (reads_at pc) p
  end.

Definition quiet (table0 : theme_table) (s : system) : Prop :=
  s.1 = table0 /\ forall i t, s.2 !! i = Some t -> quiet_thread table0 t.

Lemma quiet_thread_step table0 t table' t' :
  quiet_thread table0 t -> thread_step table0 t = Some (table', t') ->
  table' = table0 /\ quiet_thread table0 t'.
Proof.
  intros (Hs & He & Ht). unfold thread_step.
  destruct (t_pc t) eqn:Hpc; try (destruct Ht as (key & p & Hsel & -> & Hr)); cbn [mbind option_bind].
  1: { destruct (select_palette _ _) as [[key p]|] eqn:Hsel; [|done]. intros [= <- <-].
       split; [done|]. split; [done|]. split; [done|]. by exists key, p. }
  1: { rewrite (select_palette_lookup _ _ _ _ Hsel). cbn [mbind option_bind].
       rewrite apply_style_no_style by done. intros [= <- <-].
       split; [done|]. split; [done|]. split; [done|]. by exists key, p. }
  all: rewrite ?(select_palette_lookup _ _ _ _ Hsel); cbn [mbind option_bind next_read]; try discriminate.
  all: intros [= <- <-]; (split; [done|]); (split; [done|]); (split; [done|]); exists key, p; (split; [done|]);
       (split; [done|]); cbn [set_pc t_reads]; by rewrite Hr.
Qed.

Lemma quiet_step table0 s s' : quiet table0 s -> sys_step s s' -> quiet table0 s'.
Proof.
  intros [Htab Hth] Hstep. destruct Hstep as [table ts i t table' t' Hi Hst]. cbn [fst snd] in *. subst table.
  destruct (quiet_thread_step table0 t table' t' (Hth i t Hi) Hst) as [-> Ht'].
  split; [done|]. cbn [snd]. intros j u Hj. destruct (decide (i = j)) as [<-|Hne].
  - rewrite list_lookup_insert_eq in Hj by (eapply lookup_lt_Some; exact Hi). by injection Hj as <-.
  - rewrite list_lookup_insert_ne in Hj by done. by apply (Hth j).
Qed.
Lemma quiet_rtc table0 s s' : quiet table0 s -> rtc sys_step s s' -> quiet table0 s'.
Proof. intros Hq Hr. induction Hr as [|s1 s2 s3 H12 _ IH]; [done|]. apply IH. by eapply quiet_step. Qed.

(** Requests without a style are race-free: however the scheduler
    interleaves them, the table is never written and every request that
    finishes draws the image it draws when it runs alone. *)
Theorem no_style_race_free g ts0 s :
  Forall (fun t => t_pc t = PSelect /\ t_reads t = [] /\ no_style (t_style t) /\ t_exc t = None) ts0 ->
  rtc sys_step (colors_table g, ts0) s ->
  s.1 = colors_table g /\
  forall i t, s.2 !! i = Some t -> t_pc t = PDone ->
    thread_image (font_path g) t = Some (snd (create_mind_map_image g (t_data t) (t_style t))).
Proof.
  intros H0 Hr. assert (quiet (colors_table g) (colors_table g, ts0)) as Hq.
  { split; [done|]. intros i t Hi. eapply Forall_lookup_1 in H0 as (Hpc & Hrd & Hs & He); [|exact Hi].
    split; [done|]. split; [done|]. by rewrite Hpc. }
  destruct (quiet_rtc _ _ _ Hq Hr) as [Htab Hth]. split; [done|].
  intros i t Hi Hdone. destruct (Hth i t Hi) as (Hs & He & Ht). rewrite Hdone in Ht.
  destruct Ht as (key & p & Hsel & _ & Hrd).
  unfold thread_image. rewrite Hdone, He, Hrd. cbn [reads_at replicate].
  unfold create_mind_map_image. rewrite Hsel, apply_style_no_style by done. done.
Qed.
Lemma run_schedule_step sched table ts i t table' t' :
  ts !! i = Some t -> thread_step table t = Some (table', t') ->
  run_schedule (i :: sched) (table, ts) = run_schedule sched (table', <[i := t']> ts).
Proof. intros Hi Hs. cbn [run_schedule]. by rewrite Hi, Hs. Qed.

Lemma run_schedule_skip sched table ts i t :
  ts !! i = Some t -> thread_step table t = None ->
  run_schedule (i :: sched) (table, ts) = run_schedule sched (table, ts).
Proof. intros Hi Hs. cbn [run_schedule]. by rewrite Hi, Hs. Qed.

(** A request running alone is [create_mind_map_image]: its six steps
    (two when the update raises) leave the table and the result of the
    sequential model. *)
Theorem thread_alone g d style :
  wf_table (colors_table g) ->
  exists t, run_schedule [0; 0; 0; 0; 0; 0]%nat (colors_table g, [start_thread d style]) =
      (colors_table (fst (create_mind_map_image g d style)), [t]) /\
    thread_image (font_path g) t = Some (snd (create_mind_map_image g d style)).
Proof.
  intros Hwf. destruct (create_mind_map_image_unfold g d style Hwf) as (key & colors & Hsel & Hk & ->).
  pose proof (apply_style_eq _ key colors style Hk) as Ea.
  assert (<[key := style_palette style ∪ colors]> (colors_table g) !! key = Some (style_palette style ∪ colors))
    as Hl by apply lookup_insert_eq.
  erewrite run_schedule_step; [|reflexivity|unfold thread_step; cbn [t_pc start_thread t_data]; by rewrite Hsel].
  erewrite run_schedule_step; [|reflexivity|unfold thread_step; cbn; rewrite Hk; cbn; by rewrite Ea].
  cbn [fst snd colors_table set_table font_path].
  destruct (style_writes style).2 as [e|].
  - do 4 (erewrite run_schedule_skip; [|reflexivity|reflexivity]). eexists. split; reflexivity.
  - do 4 (erewrite run_schedule_step; [|reflexivity|unfold thread_step; cbn; rewrite Hl; reflexivity]).
    eexists. split; [reflexivity|]. reflexivity.
Qed.
End Facts.


(** ** Two styled requests interleaved *)

(** Red runs alone, then blue; blue, then red; and red is preempted
    after drawing its background, while blue updates the shared dict. *)
Definition red_then_blue : list nat := [0; 0; 0; 0; 0; 0; 1; 1; 1; 1; 1; 1]%nat.
Definition blue_then_red : list nat := [1; 1; 1; 1; 1; 1; 0; 0; 0; 0; 0; 0]%nat.
Definition torn_schedule : list nat := [0; 0; 0; 1; 1; 0; 0; 0; 1; 1; 1; 1]%nat.

Section Torn.
Context `{PIL}.

Ltac step_with E :=
  erewrite run_schedule_step;
    [|reflexivity|unfold thread_step;
                  cbn [t_pc t_key t_reads t_data t_style set_pc start_thread next_read mbind option_bind];
                  E; reflexivity].

(** C35: with Flask's threaded server, two requests whose themes select
    the same palette dict [c], with styles [sA] and [sB] whose updates go
    through, writing [oA] and [oB], can be interleaved (the first
    preempted after drawing its background) so that the first one draws
    its background with its own palette [oA ∪ c] and its title,
    description and nodes with the dict as the second one left it,
    [oB ∪ (oA ∪ c)], where running alone it reads [oA ∪ c] four times
    ([thread_alone]). *)
Theorem torn_reads g dA dB sA sB key c :
  wf_table (colors_table g) ->
  select_palette (colors_table g) (get_default (md_theme dA) K_default) = Ok (key, c) ->
  select_palette (colors_table g) (get_default (md_theme dB) K_default) = Ok (key, c) ->
  (style_writes (Some sA)).2 = None -> (style_writes (Some sB)).2 = None ->
  let oA := style_palette (Some sA) in
  let oB := style_palette (Some sB) in
  exists tA tB,
    run_schedule torn_schedule (colors_table g, [start_thread dA (Some sA); start_thread dB (Some sB)]) =
      (<[key := oB ∪ (oA ∪ c)]> (<[key := oA ∪ c]> (colors_table g)), [tA; tB]) /\
    t_pc tA = PDone /\ t_data tA = dA /\
    t_reads tA = [oA ∪ c; oB ∪ (oA ∪ c); oB ∪ (oA ∪ c); oB ∪ (oA ∪ c)].
Proof.
  intros Hwf HA HB HsA HsB oA oB. subst oA oB. pose proof (select_palette_lookup _ _ _ _ HA) as Hk.
  assert (<[key := style_palette (Some sA) ∪ c]> (colors_table g) !! key = Some (style_palette (Some sA) ∪ c)) as H1 by apply lookup_insert_eq.
  assert (<[key := style_palette (Some sB) ∪ (style_palette (Some sA) ∪ c)]> (<[key := style_palette (Some sA) ∪ c]> (colors_table g)) !! key = Some (style_palette (Some sB) ∪ (style_palette (Some sA) ∪ c)))
    as H2 by apply lookup_insert_eq.
  assert (select_palette (<[key := style_palette (Some sA) ∪ c]> (colors_table g)) (get_default (md_theme dB) K_default) =
            Ok (key, style_palette (Some sA) ∪ c)) as HB1
    by (apply (select_palette_insert _ _ _ c); [exact Hwf|exact HB]).
  unfold torn_schedule.
  step_with ltac:(rewrite HA).
  step_with ltac:(rewrite Hk; cbn [mbind option_bind]; rewrite (apply_style_eq _ _ _ _ Hk), HsA).
  step_with ltac:(rewrite H1).
  step_with ltac:(rewrite HB1).
  step_with ltac:(rewrite H1; cbn [mbind option_bind]; rewrite (apply_style_eq _ _ _ _ H1), HsB).
  do 3 step_with ltac:(rewrite H2).
  do 4 step_with ltac:(rewrite H2).
  cbn. by do 2 eexists.
Qed.
End Torn.



(** Two requests for the same diagram and theme whose styles set the
    text colour to red and to blue. *)
Definition red_style : json := JObj [(K_text, JStr (lit "#ff0000"))].
Definition blue_style : json := JObj [(K_text, JStr (lit "#0000ff"))].
Definition two_requests : system :=
  (colors_table sample_generator,
   [start_thread sample_data (Some red_style); start_thread sample_data (Some blue_style)]).

Definition red_image (s : system) : option (@result (@image stub_pil)) :=
  t ← s.2 !! 0%nat; @thread_image stub_pil (font_path sample_generator) t.

(** The red request's image under the interleaving is neither the one
    it draws when it runs before the blue request nor the one it draws
    after it: its title and description are blue on the background of
    its own palette.  Concurrent styled requests are not linearizable. *)
Example torn_image :
  red_image (run_schedule torn_schedule two_requests) <> red_image (run_schedule red_then_blue two_requests) /\
  red_image (run_schedule torn_schedule two_requests) <> red_image (run_schedule blue_then_red two_requests).
Proof. vm_compute. split; discriminate. Qed.

(** The palette the sample diagram's theme selects. *)
Definition sample_selection : pystr * palette :=
  match select_palette (colors_table sample_generator) (get_default (md_theme sample_data) K_default) with
  | Ok kc => kc
  | Err _ => (K_default, ∅)
  end.

Lemma torn_reads_witness :
  wf_table (colors_table sample_generator) /\
  select_palette (colors_table sample_generator) (get_default (md_theme sample_data) K_default) =
    Ok (sample_selection.1, sample_selection.2) /\
  (style_writes (Some red_style)).2 = None /\ (style_writes (Some blue_style)).2 = None /\
  let oA := style_palette (Some red_style) in
  let oB := style_palette (Some blue_style) in
  exists tA tB,
    run_schedule torn_schedule (colors_table sample_generator,
                                [start_thread sample_data (Some red_style); start_thread sample_data (Some blue_style)]) =
      (<[sample_selection.1 := oB ∪ (oA ∪ sample_selection.2)]>
         (<[sample_selection.1 := oA ∪ sample_selection.2]> (colors_table sample_generator)), [tA; tB]) /\
    t_pc tA = PDone /\ t_data tA = sample_data /\
    t_reads tA = [oA ∪ sample_selection.2; oB ∪ (oA ∪ sample_selection.2);
                  oB ∪ (oA ∪ sample_selection.2); oB ∪ (oA ∪ sample_selection.2)].
Proof.
  assert (select_palette (colors_table sample_generator) (get_default (md_theme sample_data) K_default) =
            Ok (sample_selection.1, sample_selection.2)) as Hs by (vm_compute; reflexivity).
  assert ((style_writes (Some red_style)).2 = None) as Hr by reflexivity.
  assert ((style_writes (Some blue_style)).2 = None) as Hb by reflexivity.
  split; [apply default_colors_wf|split; [exact Hs|split; [exact Hr|split; [exact Hb|]]]].
  exact (torn_reads sample_generator sample_data sample_data red_style blue_style _ _
           default_colors_wf Hs Hs Hr Hb).
Defined.
