(* ===== verification/Json.v ===== *)
(** JSON as the mind-map API exchanges it: the values [jsonify] writes
    and [request.get_json()] reads, objects as association lists (Python's
    [json] keeps the last of duplicated keys), a schema language with a
    boolean checker, and the encoding of the diagram dictionary of
    [generate_mind_map_data] (mindmap_service.py 90-95 and 119-127)
    with the decoding the download endpoint relies on.  A node's uuid is
    the decimal string of its counter value. *)

From S2P Require Import Prelude PyValue PyStr Outline Slides.
Local Open Scope Z_scope.

(** ** Schemas *)

#[warnings="-register-all"]
Inductive jtype :=
| TBool
| TInt
| TStr
| TList (t : jtype)
| TNode
| TObj (fields : list (pystr * jtype)).

(** A node dictionary: [id], [text], [level] and its [children], which
    are nodes again. *)
Definition node_fields : list (pystr * jtype) :=
  [(lit "id", TStr); (lit "text", TStr); (lit "level", TInt); (lit "children", TList TNode)].

Fixpoint assoc_ty (k : pystr) (ts : list (pystr * jtype)) : option jtype :=
  match ts with
  | [] => None
  | (k', t) :: ts' => if bool_decide (k' = k) then Some t else assoc_ty k ts'
  end.

(** [has_type j t]: every field of an object is declared with its type,
    and every declared field is present (in any order, as [jsonify]
    sorts the keys). *)
Fixpoint has_type (j : json) (t : jtype) {struct j} : bool :=
  let fix all (l : list json) (t : jtype) : bool :=
    match l with [] => true | x :: r => has_type x t && all r t end in
  let fix fields (fs : list (pystr * json)) (ts : list (pystr * jtype)) : bool :=
    match fs with
    | [] => true
    | (k, v) :: fs' =>
        match assoc_ty k ts with Some t' => has_type v t' && fields fs' ts | None => false end
    end in
  let covers fs ts := forallb (fun kt => bool_decide (kt.1 ∈ map fst fs)) ts in
  match j, t with
  | JBool _, TBool | JInt _, TInt | JStr _, TStr => true
  | JArr l, TList t' => all l t'
  | JObj fs, TNode => fields fs node_fields && covers fs node_fields
  | JObj fs, TObj ts => fields fs ts && covers fs ts
  | _, _ => false
  end.

(** ** The diagram dictionary *)

(** A node as [parse_content] builds it (lines 90-95). *)
Fixpoint node_json (n : node) : json :=
  JObj [(lit "id", JStr (decimal (N.to_nat (nid n)))); (lit "text", JStr (text n));
        (lit "level", JInt (level n)); (lit "children", JArr (map node_json (children n)))].

Definition opt_field (k : String.string) (v : option json) : list (pystr * json) :=
  match v with Some j => [(lit k, j)] | None => [] end.

(** The dict of lines 119-127, with the keys a diagram has. *)
Definition data_json (d : mind_map_data) : list (pystr * json) :=
  opt_field "title" (JStr <$> md_title d) ++
  opt_field "description" (JStr <$> md_description d) ++
  opt_field "nodes" ((fun ns => JArr (map node_json ns)) <$> md_nodes d) ++
  opt_field "theme" (JStr <$> md_theme d) ++
  opt_field "layout" (JStr <$> md_layout d) ++
  opt_field "generated_at" (JStr <$> md_generated_at d) ++
  opt_field "node_count" (JInt <$> md_node_count d).

(** The diagram dictionary of a generated map: all seven keys. *)
Definition data_schema : jtype :=
  TObj [(lit "title", TStr); (lit "description", TStr); (lit "nodes", TList TNode);
        (lit "theme", TStr); (lit "layout", TStr); (lit "generated_at", TStr); (lit "node_count", TInt)].

(** ** Reading a diagram back *)

Definition as_str (j : json) : option pystr := match j with JStr s => Some s | _ => None end.
Definition as_int (j : json) : option Z := match j with JInt z => Some z | _ => None end.

(** A node dictionary read back; [None] when a key is missing or of
    another type, where the renderer would raise.  The [children] read
    are those of the last binding of the key. *)
Fixpoint node_of_json (j : json) : option node :=
  match j with
  | JObj fs =>
      let fix children (fs : list (pystr * json)) : option (list node) :=
        match fs with
        | [] => None
        | (k', v) :: fs' =>
            if bool_decide (k' = lit "children" /\ jget (lit "children") fs' = None) then
              match v with
              | JArr l =>
                  (fix all (l : list json) : option (list node) :=
                     match l with
                     | [] => Some []
                     | x :: r => c ← node_of_json x; cs ← all r; Some (c :: cs)
                     end) l
              | _ => None
              end
            else children fs'
        end in
      i ← jget (lit "id") fs ≫= as_str;
      t ← jget (lit "text") fs ≫= as_str;
      lv ← jget (lit "level") fs ≫= as_int;
      cs ← children fs;
      Some (mkNode (Z.to_N (decimal_value i)) t lv cs)
  | _ => None
  end.

Fixpoint nodes_of_json (l : list json) : option (list node) :=
  match l with
  | [] => Some []
  | x :: r => c ← node_of_json x; cs ← nodes_of_json r; Some (c :: cs)
  end.

(** An optional string or integer key: absent is [None]; present with
    another type is outside what the model decodes. *)
Definition opt_get {A} (conv : json -> option A) (k : String.string) (fs : list (pystr * json))
    : option (option A) :=
  match jget (lit k) fs with None => Some None | Some j => Some <$> conv j end.

(** The diagram the download endpoint renders from a request body. *)
Definition data_of_json (fs : list (pystr * json)) : option mind_map_data :=
  title ← opt_get as_str "title" fs;
  description ← opt_get as_str "description" fs;
  nodes ← opt_get (fun j => match j with JArr l => nodes_of_json l | _ => None end) "nodes" fs;
  theme ← opt_get as_str "theme" fs;
  layout ← opt_get as_str "layout" fs;
  generated_at ← opt_get as_str "generated_at" fs;
  node_count ← opt_get as_int "node_count" fs;
  Some {| md_title := title; md_description := description; md_nodes := nodes; md_theme := theme;
          md_layout := layout; md_generated_at := generated_at; md_node_count := node_count |}.

(** The [children] of a node dictionary, read from the last binding. *)
Definition children_of (fs : list (pystr * json)) : option (list node) :=
  match jget (lit "children") fs with Some (JArr l) => nodes_of_json l | _ => None end.

(** The checker on an object, as two [forallb]s. *)
Definition fields_ok (fs : list (pystr * json)) (ts : list (pystr * jtype)) : bool :=
  forallb (fun kv => match assoc_ty kv.1 ts with Some t => has_type kv.2 t | None => false end) fs &&
  forallb (fun kt => bool_decide (kt.1 ∈ map fst fs)) ts.

(** ** Lookup *)

Lemma jget_acc k fs acc :
  fold_left (fun acc kv => if bool_decide (kv.1 = k) then Some kv.2 else acc) fs acc =
  match jget k fs with Some v => Some v | None => acc end.
Proof.
  revert acc. induction fs as [|[k' v] fs IH]; intros acc; [done|].
  cbn [fold_left fst snd]. rewrite IH. unfold jget at 2. cbn [fold_left fst snd]. rewrite IH.
  case_bool_decide; by destruct (jget k fs).
Qed.

Lemma jget_app k l1 l2 :
  jget k (l1 ++ l2) = match jget k l2 with Some v => Some v | None => jget k l1 end.
Proof. unfold jget at 1. by rewrite fold_left_app, jget_acc. Qed.

Lemma jget_cons k k' v fs :
  jget k ((k', v) :: fs) = match jget k fs with Some w => Some w | None => if bool_decide (k' = k) then Some v else None end.
Proof. unfold jget at 1. cbn [fold_left fst snd]. by rewrite jget_acc. Qed.

Lemma jget_opt_field k k' v : jget k (opt_field k' v) = if bool_decide (lit k' = k) then v else None.
Proof. destruct v; unfold jget; cbn [opt_field fold_left fst snd]; by case_bool_decide. Qed.

(** ** Equations of the checker and the decoder *)

Lemma has_type_arr l t : has_type (JArr l) (TList t) = forallb (fun x => has_type x t) l.
Proof. induction l as [|x l IH]; [done|]. cbn in IH |- *. by rewrite IH. Qed.

Lemma fields_ok_fix fs ts :
  (fix fields (fs : list (pystr * json)) (ts : list (pystr * jtype)) : bool :=
    match fs with
    | [] => true
    | (k, v) :: fs' => match assoc_ty k ts with Some t' => has_type v t' && fields fs' ts | None => false end
    end) fs ts && forallb (fun kt => bool_decide (kt.1 ∈ map fst fs)) ts = fields_ok fs ts.
Proof.
  unfold fields_ok. f_equal. induction fs as [|[k v] fs IH]; [done|]. cbn [forallb fst snd].
  destruct (assoc_ty k ts); [by rewrite IH|done].
Qed.

Lemma has_type_obj fs ts : has_type (JObj fs) (TObj ts) = fields_ok fs ts.
Proof. apply fields_ok_fix. Qed.

Lemma has_type_node_obj fs : has_type (JObj fs) TNode = fields_ok fs node_fields.
Proof. apply fields_ok_fix. Qed.

Lemma node_of_json_obj fs :
  node_of_json (JObj fs) =
    (i ← jget (lit "id") fs ≫= as_str; t ← jget (lit "text") fs ≫= as_str;
     lv ← jget (lit "level") fs ≫= as_int; cs ← children_of fs;
     Some (mkNode (Z.to_N (decimal_value i)) t lv cs)).
Proof.
  cbn [node_of_json].
  match goal with |- context [?F fs] =>
    assert (HF : forall fs', F fs' = children_of fs'); [|by rewrite HF]
  end.
  induction fs' as [|[k v] fs' IH]; [done|]. unfold children_of. rewrite jget_cons.
  case_bool_decide as Hc.
  - destruct Hc as [-> ->]. rewrite bool_decide_eq_true_2 by done. by destruct v.
  - rewrite IH. unfold children_of. destruct (jget (lit "children") fs') eqn:E; [done|].
    rewrite bool_decide_eq_false_2; [done|]. intros ->. by apply Hc.
Qed.

(** ** Round trip and typing of the diagram dictionary *)

Lemma decimal_nid i : Z.to_N (decimal_value (decimal (N.to_nat i))) = i.
Proof.
  unfold decimal. rewrite DecimalFacts.decimal_aux_value by lia.
  change (decimal_value []) with 0. cbn [length Z.of_nat]. rewrite Z.pow_0_r. lia.
Qed.

Lemma nodes_of_json_map ns :
  Forall (fun n => node_of_json (node_json n) = Some n) ns -> nodes_of_json (map node_json ns) = Some ns.
Proof. induction 1 as [|n ns Hn _ IH]; [done|]. cbn [map nodes_of_json]. by rewrite Hn, IH. Qed.

Lemma node_json_roundtrip n : node_of_json (node_json n) = Some n.
Proof.
  induction n as [i t lv cs IH] using node_ind'. cbn [node_json]. rewrite node_of_json_obj.
  unfold children_of. cbn -[decimal nodes_of_json map]. lit_decide. cbn -[decimal decimal_value nodes_of_json].
  by rewrite (nodes_of_json_map _ IH), decimal_nid.
Qed.

Lemma node_json_typed n : has_type (node_json n) TNode = true.
Proof.
  induction n as [i t lv cs IH] using node_ind'. cbn [node_json].
  rewrite has_type_node_obj. unfold fields_ok. cbn -[has_type decimal lit]. lit_decide. cbn -[has_type decimal].
  rewrite has_type_arr. cbn [has_type andb]. rewrite !andb_true_r.
  apply forallb_forall. intros x Hx.
  apply in_map_iff in Hx as (c & <- & Hc). rewrite Forall_forall in IH. apply IH, list_elem_of_In, Hc.
Qed.

Lemma nodes_json_roundtrip ns : nodes_of_json (map node_json ns) = Some ns.
Proof. apply nodes_of_json_map, Forall_forall. intros n _. apply node_json_roundtrip. Qed.

(** Reading back the dictionary of any diagram gives the diagram. *)
Lemma data_json_roundtrip d : data_of_json (data_json d) = Some d.
Proof.
  destruct d as [ti ds ns th ly ga nc].
  unfold data_of_json, data_json, opt_get; cbn [md_title md_description md_nodes md_theme md_layout
    md_generated_at md_node_count]. rewrite !jget_app, !jget_opt_field. lit_decide.
  destruct ti, ds, ns, th, ly, ga, nc; cbn -[nodes_of_json map]; rewrite ?nodes_json_roundtrip; done.
Qed.

(** The dictionary of a diagram with all seven keys has the schema. *)
Lemma data_json_typed ti ds ns th ly ga nc :
  has_type (JObj (data_json {| md_title := Some ti; md_description := Some ds; md_nodes := Some ns;
    md_theme := Some th; md_layout := Some ly; md_generated_at := Some ga; md_node_count := Some nc |}))
    data_schema = true.
Proof.
  unfold data_schema. rewrite has_type_obj. unfold fields_ok, data_json. cbn -[has_type lit map].
  lit_decide. cbn -[has_type map]. rewrite has_type_arr. cbn [has_type andb]. rewrite !andb_true_r.
  apply forallb_forall. intros x Hx.
  apply in_map_iff in Hx as (c & <- & _). apply node_json_typed.
Qed.

(** The dictionary [generate_mind_map_data] returns has the schema. *)
Lemma generated_data_typed title description content theme layout now start :
  has_type (JObj (data_json (fst (generate_mind_map_data title description content theme layout now start))))
    data_schema = true.
Proof. unfold generate_mind_map_data. destruct (parse_content content start). apply data_json_typed. Qed.

Lemma jget_data_nodes d :
  jget (lit "nodes") (data_json d) = (fun ns => JArr (map node_json ns)) <$> md_nodes d.
Proof.
  unfold data_json. rewrite !jget_app, !jget_opt_field. lit_decide. cbn.
  by destruct (md_node_count d), (md_generated_at d), (md_layout d), (md_theme d), (md_nodes d).
Qed.
