(* ===== verification/Client.v ===== *)
(** The mind-map API over the wire and its debug client.  The request
    dictionary [request.get_json()] gives the handlers (app.py 48-49 and
    the [request_data.get] reads of mindmap_service.py 358-364), the
    response dictionaries the handlers [jsonify] (mindmap_service.py
    379-391, app.py 59-63, 97-101, 125-129, 158-162, 229-234), the
    download endpoint on a JSON body (app.py 88-104), and the three tests
    and [main] of debug_api.py, run against the server of [Service]
    in-process.  The base64 text of a PNG and [str] of an exception are
    section variables: no theorem depends on them. *)

From S2P Require Import Prelude PyValue PyStr Outline Pil Palette Layout Render Service Json.
Local Open Scope Z_scope.

(** ** Literals of the handlers and of the debug client *)

(** ['缺少必要字段: '] *)
Definition msg_missing_field : pystr := [32570; 23569; 24517; 35201; 23383; 27573; 58; 32].
(** ['请提供完整的思维导图信息'] *)
Definition msg_complete_info : pystr :=
  [35831; 25552; 20379; 23436; 25972; 30340; 24605; 32500; 23548; 22270; 20449; 24687].
(** ['缺少思维导图数据'] *)
Definition msg_missing_data : pystr := [32570; 23569; 24605; 32500; 23548; 22270; 25968; 25454].
(** ['请提供完整的思维导图数据'] *)
Definition msg_complete_data : pystr :=
  [35831; 25552; 20379; 23436; 25972; 30340; 24605; 32500; 23548; 22270; 25968; 25454].
(** ['思维导图生成成功'] *)
Definition msg_generate_ok : pystr := [24605; 32500; 23548; 22270; 29983; 25104; 25104; 21151].
(** ['思维导图生成失败'] *)
Definition msg_generate_failed : pystr := [24605; 32500; 23548; 22270; 29983; 25104; 22833; 36133].
(** ['预览生成成功'] *)
Definition msg_preview_ok : pystr := [39044; 35272; 29983; 25104; 25104; 21151].
(** ['下载失败'] *)
Definition msg_download_failed : pystr := [19979; 36733; 22833; 36133].
(** ['思维导图服务运行正常'] *)
Definition msg_health_ok : pystr :=
  [24605; 32500; 23548; 22270; 26381; 21153; 36816; 34892; 27491; 24120].

(** ** Requests *)

(** The request record the handlers read from a JSON body; a string
    field of another type (or [null]) is outside the model, while [style]
    is whatever value the body holds. *)
Definition request_of_json (fs : list (pystr * json)) : option request :=
  title ← opt_get as_str "title" fs;
  description ← opt_get as_str "description" fs;
  content ← opt_get as_str "content" fs;
  theme ← opt_get as_str "theme" fs;
  layout ← opt_get as_str "layout" fs;
  style ← opt_get Some "style" fs;
  Some {| rq_title := title; rq_description := description; rq_content := content;
          rq_theme := theme; rq_layout := layout; rq_style := style |}.

(** [GET /api/mindmap/health] (app.py 226-234) at time [now]. *)
Definition http_health (now : pystr) : Z * list (pystr * json) :=
  (200, [(lit "success", JBool true); (lit "message", JStr msg_health_ok);
         (lit "timestamp", JStr now); (lit "version", JStr (lit "1.0.0"))]).

(** [@app.errorhandler(404)] and [(500)] (app.py 236-252). *)
Definition not_found_json : list (pystr * json) :=
  [(lit "success", JBool false); (lit "error", JStr [25509; 21475; 19981; 23384; 22312]);
   (lit "message", JStr [35831; 27714; 30340; 25509; 21475; 26410; 25214; 21040])].
Definition internal_error_json : list (pystr * json) :=
  [(lit "success", JBool false); (lit "error", JStr [26381; 21153; 22120; 20869; 37096; 38169; 35823]);
   (lit "message", JStr [26381; 21153; 22120; 22788; 29702; 35831; 27714; 26102; 21457; 29983; 38169; 35823])].

(** The routes of app.py, with their methods, and the
    [/static/<path:filename>] route [Flask(__name__)] adds. *)
Inductive route := RIndex | RGenerate | RDownload | RPreview | RThemes | RLayouts | RHealth
                 | RStatic (filename : pystr).

Definition routes : list (pystr * pystr * route) :=
  [(lit "GET", lit "/", RIndex);
   (lit "POST", lit "/api/mindmap/generate", RGenerate);
   (lit "POST", lit "/api/mindmap/download", RDownload);
   (lit "POST", lit "/api/mindmap/preview", RPreview);
   (lit "GET", lit "/api/mindmap/themes", RThemes);
   (lit "GET", lit "/api/mindmap/layouts", RLayouts);
   (lit "GET", lit "/api/mindmap/health", RHealth)].

Inductive dispatch_result := Handler (r : route) | MethodNotAllowed | NotFound404.

(** Flask's URL map: a path with a rule for the method runs its handler;
    a known path with another method is 405; a path under [/static/]
    with a non-empty rest is the static route (GET only); any other path
    is the 404 handler. *)
Definition dispatch (meth path : pystr) : dispatch_result :=
  match list_find (fun e => e.1.2 = path /\ e.1.1 = meth) routes with
  | Some (_, (_, r)) => Handler r
  | None =>
      if bool_decide (path ∈ map (fun e => e.1.2) routes) then MethodNotAllowed
      else if startswith path (lit "/static/") && (8 <? length path)%nat then
        (if bool_decide (meth = lit "GET") then Handler (RStatic (drop 8 path)) else MethodNotAllowed)
      else NotFound404
  end.

Section Wire.
Context `{PIL}.
Variable b64 : image -> pystr.
Variable exc_str : py_exc -> pystr.

(** The dictionary [generate_mindmap] returns (mindmap_service.py 379-391). *)
Definition generate_json (r : gen_response) : list (pystr * json) :=
  match r with
  | GenSuccess d img =>
      [(lit "success", JBool true); (lit "data", JObj (data_json d));
       (lit "image_base64", JStr (b64 img)); (lit "message", JStr msg_generate_ok)]
  | GenFailure e =>
      [(lit "success", JBool false); (lit "error", JStr (exc_str e));
       (lit "message", JStr msg_generate_failed)]
  end.

(** The JSON body of a response, [None] for the PNG file. *)
Definition response_json (b : http_body) : option (list (pystr * json)) :=
  match b with
  | MissingField f =>
      Some [(lit "success", JBool false); (lit "error", JStr (msg_missing_field ++ f));
            (lit "message", JStr msg_complete_info)]
  | NoNodes =>
      Some [(lit "success", JBool false); (lit "error", JStr msg_missing_data);
            (lit "message", JStr msg_complete_data)]
  | GenerateBody r => Some (generate_json r)
  | PreviewBody img =>
      Some [(lit "success", JBool true); (lit "image_base64", JStr (b64 img));
            (lit "message", JStr msg_preview_ok)]
  | PreviewError e => Some (generate_json (GenFailure e))
  | PngFile _ => None
  | DownloadError e =>
      Some [(lit "success", JBool false); (lit "error", JStr (exc_str e));
            (lit "message", JStr msg_download_failed)]
  end.

(** [handle_generate_request] and [handle_download_request]
    (mindmap_service.py 410-416): the calls on the module's one
    [MindMapService] instance, which the server state threads. *)
Definition handle_generate_request (svc : service) (req : request) (now : pystr) : service * gen_response :=
  generate_mindmap svc req now.
Definition handle_download_request (svc : service) (d : mind_map_data) : service * result image :=
  download_mindmap svc d.

(** [POST /api/mindmap/generate] on a JSON body. *)
Definition http_generate_json (svc : service) (fs : list (pystr * json)) (now : pystr)
    : option (service * http_response) :=
  req ← request_of_json fs; Some (http_generate svc req now).

(** [POST /api/mindmap/download] on a JSON body (app.py 88-104): the
    truthiness test of [data.get('nodes')] comes first, then the
    dictionary is read. *)
Definition http_download_json (svc : service) (fs : list (pystr * json))
    : option (service * http_response) :=
  if negb (jtruthy (jget (lit "nodes") fs)) then Some (svc, {| status := 400; body := NoNodes |})
  else d ← data_of_json fs; Some (http_download svc d).

(** ** The debug client (debug_api.py) *)

(** [test_data] of [test_generate_api] (lines 31-37). *)
Definition test_data : list (pystr * json) :=
  [(lit "title", JStr [27979; 35797; 24605; 32500; 23548; 22270]);
   (lit "description", JStr [36825; 26159; 19968; 20010; 27979; 35797]);
   (lit "content", JStr ([20013; 24515; 20027; 39064] ++ [NEWLINE] ++
                         lit "  " ++ [23376; 20027; 39064; 49] ++ [NEWLINE] ++
                         lit "  " ++ [23376; 20027; 39064; 50]));
   (lit "theme", JStr (lit "default")); (lit "layout", JStr (lit "radial"))].

(** [test_health_check] (lines 11-26). *)
Definition test_health_check (resp : Z * list (pystr * json)) : bool := bool_decide (resp.1 = 200).

(** [test_generate_api] (lines 28-57): the parsed body of a 200. *)
Definition test_generate_api (svc : service) (now : pystr)
    : option (service * option (list (pystr * json))) :=
  r ← http_generate_json svc test_data now;
  let '(svc', resp) := r in
  Some (svc', if bool_decide (status resp = 200) then response_json (body resp) else None).

(** [test_download_api] (lines 59-84): posts what it was given. *)
Definition test_download_api (svc : service) (mindmap_data : option (list (pystr * json)))
    : option (service * bool) :=
  match mindmap_data with
  | None | Some [] => Some (svc, false)
  | Some fs =>
      r ← http_download_json svc fs;
      let '(svc', resp) := r in Some (svc', bool_decide (status resp = 200))
  end.

Record debug_report := {
  rep_health : bool;
  rep_generate : option (list (pystr * json));
  rep_download : option bool
}.

(** [main] (lines 86-106) at time [now]. *)
Definition debug_main (svc : service) (now : pystr) : option (service * debug_report) :=
  if negb (test_health_check (http_health now)) then
    Some (svc, {| rep_health := false; rep_generate := None; rep_download := None |})
  else
    r ← test_generate_api svc now;
    let '(svc1, data) := r in
    match data with
    | Some (_ :: _) =>
        r' ← test_download_api svc1 data;
        let '(svc2, ok) := r' in
        Some (svc2, {| rep_health := true; rep_generate := data; rep_download := Some ok |})
    | _ => Some (svc1, {| rep_health := true; rep_generate := data; rep_download := None |})
    end.
End Wire.

(** ** Theorems *)

(** A successful generate response: [success], the diagram, the image
    and the message. *)
Definition success_schema : jtype :=
  TObj [(lit "success", TBool); (lit "data", data_schema); (lit "image_base64", TStr);
        (lit "message", TStr)].

Section WireTheorems.
Context `{PIL}.
Variable b64 : image -> pystr.
Variable exc_str : py_exc -> pystr.

(** A generate request that passes validation and renders. *)
Lemma http_generate_200 svc req now svc' resp :
  http_generate svc req now = (svc', resp) -> status resp = 200 ->
  exists title description content theme layout next g' img,
    generate_mind_map_data title description content theme layout now (svc_uuid svc) =
      (fst (generate_mind_map_data title description content theme layout now (svc_uuid svc)), next) /\
    create_mind_map_image (svc_gen svc)
      (fst (generate_mind_map_data title description content theme layout now (svc_uuid svc)))
      (request_style req) = (g', Ok img) /\
    svc' = {| svc_gen := g'; svc_uuid := next |} /\
    resp = {| status := 200; body := GenerateBody (GenSuccess
              (fst (generate_mind_map_data title description content theme layout now (svc_uuid svc))) img) |}.
Proof.
  unfold http_generate. destruct (validate req); [by intros [= <- <-]|].
  unfold generate_mindmap. destruct (generate_mind_map_data _ _ _ _ _ _ _) as [d next] eqn:Egen.
  destruct (create_mind_map_image _ _ _) as [g' [img|e]] eqn:Hc; intros [= <- <-]; [|done].
  intros _. do 8 eexists. rewrite Egen. cbn [fst]. by repeat split.
Qed.

(** C31: whenever [POST /api/mindmap/generate] answers 200 to a JSON
    body, its body is a JSON object of the success schema: [success],
    [message] and [image_base64], and under [data] the diagram with its
    seven keys and every node an [id]/[text]/[level]/[children] object
    down the whole tree. *)
Theorem generate_response_typed svc fs now svc' resp :
  http_generate_json svc fs now = Some (svc', resp) -> status resp = 200 ->
  exists out, response_json b64 exc_str (body resp) = Some out /\
    has_type (JObj out) success_schema = true.
Proof.
  unfold http_generate_json. destruct (request_of_json fs) as [req|]; [|done]. intros [= Hg] H200.
  destruct (http_generate_200 svc req now svc' resp Hg H200) as (t & ds & c & th & ly & next & g' & img & _ & _ & _ & ->).
  eexists. split; [reflexivity|]. unfold success_schema. rewrite has_type_obj. unfold fields_ok.
  cbn -[has_type lit data_json data_schema]. lit_decide. cbn -[has_type data_json data_schema].
  by rewrite generated_data_typed.
Qed.

(** C32: the [data] dictionary of a 200 generate response, posted back
    to [POST /api/mindmap/download], is read back as the same diagram
    and answers 200 with the very image the generate response carried:
    the JSON round trip loses nothing the renderer reads. *)
Theorem generated_data_downloads svc fs now svc1 d img :
  reachable svc ->
  http_generate_json svc fs now = Some (svc1, {| status := 200; body := GenerateBody (GenSuccess d img) |}) ->
  snd <$> http_download_json svc1 (data_json d) = Some {| status := 200; body := PngFile img |}.
Proof.
  intros Hr. destruct (reachable_svc_inv svc Hr) as [Hwf _].
  unfold http_generate_json. destruct (request_of_json fs) as [req|]; [|done]. intros [= Hg].
  destruct (http_generate_200 svc req now _ _ Hg eq_refl)
    as (t & ds & c & th & ly & next & g' & img' & _ & Hc & -> & Hresp).
  injection Hresp as -> ->.
  destruct (generated_fields t ds c th ly now (svc_uuid svc)) as (center & _ & _ & Hn & _).
  unfold http_download_json. rewrite jget_data_nodes, Hn. cbn [fmap option_fmap option_map jtruthy negb].
  rewrite data_json_roundtrip. cbn [mbind option_bind]. unfold http_download. rewrite Hn.
  unfold download_mindmap. pose proof (redraw_after_create _ _ _ _ _ Hwf Hc) as Hd. cbn [svc_gen].
  destruct (create_mind_map_image g' _ None) as [g'' r]. cbn [snd] in Hd. by subst r.
Qed.

(** The generate response has no [nodes] key: the download endpoint
    rejects it with 400. *)
Lemma download_generate_json svc r :
  http_download_json svc (generate_json b64 exc_str r) = Some (svc, {| status := 400; body := NoNodes |}).
Proof.
  unfold http_download_json. destruct r; cbn [generate_json]; rewrite !jget_cons; lit_decide; done.
Qed.

(** C33: the debug client never sees the download endpoint succeed: its
    health check passes, and whenever the generate test gets its 200 the
    download test posts the whole generate response instead of its
    [data] dictionary, which has no [nodes] key, and fails (400). *)
Theorem debug_download_rejected svc now :
  exists svc' rep, debug_main b64 exc_str svc now = Some (svc', rep) /\ rep_health rep = true /\
    rep_download rep = (fun _ => false) <$> rep_generate rep.
Proof.
  unfold debug_main, test_generate_api, http_generate_json, test_health_check, http_health.
  cbn [fst]. rewrite bool_decide_eq_true_2 by done. cbn [negb].
  destruct (request_of_json test_data) as [req|] eqn:E; vm_compute in E; [|discriminate].
  injection E as <-. unfold http_generate. cbn [mbind option_bind].
  match goal with |- context [validate ?rq] => replace (validate rq) with (@None pystr) by reflexivity end.
  cbn [mbind option_bind].
  match goal with |- context [generate_mindmap svc ?rq now] =>
    destruct (generate_mindmap svc rq now) as [svc1 [d img|e]] end; cbn [status body];
    [rewrite bool_decide_eq_true_2 by done|rewrite bool_decide_eq_false_2 by done];
    cbn [mbind option_bind response_json]; [|by do 2 eexists].
  pose proof (download_generate_json svc1 (GenSuccess d img)) as Hd.
  cbn [generate_json test_download_api] in Hd |- *. rewrite Hd. by do 2 eexists.
Qed.
End WireTheorems.

(** ** Witnesses, with the concrete Pillow of [Pil.v] *)

Definition sample_b64 : @image stub_pil -> pystr := fun _ => lit "iVBORw0KGgo=".
Definition sample_exc_str : py_exc -> pystr := fun _ => lit "error".

(** The debug client's request to the sample server. *)
Definition sample_exchange : service * http_response :=
  default (sample_service, {| status := 0; body := NoNodes |})
    (@http_generate_json stub_pil sample_service test_data sample_now).
Definition exchange_data : mind_map_data :=
  match body sample_exchange.2 with GenerateBody (GenSuccess d _) => d | _ => sample_data end.
Definition exchange_image : @image stub_pil :=
  match body sample_exchange.2 with GenerateBody (GenSuccess _ i) => i | _ => empty_image end.

Lemma generate_response_typed_witness :
  @http_generate_json stub_pil sample_service test_data sample_now =
    Some (sample_exchange.1, sample_exchange.2) /\
  status sample_exchange.2 = 200 /\
  exists out, response_json sample_b64 sample_exc_str (body sample_exchange.2) = Some out /\
    has_type (JObj out) success_schema = true.
Proof.
  assert (@http_generate_json stub_pil sample_service test_data sample_now =
            Some (sample_exchange.1, sample_exchange.2)) as Hx by (vm_compute; reflexivity).
  assert (status sample_exchange.2 = 200) as Hs by (vm_compute; reflexivity).
  split; [exact Hx|split; [exact Hs|]].
  exact (generate_response_typed sample_b64 sample_exc_str _ _ _ _ _ Hx Hs).
Defined.

Lemma generated_data_downloads_witness :
  @reachable stub_pil sample_service /\
  @http_generate_json stub_pil sample_service test_data sample_now =
    Some (sample_exchange.1, {| status := 200; body := GenerateBody (GenSuccess exchange_data exchange_image) |}) /\
  snd <$> http_download_json sample_exchange.1 (data_json exchange_data) =
    Some {| status := 200; body := PngFile exchange_image |}.
Proof.
  assert (@http_generate_json stub_pil sample_service test_data sample_now =
            Some (sample_exchange.1, {| status := 200;
                    body := GenerateBody (GenSuccess exchange_data exchange_image) |})) as Hx
    by (vm_compute; reflexivity).
  split; [exact sample_service_reachable|split; [exact Hx|]].
  exact (generated_data_downloads _ _ _ _ _ _ sample_service_reachable Hx).
Defined.

(** The sample run of the debug client reaches the download test. *)
Example debug_main_sample :
  match @debug_main stub_pil sample_b64 sample_exc_str sample_service sample_now with
  | Some (_, rep) => is_Some (rep_generate rep) /\ rep_download rep = Some false
  | None => False
  end.
Proof. vm_compute. split; [eexists|]; reflexivity. Qed.
