(* ===== verification/FormData.v ===== *)
(** The form-data branch of the mind-map API.  The generate and preview
    handlers of app.py read a body that is not JSON with
    [request.form.to_dict()] (lines 50-51, 138-139): a dictionary of
    strings holding the first value of each field, which then goes
    through the same code as a JSON body.  Every value the service reads
    is a string, so a non-empty [style] reaches [colors.update(style)]
    (mindmap_service.py 137-138) as a string, which [dict.update]
    iterates character by character and rejects at once.  The form is
    an association list read by its first binding. *)

From S2P Require Import Prelude PyValue Outline Pil Palette Layout Render Service.
Local Open Scope Z_scope.

(** A form body: its fields in order, a name possibly repeated. *)
Definition form : Type := list (pystr * pystr).

(** [request.form.to_dict()[k]]: the first value given for [k]. *)
Fixpoint form_lookup (k : pystr) (fs : form) : option pystr :=
  match fs with
  | [] => None
  | (k', v) :: fs' => if bool_decide (k' = k) then Some v else form_lookup k fs'
  end.

(** The request the handlers read from a form: every field a string,
    the [style] too. *)
Definition request_of_form (fs : form) : request :=
  {| rq_title := form_lookup (lit "title") fs; rq_description := form_lookup (lit "description") fs;
     rq_content := form_lookup (lit "content") fs; rq_theme := form_lookup (lit "theme") fs;
     rq_layout := form_lookup (lit "layout") fs; rq_style := JStr <$> form_lookup (lit "style") fs |}.

(** ** Lemmas *)

Section FormLemmas.
Context `{PIL}.

(** A style whose update raises before writing anything leaves the
    generator as it was and fails the request with that exception. *)
Lemma generate_update_raises svc req now e :
  svc_inv svc -> style_writes (request_style req) = ([], Some e) ->
  svc_gen (fst (generate_mindmap svc req now)) = svc_gen svc /\
  snd (generate_mindmap svc req now) = GenFailure e.
Proof.
  intros [Hwf _] Hst. pose proof (generate_mindmap_unfold svc req now) as Hu. cbn zeta in Hu.
  destruct (generate_mind_map_data _ _ _ _ _ _ _) as [d next].
  destruct (create_mind_map_image_unfold (svc_gen svc) d (request_style req) Hwf)
    as (key & c & _ & Hk & Hc).
  rewrite Hc in Hu. unfold style_palette in Hu. rewrite Hst in Hu. cbn [fst snd] in Hu.
  destruct Hu as [-> ->]. split; [|done].
  unfold writes_map, write_all. cbn [foldl]. rewrite (left_id_L ∅ (∪)), insert_id by exact Hk.
  apply set_table_id.
Qed.
End FormLemmas.

(** ** Theorems *)

Section FormTheorems.
Context `{PIL}.

(** C14: a form-encoded generate or preview request with a style always
    fails.  On a reachable server, a form with a non-empty [style] and
    the title and content the handler checks is answered 500 by both
    endpoints with the [ValueError] [dict.update] raises on a string
    (its first element, one character, is not a pair); the generator is
    left as it was (the update raises before it writes), while the uuid
    counter has moved on. *)
Theorem form_style_fails svc fs now c s :
  reachable svc -> form_lookup (lit "style") fs = Some (c :: s) -> validate (request_of_form fs) = None ->
  exists svc',
    http_generate svc (request_of_form fs) now =
      (svc', {| status := 500; body := GenerateBody (GenFailure (ValueError (msg_bad_length 0 1))) |}) /\
    svc_gen svc' = svc_gen svc /\
    http_preview svc (request_of_form fs) now =
      (svc', {| status := 500; body := PreviewError (ValueError (msg_bad_length 0 1)) |}).
Proof.
  intros Hr Hs Hv. pose proof (reachable_svc_inv svc Hr) as Hinv.
  assert (style_writes (request_style (request_of_form fs)) = ([], Some (ValueError (msg_bad_length 0 1))))
    as Hst by (unfold request_style, request_of_form; cbn [rq_style]; rewrite Hs; reflexivity).
  destruct (generate_update_raises svc (request_of_form fs) now _ Hinv Hst) as [Hg He].
  unfold http_generate, http_preview. rewrite Hv.
  destruct (generate_mindmap svc (request_of_form fs) now) as [svc' r]. cbn [fst snd] in Hg, He. subst r.
  by exists svc'.
Qed.
End FormTheorems.

(** ** Sample forms *)

Definition styled_form : form :=
  [(lit "title", lit "Root"); (lit "content", lit "A"); (lit "style", lit "red")].

Lemma form_style_fails_witness :
  @reachable stub_pil sample_service /\ form_lookup (lit "style") styled_form = Some (lit "red") /\
  validate (request_of_form styled_form) = None /\
  exists svc',
    @http_generate stub_pil sample_service (request_of_form styled_form) sample_now =
      (svc', {| status := 500; body := GenerateBody (GenFailure (ValueError (msg_bad_length 0 1))) |}) /\
    svc_gen svc' = svc_gen sample_service /\
    http_preview sample_service (request_of_form styled_form) sample_now =
      (svc', {| status := 500; body := PreviewError (ValueError (msg_bad_length 0 1)) |}).
Proof.
  assert (form_lookup (lit "style") styled_form = Some (lit "red")) as H1 by reflexivity.
  assert (validate (request_of_form styled_form) = None) as H2 by reflexivity.
  split; [exact sample_service_reachable|split; [exact H1|split; [exact H2|]]].
  exact (form_style_fails sample_service styled_form sample_now _ _ sample_service_reachable H1 H2).
Defined.

(** The same form with a style of two characters is still refused: the
    string is iterated by character, never read as a pair. *)
Example two_character_style :
  snd (@generate_mindmap stub_pil sample_service
         (request_of_form [(lit "title", lit "Root"); (lit "content", lit "A"); (lit "style", lit "ab")])
         sample_now) = GenFailure (ValueError (msg_bad_length 0 1)).
Proof. vm_compute. reflexivity. Qed.
