(* ===== verification/Launchers.v ===== *)
(** The three start scripts: start_simple_service.py (PPT service,
    simple version), start_service.py (mind-map service) and
    start_ppt_service.py (templated PPT service).  Each inspects and
    changes the host it runs on; the host is a record passed from step to
    step: the interpreter's [sys.version_info], whether [pip] runs, the
    importable modules, the packages [pip install] can install (and the
    module each provides), whether [pip install -r requirements.txt]
    succeeds and which modules it brings, and the directories that exist
    or can be made.  A script ends by starting its server, by returning
    after a message, by an uncaught exception, or by [sys.exit]. *)

From S2P Require Import Prelude.
Local Open Scope Z_scope.

(** An exception propagates through [E + A]. *)
#[local] Instance sum_ret {E} : MRet (sum E) := fun _ a => inr a.
#[local] Instance sum_bind {E} : MBind (sum E) :=
  fun _ _ f r => match r with inl e => inl e | inr a => f a end.

Record host := {
  version_info : list Z;
  pip_runs : bool;
  modules : list pystr;
  installable : pystr -> option pystr;
  requirements_ok : bool;
  requirements : list pystr;
  dirs : list pystr;
  can_mkdir : pystr -> bool
}.

(** [subprocess.CalledProcessError] of a failed [pip] command, and the
    [OSError] of [os.makedirs]. *)
Inductive launch_exc :=
| CalledProcessError (cmd : list pystr)
| MakedirsError (path : pystr).

Inductive outcome :=
| Serving (server : pystr) (h : host)
| Returned (h : host)
| Raised (e : launch_exc)
| Exited (code : Z).

Definition set_modules (h : host) (ms : list pystr) : host :=
  {| version_info := version_info h; pip_runs := pip_runs h; modules := ms;
     installable := installable h; requirements_ok := requirements_ok h;
     requirements := requirements h; dirs := dirs h; can_mkdir := can_mkdir h |}.

Definition set_dirs (h : host) (ds : list pystr) : host :=
  {| version_info := version_info h; pip_runs := pip_runs h; modules := modules h;
     installable := installable h; requirements_ok := requirements_ok h;
     requirements := requirements h; dirs := ds; can_mkdir := can_mkdir h |}.

(** Python's order on tuples of integers: lexicographic, a proper prefix
    before its extensions. *)
Fixpoint tuple_lt (a b : list Z) : bool :=
  match a, b with
  | _, [] => false
  | [], _ :: _ => true
  | x :: a', y :: b' => if x <? y then true else if y <? x then false else tuple_lt a' b'
  end.

Definition importable (h : host) (m : pystr) : bool := bool_decide (m ∈ modules h).

(** [subprocess.run([python, '-m', 'pip', 'install', pkg], check=True)]:
    the package brings its module, or the command fails. *)
Definition pip_install (h : host) (pkg : pystr) : launch_exc + host :=
  match installable h pkg with
  | Some m => inr (set_modules h (m :: modules h))
  | None => inl (CalledProcessError [lit "pip"; lit "install"; pkg])
  end.

(** [os.makedirs(path, exist_ok=True)]. *)
Definition makedirs (h : host) (path : pystr) : launch_exc + host :=
  if bool_decide (path ∈ dirs h) then inr h
  else if can_mkdir h path then inr (set_dirs h (path :: dirs h))
  else inl (MakedirsError path).

(** The modules [app.py] (with mindmap_service.py) and ppt_service.py
    import at their top. *)
Definition app_imports : list pystr := [lit "flask"; lit "flask_cors"; lit "PIL"].
Definition ppt_service_imports : list pystr :=
  [lit "flask"; lit "flask_cors"; lit "pptx"; lit "jinja2"].

(** ** start_simple_service.py *)
Module SimpleLauncher.

(** [try: import m / except ImportError: pip install pkg] (lines 28-52). *)
Definition ensure_module (h : host) (m pkg : pystr) : launch_exc + host :=
  if importable h m then inr h else pip_install h pkg.

(** [check_dependencies] (lines 8-54); the [pip install] of a missing
    package runs with [check=True] outside any handler. *)
Definition check_dependencies (h : host) : launch_exc + (bool * host) :=
  if tuple_lt (version_info h) [3; 7] then inr (false, h)
  else if negb (pip_runs h) then inr (false, h)
  else
    h1 ← ensure_module h (lit "flask") (lit "flask");
    h2 ← ensure_module h1 (lit "flask_cors") (lit "flask-cors");
    h3 ← ensure_module h2 (lit "pptx") (lit "python-pptx");
    inr (true, h3).

(** [create_directories] (lines 56-69): the first failure returns. *)
Fixpoint create_dirs (h : host) (ds : list pystr) : bool * host :=
  match ds with
  | [] => (true, h)
  | d :: ds' => match makedirs h d with inl _ => (false, h) | inr h' => create_dirs h' ds' end
  end.

Definition create_directories (h : host) : bool * host := create_dirs h [lit "static/pptx"].

(** [main] (lines 71-101): the service is [ppt_service_simple.py] run as
    a child process. *)
Definition main (h : host) : outcome :=
  match check_dependencies h with
  | inl e => Raised e
  | inr (false, h') => Returned h'
  | inr (true, h') =>
      let '(ok, h'') := create_directories h' in
      if ok then Serving (lit "ppt_service_simple.py") h'' else Returned h''
  end.
End SimpleLauncher.

(** ** start_service.py *)
Module MindmapLauncher.

(** [check_dependencies] (lines 20-29): [flask] and [PIL]. *)
Definition check_dependencies (h : host) : bool := importable h (lit "flask") && importable h (lit "PIL").

(** [install_dependencies] (lines 31-42): [pip install -r requirements.txt]. *)
Definition install_dependencies (h : host) : bool * host :=
  if requirements_ok h then (true, set_modules h (requirements h ++ modules h)) else (false, h).

(** [start_service] (lines 44-58): [from app import app] inside the
    [try]; an [ImportError] is logged and the function returns. *)
Definition start_service (h : host) : outcome :=
  if forallb (importable h) app_imports then Serving (lit "app.py") h else Returned h.

(** [main] (lines 60-78). *)
Definition main (h : host) : outcome :=
  if check_dependencies h then start_service h
  else
    let '(ok, h') := install_dependencies h in
    if negb ok then Returned h'
    else if negb (check_dependencies h') then Returned h'
    else start_service h'.
End MindmapLauncher.

(** ** start_ppt_service.py *)
Module PptLauncher.

(** [check_dependencies] (lines 11-25): [flask], [jinja2] and [pptx]. *)
Definition check_dependencies (h : host) : bool :=
  importable h (lit "flask") && importable h (lit "jinja2") && importable h (lit "pptx").

(** [create_directories] (lines 27-32): no handler, an error propagates. *)
Fixpoint create_dirs (h : host) (ds : list pystr) : launch_exc + host :=
  match ds with
  | [] => inr h
  | d :: ds' => h' ← makedirs h d; create_dirs h' ds'
  end.

Definition create_directories (h : host) : launch_exc + host :=
  create_dirs h [lit "temp"; lit "static/pptx"].

(** [start_service] (lines 34-57). *)
Definition start_service (h : host) : launch_exc + outcome :=
  if negb (check_dependencies h) then inr (Returned h)
  else
    h' ← create_directories h;
    inr (if forallb (importable h') ppt_service_imports then Serving (lit "ppt_service.py") h'
         else Returned h').

(** The script's body (lines 59-66): any exception exits with status 1. *)
Definition main (h : host) : outcome :=
  match start_service h with inl _ => Exited 1 | inr o => o end.
End PptLauncher.

(** ** Lemmas *)

(** A module the host has or [pip] can bring. *)
Definition provides (h : host) (m pkg : pystr) : bool := importable h m || bool_decide (installable h pkg = Some m).


Section LauncherFacts.
Implicit Types (h : host) (m pkg : pystr).

(** [sys.version_info < (3, 7)] decided by the major and minor numbers. *)
Lemma tuple_lt_version a b rest :
  tuple_lt (a :: b :: rest) [3; 7] = (a <? 3) || ((a =? 3) && (b <? 7)).
Proof.
  cbn [tuple_lt]. destruct rest; destruct (Z.ltb_spec a 3), (Z.ltb_spec 3 a), (Z.eqb_spec a 3);
    try lia; destruct (Z.ltb_spec b 7), (Z.ltb_spec 7 b); done || lia.
Qed.

(** [ensure_module] makes the module importable and keeps the others. *)
Lemma ensure_module_ok h m pkg :
  provides h m pkg = true ->
  exists h', SimpleLauncher.ensure_module h m pkg = inr h' /\ importable h' m = true /\
    (forall x, importable h x = true -> importable h' x = true) /\
    installable h' = installable h /\ dirs h' = dirs h /\ can_mkdir h' = can_mkdir h.
Proof.
  unfold provides, SimpleLauncher.ensure_module. destruct (importable h m) eqn:Hm.
  - intros _. by exists h.
  - cbn [orb]. intros Hi%bool_decide_eq_true_1. unfold pip_install. rewrite Hi.
    eexists. split; [done|]. unfold importable in *. cbn [modules set_modules].
    split; [apply bool_decide_eq_true_2; set_solver|].
    split; [|done]. intros x Hx%bool_decide_eq_true_1. apply bool_decide_eq_true_2. set_solver.
Qed.

(** start_simple_service.py starts its server when the interpreter is
    3.7 or later, [pip] runs, each of [flask], [flask_cors] and [pptx]
    is there or installable, and [static/pptx] exists or can be made;
    the three modules are then importable. *)
Lemma simple_main_serves h :
  tuple_lt (version_info h) [3; 7] = false -> pip_runs h = true ->
  provides h (lit "flask") (lit "flask") = true ->
  provides h (lit "flask_cors") (lit "flask-cors") = true ->
  provides h (lit "pptx") (lit "python-pptx") = true ->
  lit "static/pptx" ∈ dirs h \/ can_mkdir h (lit "static/pptx") = true ->
  exists h', SimpleLauncher.main h = Serving (lit "ppt_service_simple.py") h' /\
    Forall (fun m => importable h' m = true) [lit "flask"; lit "flask_cors"; lit "pptx"].
Proof.
  intros Hv Hp Hf Hc Hx Hd. unfold SimpleLauncher.main, SimpleLauncher.check_dependencies.
  rewrite Hv, Hp. cbn [negb].
  destruct (ensure_module_ok h _ _ Hf) as (h1 & -> & Hf1 & Hm1 & Hi1 & Hd1 & Hk1).
  cbn [mbind sum_bind].
  assert (provides h1 (lit "flask_cors") (lit "flask-cors") = true) as Hc1.
  { unfold provides in *. rewrite Hi1. apply orb_true_iff in Hc as [Hc|Hc]; [by rewrite (Hm1 _ Hc)|].
    by rewrite Hc, orb_true_r. }
  destruct (ensure_module_ok h1 _ _ Hc1) as (h2 & -> & Hc2 & Hm2 & Hi2 & Hd2 & Hk2).
  cbn [mbind sum_bind].
  assert (provides h2 (lit "pptx") (lit "python-pptx") = true) as Hx2.
  { unfold provides in *. rewrite Hi2, Hi1. apply orb_true_iff in Hx as [Hx|Hx]; [by rewrite (Hm2 _ (Hm1 _ Hx))|].
    by rewrite Hx, orb_true_r. }
  destruct (ensure_module_ok h2 _ _ Hx2) as (h3 & -> & Hx3 & Hm3 & _ & Hd3 & Hk3).
  cbn [mbind sum_bind SimpleLauncher.create_directories SimpleLauncher.create_dirs]. unfold makedirs.
  rewrite Hd3, Hd2, Hd1, Hk3, Hk2, Hk1.
  assert (Forall (fun m => importable h3 m = true) [lit "flask"; lit "flask_cors"; lit "pptx"]) as Hall
    by (repeat constructor; auto).
  case_bool_decide; [by eexists|]. destruct Hd as [?|Hk]; [done|]. rewrite Hk. by eexists.
Qed.

(** C34: in start_simple_service.py, on an interpreter 3.7 or later
    with a working [pip], if [flask] is missing and its [pip install]
    fails, the [CalledProcessError] of [check=True] escapes [main]: the
    script crashes instead of printing its dependency-check failure and
    returning. *)
Lemma simple_install_failure_raises h :
  tuple_lt (version_info h) [3; 7] = false -> pip_runs h = true ->
  importable h (lit "flask") = false -> installable h (lit "flask") = None ->
  SimpleLauncher.main h = Raised (CalledProcessError [lit "pip"; lit "install"; lit "flask"]).
Proof.
  intros Hv Hp Hf Hi. unfold SimpleLauncher.main, SimpleLauncher.check_dependencies,
    SimpleLauncher.ensure_module, pip_install. by rewrite Hv, Hp, Hf, Hi.
Qed.

(** start_service.py checks [flask] and [PIL] only: on a host that has
    them but not [flask_cors], which app.py imports, the check passes,
    no install is tried, and [from app import app] fails: the script
    returns without a server. *)
Lemma mindmap_check_misses_cors h :
  MindmapLauncher.check_dependencies h = true -> importable h (lit "flask_cors") = false ->
  MindmapLauncher.main h = Returned h.
Proof.
  intros Hc Hcors. unfold MindmapLauncher.main, MindmapLauncher.start_service. rewrite Hc.
  cbn [app_imports forallb]. by rewrite Hcors, andb_false_r.
Qed.

(** start_service.py with a missing dependency starts the server once
    [pip install -r requirements.txt] brings every module app.py
    imports. *)
Lemma mindmap_install_repairs h :
  MindmapLauncher.check_dependencies h = false -> requirements_ok h = true ->
  Forall (fun m => m ∈ requirements h) app_imports ->
  MindmapLauncher.main h = Serving (lit "app.py") (set_modules h (requirements h ++ modules h)).
Proof.
  intros Hc Hr Hreq. unfold MindmapLauncher.main, MindmapLauncher.install_dependencies.
  rewrite Hc, Hr. cbn [negb]. rewrite Forall_forall in Hreq.
  assert (forall m, m ∈ app_imports -> importable (set_modules h (requirements h ++ modules h)) m = true)
    as Himp by (intros m Hm; apply bool_decide_eq_true_2, elem_of_app; left; by apply Hreq).
  unfold MindmapLauncher.check_dependencies, MindmapLauncher.start_service.
  rewrite !Himp by (unfold app_imports; set_solver). cbn [negb andb].
  replace (forallb _ app_imports) with true; [done|].
  symmetry. apply forallb_forall. intros m Hm%list_elem_of_In. by apply Himp.
Qed.

Lemma create_dirs_modules h ds h' : PptLauncher.create_dirs h ds = inr h' -> modules h' = modules h.
Proof.
  revert h. induction ds as [|d ds IH]; intros h; cbn [PptLauncher.create_dirs mbind sum_bind].
  - by intros [= ->].
  - unfold makedirs. case_bool_decide; [apply IH|]. destruct (can_mkdir h d); [|done].
    intros Hd. by rewrite (IH _ Hd).
Qed.

(** start_ppt_service.py: a [temp] directory that cannot be made raises
    out of [start_service], and the script exits with status 1. *)
Lemma ppt_makedirs_exits h :
  PptLauncher.check_dependencies h = true -> lit "temp" ∉ dirs h -> can_mkdir h (lit "temp") = false ->
  PptLauncher.main h = Exited 1.
Proof.
  intros Hc Hn Hk. unfold PptLauncher.main, PptLauncher.start_service. rewrite Hc. cbn [negb].
  cbn [PptLauncher.create_directories PptLauncher.create_dirs mbind sum_bind]. unfold makedirs.
  by rewrite bool_decide_eq_false_2, Hk.
Qed.

(** start_ppt_service.py also misses [flask_cors]: with it absent the
    service never starts, whatever the directories. *)
Lemma ppt_check_misses_cors h :
  importable h (lit "flask_cors") = false -> forall h', PptLauncher.main h <> Serving (lit "ppt_service.py") h'.
Proof.
  intros Hcors h'. unfold PptLauncher.main, PptLauncher.start_service.
  destruct (PptLauncher.check_dependencies h); cbn [negb]; [|done].
  destruct (PptLauncher.create_directories h) as [e|h''] eqn:Hd; cbn [mbind sum_bind]; [done|].
  apply create_dirs_modules in Hd. cbn [ppt_service_imports forallb].
  unfold importable at 2. rewrite Hd. fold (importable h (lit "flask_cors")). by rewrite Hcors, andb_false_r.
Qed.
End LauncherFacts.

(** ** Witnesses *)

(** A Python 3.11 host with [pip] but no package and no network. *)
Definition offline_host : host :=
  {| version_info := [3; 11; 4]; pip_runs := true; modules := []; installable := fun _ => None;
     requirements_ok := false; requirements := []; dirs := []; can_mkdir := fun _ => true |}.

Lemma simple_install_failure_raises_witness :
  tuple_lt (version_info offline_host) [3; 7] = false /\ pip_runs offline_host = true /\
  importable offline_host (lit "flask") = false /\ installable offline_host (lit "flask") = None /\
  SimpleLauncher.main offline_host = Raised (CalledProcessError [lit "pip"; lit "install"; lit "flask"]).
Proof.
  assert (tuple_lt (version_info offline_host) [3; 7] = false) as Hv by reflexivity.
  assert (importable offline_host (lit "flask") = false) as Hf by reflexivity.
  split; [exact Hv|split; [reflexivity|split; [exact Hf|split; [reflexivity|]]]].
  exact (simple_install_failure_raises offline_host Hv eq_refl Hf eq_refl).
Defined.
