(* ===== verification/Decks.v ===== *)
(** The two other slide-deck services of src/server: the templated one
    (ppt_service.py, Module [TemplatedDeck]) and the python-pptx one
    (ppt_service_pptx.py, Module [EditableDeck]).  Both build a
    [Pptx.deck] with the formatting the code sets, save it through an
    abstract [save], and answer [POST /api/generate-ppt]; their facts
    are in [TemplatedFacts] and [EditableFacts]. *)

From S2P Require Import Prelude PyValue PyStr Slides Pptx.
Local Open Scope Z_scope.

(** ['总结'], ['感谢您的关注！'], ['联系方式: '], ['未知作者'] *)
Definition s_summary : pystr := [24635; 32467].
Definition s_thanks_attention : pystr := [24863; 35874; 24744; 30340; 20851; 27880; 65281].
Definition s_contact : pystr := [32852; 31995; 26041; 24335; 58; 32].
Definition s_unknown_author : pystr := [26410; 30693; 20316; 32773].

Definition BLUE : Z * Z * Z := (31, 73, 125).
Definition GREY : Z * Z * Z := (89, 89, 89).
Definition DARK : Z * Z * Z := (68, 68, 68).

(** [Inches(13.33)] = [int(13.33 * 914400)] and [Inches(7.5)]. *)
Definition WIDE_WIDTH : Z := 1333 * EMU_PER_INCH / 100.
Definition WIDE_HEIGHT : Z := 75 * EMU_PER_INCH / 10.

(** The subtitle [f"作者: {author}\n日期: {date}"] *)
Definition byline (author date : pystr) : pystr := s_author ++ author ++ [NEWLINE] ++ s_date ++ date.

Module TemplatedDeck.

(** [section['title']], [section['description']]: [KeyError] for a
    missing key, [TypeError] when the section is not an object. *)
Definition section_title_item (s : section) : result pystr :=
  match s with
  | SecDict (Some t) _ => Ok t
  | SecDict None _ => Err (KeyError (lit "title"))
  | SecOther => Err (TypeError (lit "title"))
  end.

Definition section_description_item (s : section) : result pystr :=
  match s with
  | SecDict _ (Some d) => Ok d
  | SecDict _ None => Err (KeyError (lit "description"))
  | SecOther => Err (TypeError (lit "description"))
  end.

(** [create_title_slide(prs, title, author, date)] (lines 55-71). *)
Definition create_title_slide (title author date : pystr) : pslide :=
  {| ps_layout := 0;
     ps_title := on_first (fun p => set_rgb BLUE (set_bold (set_size 44 p))) (set_text title);
     ps_body := Some (on_first (fun p => set_rgb GREY (set_size 24 p)) (set_text (byline author date))) |}.

(** Lines 91-95: the paragraph of section [i]. *)
Definition toc_para (i : nat) (s : section) : result para :=
  t ← section_title_item s;
  Ok (set_space_after 12 (set_rgb DARK (set_size 24 (plain (decimal i ++ [46; 32] ++ t))))).

Fixpoint toc_paras (i : nat) (secs : list section) : result (list para) :=
  match secs with
  | [] => Ok []
  | s :: secs' => p ← toc_para i s; ps ← toc_paras (S i) secs'; Ok (p :: ps)
  end.

(** [create_toc_slide(prs, sections)] (lines 73-95): after [clear()]
    the frame keeps its empty first paragraph, and every section adds
    one. *)
Definition create_toc_slide (secs : list section) : result pslide :=
  ps ← toc_paras 1 secs;
  Ok {| ps_layout := 1;
        ps_title := on_first (fun p => set_rgb BLUE (set_bold (set_size 40 p))) (set_text s_contents);
        ps_body := Some (clear fresh_frame ++ ps) |}.

(** [create_content_slide(prs, section_title, section_description)]
    (lines 97-118). *)
Definition create_content_slide (title description : pystr) : pslide :=
  {| ps_layout := 1;
     ps_title := on_first (fun p => set_rgb BLUE (set_bold (set_size 36 p))) (set_text title);
     ps_body := Some (clear fresh_frame ++
                      [set_space_after 12 (set_rgb DARK (set_size 24 (plain description)))]) |}.

(** [create_summary_slide(prs, author)] (lines 120-146). *)
Definition create_summary_slide (author : pystr) : pslide :=
  {| ps_layout := 1;
     ps_title := on_first (fun p => set_rgb BLUE (set_bold (set_size 40 p))) (set_text s_summary);
     ps_body := Some (clear fresh_frame ++
                      [set_space_after 20 (set_rgb DARK (set_size 28 (plain s_thanks_attention)));
                       set_rgb GREY (set_size 24 (plain (s_contact ++ author)))]) |}.

(** Lines 166-167: the argument [section['title']] is read before
    [section['description']]. *)
Fixpoint content_slides (secs : list section) : result (list pslide) :=
  match secs with
  | [] => Ok []
  | s :: secs' =>
      t ← section_title_item s; d ← section_description_item s;
      rest ← content_slides secs';
      Ok (create_content_slide t d :: rest)
  end.

(** [template_data] (lines 310-315). *)
Record template_data := {
  td_title : pystr;
  td_author : pystr;
  td_date : pystr;
  td_sections : list section
}.

(** Lines 152-170 of [generate_ppt_from_content]: the deck, or the
    exception that the [try] of line 190 turns into [False]. *)
Definition build_deck (td : template_data) : result deck :=
  let secs := td_sections td in
  toc ← (if bool_decide (secs = []) then Ok [] else sl ← create_toc_slide secs; Ok [sl]);
  cs ← content_slides secs;
  Ok {| dk_width := WIDE_WIDTH; dk_height := WIDE_HEIGHT;
        dk_slides := [create_title_slide (td_title td) (td_author td) (td_date td)] ++ toc ++ cs ++
                     [create_summary_slide (td_author td)] |}.

Section Endpoint.
(** [prs.save(output_path)] then [os.path.getsize]: the size of the
    file, [None] when saving raised or no file exists. *)
Variable save : deck -> option Z.
(** [env is not None] (lines 34-39). *)
Variable env_ok : bool.
(** [env.get_template(name).render(...)] on the fields of [template_data]
    (lines 319-320). *)
Variable render : pystr -> template_data -> result pystr.

(** [generate_ppt_from_content(content_data, output_path)] (148-192). *)
Definition generate_ppt_from_content (td : template_data) : bool :=
  match build_deck td with
  | Err _ => false
  | Ok dk => match save dk with None => false | Some size => negb (size <? 1000) end
  end.

(** [os.path.getsize(output_path)] of line 342. *)
Definition file_size (td : template_data) : Z :=
  match build_deck td with Ok dk => from_option id 0 (save dk) | Err _ => 0 end.

Record tpl_request := {
  tq_title : option pystr;
  tq_content : option (option (list section));
  tq_author : option pystr;
  tq_date : option pystr;
  tq_template : option pystr
}.

Inductive tpl_response :=
| TplNoEnvironment
| TplMissingTitle
| TplMissingSections
| TplEmptySections
| TplRenderFailed (e : py_exc)
| TplSaved (filename : pystr) (size : Z)
| TplFailed.

Definition tpl_status (r : tpl_response) : Z :=
  match r with
  | TplMissingTitle | TplMissingSections | TplEmptySections => 400
  | TplSaved _ _ => 200
  | TplNoEnvironment | TplRenderFailed _ | TplFailed => 500
  end.

(** [POST /api/generate-ppt] (lines 271-350); [today] is
    [datetime.now().strftime('%Y/%m/%d')], [hex] is [uuid.uuid4().hex]. *)
Definition generate_ppt (data : option tpl_request) (today hex : pystr) : tpl_response :=
  if negb env_ok then TplNoEnvironment else
  match data with
  | None => TplMissingTitle
  | Some d =>
      match tq_title d with
      | None => TplMissingTitle
      | Some title =>
          let template_name := get_default (tq_template d) (lit "lecture.md.jinja") in
          match tq_content d with
          | None | Some None => TplMissingSections
          | Some (Some []) => TplEmptySections
          | Some (Some secs) =>
              let td := {| td_title := title; td_author := get_default (tq_author d) s_unknown_author;
                           td_date := get_default (tq_date d) today; td_sections := secs |} in
              match render template_name td with
              | Err e => TplRenderFailed e
              | Ok _ =>
                  if generate_ppt_from_content td
                  then TplSaved (lit "lecture_" ++ hex ++ lit ".pptx") (file_size td)
                  else TplFailed
              end
          end
      end
  end.
End Endpoint.
End TemplatedDeck.

Module EditableDeck.

(** [section.get(key, default)]: [AttributeError] when the section is
    not an object. *)
Definition get_title (s : section) : result pystr :=
  match s with SecDict t _ => Ok (get_default t s_untitled) | SecOther => Err (AttributeError (lit "get")) end.

Definition get_description (s : section) : result pystr :=
  match s with
  | SecDict _ d => Ok (get_default d s_no_description)
  | SecOther => Err (AttributeError (lit "get"))
  end.

(** Lines 56-70: the title slide. *)
Definition title_slide (title author date : pystr) : pslide :=
  {| ps_layout := 0;
     ps_title := on_first (fun p => set_rgb BLUE (set_bold (set_size 44 p))) (set_text title);
     ps_body := Some (on_first (fun p => set_rgb GREY (set_size 24 p)) (set_text (byline author date))) |}.

(** Lines 82-84: [f"{i}. {title}\n"] for every section from [i]. *)
Fixpoint toc_text (i : nat) (secs : list section) : result pystr :=
  match secs with
  | [] => Ok []
  | s :: secs' =>
      t ← get_title s; rest ← toc_text (S i) secs';
      Ok (decimal i ++ [46; 32] ++ t ++ [NEWLINE] ++ rest)
  end.

(** Lines 73-87: the contents slide; the whole text goes into the frame
    at once, and the size is set on its first paragraph. *)
Definition toc_slide (secs : list section) : result pslide :=
  txt ← toc_text 1 secs;
  Ok {| ps_layout := 1;
        ps_title := on_first (fun p => set_bold (set_size 36 p)) (set_text s_contents);
        ps_body := Some (on_first (set_size 24) (set_text txt)) |}.

(** Lines 91-106, section [i]: its chapter slide and its content slide. *)
Definition section_slides (i : nat) (s : section) : result (list pslide) :=
  t ← get_title s;
  t' ← get_title s;
  d ← get_description s;
  Ok [{| ps_layout := 1;
         ps_title := on_first (fun p => set_bold (set_size 32 p))
                       (set_text (s_chapter_pre ++ decimal i ++ s_chapter_post ++ t));
         ps_body := None |};
      {| ps_layout := 1;
         ps_title := on_first (fun p => set_bold (set_size 28 p)) (set_text t');
         ps_body := Some (on_first (set_size 20) (set_text d)) |}].

Fixpoint sections_slides (i : nat) (secs : list section) : result (list pslide) :=
  match secs with
  | [] => Ok []
  | s :: secs' => sl ← section_slides i s; rest ← sections_slides (S i) secs'; Ok (sl ++ rest)
  end.

(** Lines 109-118: the closing slide. *)
Definition end_slide (author date : pystr) : pslide :=
  {| ps_layout := 1;
     ps_title := on_first (fun p => set_rgb BLUE (set_bold (set_size 36 p))) (set_text s_thanks);
     ps_body := Some (on_first (fun p => set_rgb GREY (set_size 24 p)) (set_text (byline author date))) |}.

(** [create_editable_ppt(title, content, author, date)] (lines 45-125)
    with [content['sections'] = secs]; [None] when an exception reached
    the [try] of line 123. *)
Definition create_editable_ppt (title : pystr) (secs : list section) (author date : pystr)
    : option deck :=
  match (toc ← toc_slide secs; ss ← sections_slides 1 secs;
         Ok {| dk_width := WIDE_WIDTH; dk_height := WIDE_HEIGHT;
               dk_slides := [title_slide title author date; toc] ++ ss ++ [end_slide author date] |})
  with Ok dk => Some dk | Err _ => None end.

Section Endpoint.
(** [prs.save(output_path)] and the checks' view of the file: its size
    and first four bytes, [None] when saving raised or no file exists. *)
Variable save : deck -> option (Z * list Z).
(** [env is not None] (lines 38-43). *)
Variable env_ok : bool.

(** [generate_ppt_with_pptx(...)] (lines 127-168). *)
Definition generate_ppt_with_pptx (title : pystr) (secs : list section) (author date : pystr) : bool :=
  match create_editable_ppt title secs author date with
  | None => false
  | Some dk =>
      match save dk with
      | None => false
      | Some (size, header) => if size <? 1000 then false else bool_decide (header = [80; 75; 3; 4])
      end
  end.

Inductive pptx_response :=
| PxNoEnvironment
| PxMissingTitle
| PxMissingSections
| PxEmptySections
| PxSaved (filename : pystr)
| PxFailed.

Definition pptx_status (r : pptx_response) : Z :=
  match r with
  | PxMissingTitle | PxMissingSections | PxEmptySections => 400
  | PxSaved _ => 200
  | PxNoEnvironment | PxFailed => 500
  end.

(** [POST /api/generate-ppt] (lines 170-232), on the request shape of
    the simple service. *)
Definition generate_ppt (data : option SimpleDeck.ppt_request) (hex : pystr) : pptx_response :=
  if negb env_ok then PxNoEnvironment else
  match data with
  | None => PxMissingTitle
  | Some d =>
      match SimpleDeck.pq_title d with
      | None => PxMissingTitle
      | Some title =>
          match SimpleDeck.pq_content d with
          | None | Some None => PxMissingSections
          | Some (Some []) => PxEmptySections
          | Some (Some secs) =>
              if generate_ppt_with_pptx title secs (get_default (SimpleDeck.pq_author d) s_default_author)
                   (get_default (SimpleDeck.pq_date d) [])
              then PxSaved (lit "lecture_" ++ hex ++ lit ".pptx")
              else PxFailed
          end
      end
  end.
End Endpoint.
End EditableDeck.

(** ** The templated service *)

Module TemplatedFacts.
Import TemplatedDeck.

(** A section object with both a title and a description. *)
Definition complete (s : section) : bool :=
  match s with SecDict (Some _) (Some _) => true | _ => false end.

Lemma complete_title s : complete s = true -> is_ok (section_title_item s) = true.
Proof. by destruct s as [[t|] [d|]|]. Qed.

Lemma toc_paras_spec i secs :
  is_ok (toc_paras i secs) = forallb (fun s => is_ok (section_title_item s)) secs /\
  forall ps, toc_paras i secs = Ok ps -> length ps = length secs.
Proof.
  revert i. induction secs as [|s secs IH]; intros i; [split; [done|by intros ? [= <-]]|].
  destruct (IH (S i)) as [Hok Hlen]. cbn [toc_paras forallb]. unfold toc_para. unfold_bind.
  destruct (section_title_item s); cbn [rbind is_ok andb]; [|split; [done|discriminate]].
  rewrite <-Hok. destruct (toc_paras (S i) secs) as [ps|]; cbn; [|split; [done|discriminate]].
  split; [done|]. intros ? [= <-]. cbn. by rewrite (Hlen ps eq_refl).
Qed.

Lemma content_slides_spec secs :
  is_ok (content_slides secs) = forallb complete secs /\
  forall cs, content_slides secs = Ok cs -> length cs = length secs.
Proof.
  induction secs as [|s secs [Hok Hlen]]; [split; [done|by intros ? [= <-]]|].
  cbn [content_slides forallb]. unfold_bind.
  destruct s as [[t|] [d|]|]; cbn [section_title_item section_description_item rbind complete andb];
    try (split; [done|discriminate]).
  rewrite <-Hok. destruct (content_slides secs) as [cs|]; cbn; [|split; [done|discriminate]].
  split; [done|]. intros ? [= <-]. cbn. by rewrite (Hlen cs eq_refl).
Qed.

Lemma forallb_complete_titles secs :
  forallb complete secs = true -> forallb (fun s => is_ok (section_title_item s)) secs = true.
Proof.
  rewrite !forallb_forall. intros H s Hs. by apply complete_title, H.
Qed.

(** C22: [generate_ppt_from_content] builds a deck exactly when every
    section is an object with a title and a description; the deck is a
    title slide, the contents, one slide per section and the summary.
    One incomplete section fails the whole request (the simple service
    substitutes defaults instead). *)
Theorem build_deck_spec td :
  td_sections td <> [] ->
  is_ok (build_deck td) = forallb complete (td_sections td) /\
  forall dk, build_deck td = Ok dk -> length (dk_slides dk) = (3 + length (td_sections td))%nat.
Proof.
  intros Hne. destruct (toc_paras_spec 1 (td_sections td)) as [Htok Htlen].
  destruct (content_slides_spec (td_sections td)) as [Hcok Hclen].
  unfold build_deck, create_toc_slide. rewrite bool_decide_false by exact Hne. unfold_bind.
  destruct (toc_paras 1 (td_sections td)) as [ps|e] eqn:Et; cbn [rbind].
  - destruct (content_slides (td_sections td)) as [cs|e] eqn:Ec; cbn [rbind is_ok] in *.
    + split; [done|]. intros dk [= <-]. cbn [dk_slides length app]. rewrite length_app, (Hclen cs eq_refl). cbn. lia.
    + split; [done|discriminate].
  - split; [|discriminate]. cbn [is_ok] in Htok.
    destruct (forallb complete (td_sections td)) eqn:Ef; [|done].
    by rewrite forallb_complete_titles in Htok.
Qed.

(** C23: the template the request names is rendered and its output
    thrown away: the response is the one the service would give if the
    template rendered to the empty string, so the template can only make
    a request fail (500 when it is missing or raises). *)
Theorem template_output_discarded save env_ok render data today hex :
  generate_ppt save env_ok render data today hex =
    generate_ppt save env_ok (fun name td => _ ← render name td; Ok []) data today hex.
Proof.
  unfold generate_ppt. destruct env_ok; [|done]. destruct data as [d|]; [|done].
  cbn [negb]. destruct (tq_title d); [|done]. destruct (tq_content d) as [[[|s secs]|]|]; try done.
  unfold_bind. by destruct (render _ _).
Qed.
End TemplatedFacts.

(** ** The python-pptx service *)

Module EditableFacts.
Import EditableDeck.

(** The contents line of each section object. *)
Fixpoint toc_lines (i : nat) (secs : list section) : list pystr :=
  match secs with
  | [] => []
  | SecDict t _ :: secs' => (decimal i ++ [46; 32] ++ get_default t s_untitled) :: toc_lines (S i) secs'
  | SecOther :: secs' => toc_lines (S i) secs'
  end.

(** A section object whose title (or default title) is one line. *)
Definition one_line_title (s : section) : bool :=
  match s with SecDict t _ => bool_decide (NEWLINE ∉ get_default t s_untitled) | SecOther => false end.

Lemma newline_not_in_decimal i : NEWLINE ∉ decimal i.
Proof.
  pose proof (DecimalFacts.decimal_aux_digits (S i) i [] (List.Forall_nil _)) as Hd.
  rewrite Forall_forall in Hd. intros Hin. specialize (Hd _ Hin). discriminate Hd.
Qed.

Lemma toc_text_lines i secs :
  Forall (fun s => one_line_title s = true) secs ->
  toc_text i secs = Ok (concat (map (fun l => l ++ [NEWLINE]) (toc_lines i secs))) /\
  Forall (fun l => NEWLINE ∉ l) (toc_lines i secs).
Proof.
  intros Hs. revert i. induction Hs as [|s secs Hs _ IH]; intros i; [done|].
  destruct s as [t d|]; [|done]. destruct (IH (S i)) as [Ht Hl].
  cbn [toc_text get_title toc_lines map concat]. unfold_bind. rewrite Ht. cbn [rbind].
  split; [by rewrite <-!app_assoc|]. constructor; [|exact Hl].
  cbn [one_line_title] in Hs. apply bool_decide_eq_true_1 in Hs. rewrite !not_elem_of_app.
  split; [apply newline_not_in_decimal|split; [|exact Hs]].
  apply (bool_decide_unpack _). vm_compute. reflexivity.
Qed.

Lemma editable_toc_text_other i secs : SecOther ∈ secs -> is_ok (toc_text i secs) = false.
Proof.
  revert i. induction secs as [|s secs IH]; intros i Hin; [by apply not_elem_of_nil in Hin|].
  cbn [toc_text]. unfold_bind. apply elem_of_cons in Hin as [<-|Hin]; [done|].
  destruct (get_title s); [|done]. cbn [rbind].
  specialize (IH (S i) Hin). by destruct (toc_text (S i) secs).
Qed.

(** C25: the contents slide has one paragraph per section and a last
    empty one (every line of the text ends with a newline), and only
    the first paragraph gets the 24-point size: the code sets
    [paragraphs[0]] after assigning the whole text. *)
Theorem toc_first_line_only secs :
  Forall (fun s => one_line_title s = true) secs ->
  exists sl, toc_slide secs = Ok sl /\
    ps_body sl = Some (on_first (set_size 24) (map plain (toc_lines 1 secs ++ [[]]))).
Proof.
  intros Hs. destruct (toc_text_lines 1 secs Hs) as [Ht Hl].
  unfold toc_slide. unfold_bind. rewrite Ht. cbn [rbind]. eexists. split; [reflexivity|].
  cbn [ps_body]. unfold set_text. by rewrite split_on_terminated.
Qed.

(** C26: one section that is not a JSON object makes the whole request
    fail with 500: [section.get] raises inside [create_editable_ppt],
    which returns [None] (the simple service keeps such a section as an
    untitled slide instead). *)
Theorem non_object_section_fails save hex d title secs :
  SecOther ∈ secs -> SimpleDeck.pq_title d = Some title -> SimpleDeck.pq_content d = Some (Some secs) ->
  generate_ppt save true (Some d) hex = PxFailed.
Proof.
  intros Hin Ht Hc. unfold generate_ppt. rewrite Ht, Hc. cbn [negb].
  destruct secs as [|s secs]; [by apply not_elem_of_nil in Hin|].
  unfold generate_ppt_with_pptx, create_editable_ppt, toc_slide. unfold_bind.
  pose proof (editable_toc_text_other 1 _ Hin) as Hf. by destruct (toc_text 1 (s :: secs)).
Qed.
End EditableFacts.

(** ** Both python-pptx decks *)

Module DeckFacts.

Lemma set_text_byline author date :
  NEWLINE ∉ author -> NEWLINE ∉ date ->
  set_text (byline author date) = [plain (s_author ++ author); plain (s_date ++ date)].
Proof.
  intros Ha Hd. unfold set_text, byline.
  assert (NEWLINE ∉ s_author) as Hsa by (apply (bool_decide_unpack _); vm_compute; reflexivity).
  assert (NEWLINE ∉ s_date) as Hsd by (apply (bool_decide_unpack _); vm_compute; reflexivity).
  rewrite app_assoc. cbn [app].
  rewrite split_on_app_sep, split_on_no_sep by (rewrite not_elem_of_app; tauto).
  reflexivity.
Qed.

(** Both services set the slide size to [Inches(13.33)] by
    [Inches(7.5)], which the code calls 16:9; the width is 3048 EMU short
    of it (PowerPoint's 16:9 is 12192000 by 6858000). *)
Theorem deck_size_not_16_9 td t secs a d dk :
  TemplatedDeck.build_deck td = Ok dk \/ EditableDeck.create_editable_ppt t secs a d = Some dk ->
  dk_width dk = 12188952 /\ dk_height dk = 6858000 /\ 9 * dk_width dk < 16 * dk_height dk.
Proof.
  intros [H|H]; [unfold TemplatedDeck.build_deck in H|unfold EditableDeck.create_editable_ppt in H];
    unfold_bind; repeat case_match; simplify_eq; cbn [dk_width dk_height]; vm_compute;
    repeat split; reflexivity.
Qed.

(** C24: the byline [f"作者: {author}\n日期: {date}"] becomes two
    paragraphs and the 24-point grey of [paragraphs[0]] reaches only the
    author line, on the templated title slide and on the python-pptx
    service's title and closing slides. *)
Theorem byline_first_line_only title author date :
  NEWLINE ∉ author -> NEWLINE ∉ date ->
  let sub := Some [set_rgb GREY (set_size 24 (plain (s_author ++ author))); plain (s_date ++ date)] in
  ps_body (TemplatedDeck.create_title_slide title author date) = sub /\
  ps_body (EditableDeck.title_slide title author date) = sub /\
  ps_body (EditableDeck.end_slide author date) = sub.
Proof.
  intros Ha Hd sub. unfold TemplatedDeck.create_title_slide, EditableDeck.title_slide,
    EditableDeck.end_slide. cbn [ps_body]. by rewrite set_text_byline.
Qed.
End DeckFacts.

(** ** Witnesses *)

Module DeckWitnesses.
Import TemplatedDeck TemplatedFacts EditableFacts DeckFacts.

Definition course_sections : list section :=
  [SecDict (Some (lit "Intro")) (Some (lit "Basics")); SecDict None (Some (lit "More"))].

Definition sample_td : template_data :=
  {| td_title := lit "Course"; td_author := lit "me"; td_date := lit "2026/11/09";
     td_sections := course_sections |}.

Definition complete_td : template_data :=
  {| td_title := lit "Course"; td_author := lit "me"; td_date := lit "2026/11/09";
     td_sections := [SecDict (Some (lit "Intro")) (Some (lit "Basics"))] |}.

Definition sample_deck : deck :=
  match build_deck complete_td with
  | Ok dk => dk
  | Err _ => {| dk_width := 0; dk_height := 0; dk_slides := [] |}
  end.

Lemma build_deck_spec_witness :
  td_sections sample_td <> [] /\
  is_ok (build_deck sample_td) = forallb complete (td_sections sample_td) /\
  forall dk, build_deck sample_td = Ok dk -> length (dk_slides dk) = (3 + length (td_sections sample_td))%nat.
Proof.
  assert (td_sections sample_td <> []) as Hne by discriminate.
  split; [exact Hne|]. apply (build_deck_spec sample_td Hne).
Defined.

Lemma deck_size_not_16_9_witness :
  build_deck complete_td = Ok sample_deck /\
  dk_width sample_deck = 12188952 /\ dk_height sample_deck = 6858000 /\
  9 * dk_width sample_deck < 16 * dk_height sample_deck.
Proof.
  assert (build_deck complete_td = Ok sample_deck) as H by (vm_compute; reflexivity).
  split; [exact H|].
  apply (deck_size_not_16_9 complete_td [] [] [] [] sample_deck). left. exact H.
Defined.

Lemma byline_first_line_only_witness :
  (NEWLINE ∉ lit "me") /\ (NEWLINE ∉ lit "2026/11/09") /\
  (let sub := Some [set_rgb GREY (set_size 24 (plain (s_author ++ lit "me")));
                    plain (s_date ++ lit "2026/11/09")] in
   ps_body (create_title_slide (lit "Course") (lit "me") (lit "2026/11/09")) = sub /\
   ps_body (EditableDeck.title_slide (lit "Course") (lit "me") (lit "2026/11/09")) = sub /\
   ps_body (EditableDeck.end_slide (lit "me") (lit "2026/11/09")) = sub).
Proof.
  assert (NEWLINE ∉ lit "me") as Ha by (apply (bool_decide_unpack _); vm_compute; reflexivity).
  assert (NEWLINE ∉ lit "2026/11/09") as Hd by (apply (bool_decide_unpack _); vm_compute; reflexivity).
  split; [exact Ha|split; [exact Hd|]].
  apply (byline_first_line_only (lit "Course") (lit "me") (lit "2026/11/09") Ha Hd).
Defined.

Lemma toc_first_line_only_witness :
  Forall (fun s => one_line_title s = true) course_sections /\
  exists sl, EditableDeck.toc_slide course_sections = Ok sl /\
    ps_body sl = Some (on_first (set_size 24) (map plain (toc_lines 1 course_sections ++ [[]]))).
Proof.
  assert (Forall (fun s => one_line_title s = true) course_sections) as H
    by (repeat constructor).
  split; [exact H|]. apply (toc_first_line_only course_sections H).
Defined.

Lemma non_object_section_fails_witness :
  SecOther ∈ SimpleDeckFacts.sample_sections /\
  SimpleDeck.pq_title SimpleDeckFacts.sample_ppt_request = Some (lit "Course") /\
  SimpleDeck.pq_content SimpleDeckFacts.sample_ppt_request = Some (Some SimpleDeckFacts.sample_sections) /\
  EditableDeck.generate_ppt (fun _ => Some (2048, [80; 75; 3; 4])) true
    (Some SimpleDeckFacts.sample_ppt_request) (lit "abc") = EditableDeck.PxFailed.
Proof.
  assert (SecOther ∈ SimpleDeckFacts.sample_sections) as Hin by (right; left).
  split; [exact Hin|split; [reflexivity|split; [reflexivity|]]].
  apply (non_object_section_fails _ (lit "abc") SimpleDeckFacts.sample_ppt_request (lit "Course")
           SimpleDeckFacts.sample_sections Hin); reflexivity.
Defined.
End DeckWitnesses.
