(* ===== verification/PptFiles.v ===== *)
(** The file side of the three PPT services: the output folder each
    creates, the file the generate endpoint saves there, the download
    route that serves it back, and the health routes.  The disk is a
    [Launchers.host] (its directories and whether a directory can be
    made) with the files under their paths, each with its size.  A file
    is written by [prs.save] when its folder exists and saving does not
    raise; [os.path.join] is [posixpath.join], and a route
    [/prefix/<filename>] matches one non-empty path segment, as Werkzeug's
    default converter does. *)

From S2P Require Import Prelude PyValue PyStr Slides Pptx Decks Json Launchers.
Local Open Scope Z_scope.

Record disk := { dk_host : host; dk_files : gmap pystr Z }.

Definition SLASH : Z := 47.

(** [posixpath.join(a, b)] *)
Definition path_join (a b : pystr) : pystr :=
  match b with
  | c :: _ => if c =? SLASH then b else
               match last a with None => b | Some l => if l =? SLASH then a ++ b else a ++ [SLASH] ++ b end
  | [] => match last a with None => [] | Some l => if l =? SLASH then a else a ++ [SLASH] end
  end.

Fixpoint strip_prefix (p s : pystr) : option pystr :=
  match p, s with
  | [], _ => Some s
  | c :: p', d :: s' => if c =? d then strip_prefix p' s' else None
  | _ :: _, [] => None
  end.

(** The segment a route [prefix<filename>] binds in [url]. *)
Definition route_segment (prefix url : pystr) : option pystr :=
  rest ← strip_prefix prefix url;
  if bool_decide (rest <> [] /\ SLASH ∉ rest) then Some rest else None.

Definition with_host (d : disk) (h : host) : disk := {| dk_host := h; dk_files := dk_files d |}.

(** [os.makedirs(folder, exist_ok=True)] inside [try ... except]: a
    failure is logged and the disk stays as it was. *)
Definition makedirs_logged (d : disk) (folder : pystr) : disk :=
  match makedirs (dk_host d) folder with inr h => with_host d h | inl _ => d end.

(** [prs.save(path)] of a deck whose file would have [size] bytes (and
    the checks' view of it): only into an existing folder. *)
Definition saved_in {A B} (d : disk) (folder : pystr) (save : A -> option B) (x : A) : option B :=
  if bool_decide (folder ∈ dirs (dk_host d)) then save x else None.

Definition write_file (d : disk) (path : pystr) (size : Z) : disk :=
  {| dk_host := dk_host d; dk_files := <[path := size]> (dk_files d) |}.

(** [f"lecture_{uuid.uuid4().hex}.pptx"] *)
Definition pptx_filename (hex : pystr) : pystr := lit "lecture_" ++ hex ++ lit ".pptx".

(** The answer of a download route: the file, a 404, or a 500. *)
Inductive download_response :=
| SendFile (path : pystr) (size : Z)
| NotFound
| ServerError.

(** ** ppt_service_simple.py *)
Module SimpleFiles.

(** [app.config['OUTPUT_FOLDER']] (line 21). *)
Definition OUTPUT_FOLDER : pystr := lit "static/pptx".

(** [ensure_directories] (lines 24-30). *)
Definition ensure_directories (d : disk) : disk := makedirs_logged d OUTPUT_FOLDER.

(** The request's validation up to the deck handed to
    [generate_ppt_simple] (lines 184-216). *)
Definition request_deck (data : option SimpleDeck.ppt_request) : SimpleDeck.ppt_response + list slide :=
  match data with
  | None => inl SimpleDeck.PptMissingTitle
  | Some d =>
      match SimpleDeck.pq_title d with
      | None => inl SimpleDeck.PptMissingTitle
      | Some title =>
          match SimpleDeck.pq_content d with
          | None | Some None => inl SimpleDeck.PptMissingSections
          | Some (Some []) => inl SimpleDeck.PptEmptySections
          | Some (Some secs) =>
              inr (SimpleDeck.create_simple_ppt title secs (get_default (SimpleDeck.pq_author d) s_default_author)
                     (get_default (SimpleDeck.pq_date d) []))
          end
      end
  end.

Section Disk.
Variable save : list slide -> option (Z * list Z).

(** [POST /api/generate-ppt] (lines 175-233) on the disk: the folder is
    ensured, the deck is saved under [pptx_filename hex] in it, and the
    answer is the one of [SimpleDeck.generate_ppt] with the save that
    only succeeds in an existing folder. *)
Definition generate_ppt_disk (d : disk) (data : option SimpleDeck.ppt_request) (hex : pystr)
    : disk * SimpleDeck.ppt_response :=
  let d1 := ensure_directories d in
  let save' := saved_in d1 OUTPUT_FOLDER save in
  (match request_deck data with
   | inr deck =>
       match save' deck with
       | Some (size, _) => write_file d1 (path_join OUTPUT_FOLDER (pptx_filename hex)) size
       | None => d1
       end
   | inl _ => d1
   end,
   SimpleDeck.generate_ppt save' data hex).
End Disk.

(** The [download_url] of a saved deck (line 221). *)
Definition download_url (filename : pystr) : pystr := lit "/api/download-ppt/" ++ filename.

(** [GET /api/download-ppt/<filename>] (lines 235-244): a directory
    passes [os.path.exists] and makes [send_file] raise outside any
    handler. *)
Definition download_ppt (d : disk) (filename : pystr) : download_response :=
  let p := path_join OUTPUT_FOLDER filename in
  match dk_files d !! p with
  | Some size => SendFile p size
  | None => if bool_decide (p ∈ dirs (dk_host d)) then ServerError else NotFound
  end.

(** [GET /api/health] (lines 246-253). *)
Definition health_check : list (pystr * json) :=
  [(lit "status", JStr (lit "healthy")); (lit "service", JStr (lit "PPT Generator (Simple Version)"));
   (lit "features", JArr [JStr [23436; 20840; 21487; 32534; 36753];
                          JStr ([26631; 20934] ++ lit "PPTX" ++ [26684; 24335]);
                          JStr ([20860; 23481; 25152; 26377] ++ lit "Office" ++ [36719; 20214]);
                          JStr [31616; 21270; 35774; 35745]])].
End SimpleFiles.

(** ** ppt_service.py *)
Module TemplatedFiles.

(** [app.config['UPLOAD_FOLDER']] and [['PPTX_FOLDER']] (lines 29-30). *)
Definition UPLOAD_FOLDER : pystr := lit "temp".
Definition PPTX_FOLDER : pystr := lit "static/pptx".

(** [ensure_directories] (lines 41-53): [os.makedirs] without a handler. *)
Fixpoint ensure_dirs (d : disk) (ds : list pystr) : launch_exc + disk :=
  match ds with
  | [] => inr d
  | p :: ds' => match makedirs (dk_host d) p with inl e => inl e | inr h => ensure_dirs (with_host d h) ds' end
  end.

Definition ensure_directories (d : disk) : launch_exc + disk := ensure_dirs d [UPLOAD_FOLDER; PPTX_FOLDER].

Section Disk.
Variable save : deck -> option Z.
Variable env_ok : bool.
Variable render : pystr -> TemplatedDeck.template_data -> result pystr.

(** The checks of lines 280-324, up to the [template_data] handed to
    [generate_ppt_from_content]. *)
Definition request_td (data : option TemplatedDeck.tpl_request) (today : pystr)
    : TemplatedDeck.tpl_response + TemplatedDeck.template_data :=
  if negb env_ok then inl TemplatedDeck.TplNoEnvironment else
  match data with
  | None => inl TemplatedDeck.TplMissingTitle
  | Some d =>
      match TemplatedDeck.tq_title d with
      | None => inl TemplatedDeck.TplMissingTitle
      | Some title =>
          match TemplatedDeck.tq_content d with
          | None | Some None => inl TemplatedDeck.TplMissingSections
          | Some (Some []) => inl TemplatedDeck.TplEmptySections
          | Some (Some secs) =>
              let td := {| TemplatedDeck.td_title := title;
                           TemplatedDeck.td_author := get_default (TemplatedDeck.tq_author d) s_unknown_author;
                           TemplatedDeck.td_date := get_default (TemplatedDeck.tq_date d) today;
                           TemplatedDeck.td_sections := secs |} in
              match render (get_default (TemplatedDeck.tq_template d) (lit "lecture.md.jinja")) td with
              | Err e => inl (TemplatedDeck.TplRenderFailed e)
              | Ok _ => inr td
              end
          end
      end
  end.

Inductive tpl_disk_response :=
| Answer (r : TemplatedDeck.tpl_response)
| InternalError (e : launch_exc).

(** [POST /api/generate-ppt] (lines 271-350) on the disk: a failing
    [ensure_directories] is caught by the handler's [except] (500). *)
Definition generate_ppt_disk (d : disk) (data : option TemplatedDeck.tpl_request) (today hex : pystr)
    : disk * tpl_disk_response :=
  match ensure_directories d with
  | inl e => (d, InternalError e)
  | inr d1 =>
      let save' := saved_in d1 PPTX_FOLDER save in
      (match request_td data today with
       | inr td =>
           match TemplatedDeck.build_deck td with
           | Ok dk =>
               match save' dk with
               | Some size => write_file d1 (path_join PPTX_FOLDER (pptx_filename hex)) size
               | None => d1
               end
           | Err _ => d1
           end
       | inl _ => d1
       end,
       Answer (TemplatedDeck.generate_ppt save' env_ok render data today hex))
  end.
End Disk.

(** The [download_url] of a saved deck (line 341). *)
Definition download_url (filename : pystr) : pystr := lit "/download/" ++ filename.

(** [GET /download/<filename>] (lines 352-359): [send_from_directory]
    refuses [..] and anything that is not a file with [NotFound], which
    the handler answers with 404. *)
Definition download_pptx (d : disk) (filename : pystr) : download_response :=
  if bool_decide (filename = lit "..") then NotFound else
  let p := path_join PPTX_FOLDER filename in
  match dk_files d !! p with Some size => SendFile p size | None => NotFound end.

(** [GET /api/health] (lines 261-269) at time [now]. *)
Definition health_check (now : pystr) : list (pystr * json) :=
  [(lit "status", JStr (lit "healthy")); (lit "service", JStr ([80; 80; 84; 29983; 25104; 26381; 21153]));
   (lit "technology", JStr (lit "python-pptx")); (lit "timestamp", JStr now)].
End TemplatedFiles.

(** ** ppt_service_pptx.py *)
Module EditableFiles.

(** [app.config['OUTPUT_FOLDER']] (line 26) and [ensure_directories]
    (lines 29-35), as in the simple service. *)
Definition OUTPUT_FOLDER : pystr := lit "static/pptx".
Definition ensure_directories (d : disk) : disk := makedirs_logged d OUTPUT_FOLDER.

(** The [download_url] of a saved deck (line 220). *)
Definition download_url (filename : pystr) : pystr := lit "/api/download-ppt/" ++ filename.

(** [GET /api/download-ppt/<filename>] (lines 234-243). *)
Definition download_ppt (d : disk) (filename : pystr) : download_response :=
  let p := path_join OUTPUT_FOLDER filename in
  match dk_files d !! p with
  | Some size => SendFile p size
  | None => if bool_decide (p ∈ dirs (dk_host d)) then ServerError else NotFound
  end.

(** [GET /api/health] (lines 245-252). *)
Definition health_check : list (pystr * json) :=
  [(lit "status", JStr (lit "healthy")); (lit "service", JStr (lit "PPT Generator (python-pptx)"));
   (lit "features", JArr [JStr [23436; 20840; 21487; 32534; 36753];
                          JStr ([26631; 20934] ++ lit "PPTX" ++ [26684; 24335]);
                          JStr ([20860; 23481; 25152; 26377] ++ lit "Office" ++ [36719; 20214])])].

(** The request's validation (lines 186-216) up to the call of
    [create_editable_ppt] inside [generate_ppt_with_pptx] (line 133):
    the deck, or [None] where building it raised. *)
Definition request_deck (data : option SimpleDeck.ppt_request) : EditableDeck.pptx_response + option deck :=
  match data with
  | None => inl EditableDeck.PxMissingTitle
  | Some d =>
      match SimpleDeck.pq_title d with
      | None => inl EditableDeck.PxMissingTitle
      | Some title =>
          match SimpleDeck.pq_content d with
          | None | Some None => inl EditableDeck.PxMissingSections
          | Some (Some []) => inl EditableDeck.PxEmptySections
          | Some (Some secs) =>
              inr (EditableDeck.create_editable_ppt title secs (get_default (SimpleDeck.pq_author d) s_default_author)
                     (get_default (SimpleDeck.pq_date d) []))
          end
      end
  end.

Section Disk.
Variable save : deck -> option (Z * list Z).
Variable env_ok : bool.

(** [POST /api/generate-ppt] (lines 170-232) on the disk: the folder is
    ensured first (line 177), then the environment is tested, and the
    deck [prs.save] writes lands under [pptx_filename hex]; the answer is
    the one of [EditableDeck.generate_ppt] with the save that only
    succeeds in an existing folder. *)
Definition generate_ppt_disk (d : disk) (data : option SimpleDeck.ppt_request) (hex : pystr)
    : disk * EditableDeck.pptx_response :=
  let d1 := ensure_directories d in
  let save' := saved_in d1 OUTPUT_FOLDER save in
  (if negb env_ok then d1 else
   match request_deck data with
   | inr (Some dk) =>
       match save' dk with
       | Some (size, _) => write_file d1 (path_join OUTPUT_FOLDER (pptx_filename hex)) size
       | None => d1
       end
   | _ => d1
   end,
   EditableDeck.generate_ppt save' env_ok data hex).
End Disk.
End EditableFiles.

(** ** Lemmas *)

Lemma strip_prefix_app p s : strip_prefix p (p ++ s) = Some s.
Proof. induction p as [|c p IH]; [done|]. cbn [strip_prefix app]. by rewrite Z.eqb_refl. Qed.

(** A saved deck's file name is one route segment. *)
Lemma pptx_filename_segment prefix hex :
  SLASH ∉ hex -> route_segment prefix (prefix ++ pptx_filename hex) = Some (pptx_filename hex).
Proof.
  intros Hh. unfold route_segment. rewrite strip_prefix_app. cbn [mbind option_bind].
  rewrite bool_decide_eq_true_2; [done|]. split; [unfold pptx_filename; by destruct hex|].
  unfold pptx_filename. rewrite !not_elem_of_app.
  split; [apply (bool_decide_unpack _); by vm_compute|]. split; [done|].
  apply (bool_decide_unpack _); by vm_compute.
Qed.

Lemma lookup_write_file d p size : dk_files (write_file d p size) !! p = Some size.
Proof. unfold write_file. cbn [dk_files]. by rewrite lookup_insert_eq. Qed.

Module SimpleFilesFacts.
Import SimpleFiles.

(** [generate_ppt] is the validation, then the save of the deck. *)
Lemma generate_ppt_request_deck save data hex :
  SimpleDeck.generate_ppt save data hex =
    match request_deck data with
    | inl r => r
    | inr deck => if SimpleDeck.generate_ppt_simple save deck then SimpleDeck.PptSaved (pptx_filename hex)
                  else SimpleDeck.PptFailed
    end.
Proof.
  destruct data as [d|]; [|done]. unfold SimpleDeck.generate_ppt, request_deck.
  by destruct (SimpleDeck.pq_title d), (SimpleDeck.pq_content d) as [[[|]|]|].
Qed.

Lemma request_deck_error data r : request_deck data = inl r -> SimpleDeck.response_status r = 400.
Proof.
  destruct data as [d|]; [|by intros [= <-]]. unfold request_deck.
  destruct (SimpleDeck.pq_title d), (SimpleDeck.pq_content d) as [[[|]|]|]; by intros [= <-].
Qed.

Lemma generate_ppt_simple_true save deck :
  SimpleDeck.generate_ppt_simple save deck = true -> exists size header, save deck = Some (size, header) /\ 1000 <= size.
Proof.
  unfold SimpleDeck.generate_ppt_simple. destruct (save deck) as [[size header]|]; [|done].
  destruct (Z.ltb_spec size 1000); [done|]. intros _. by exists size, header.
Qed.

(** A deck the simple service reports saved can be downloaded from the
    URL it answers with: the route binds the file name, and the file is
    in the output folder with the size the check accepted. *)
Theorem simple_download_after_generate save d data hex d' f :
  generate_ppt_disk save d data hex = (d', SimpleDeck.PptSaved f) -> SLASH ∉ hex ->
  route_segment (lit "/api/download-ppt/") (download_url f) = Some f /\
  exists size, download_ppt d' f = SendFile (path_join OUTPUT_FOLDER f) size /\ 1000 <= size.
Proof.
  unfold generate_ppt_disk. rewrite generate_ppt_request_deck.
  destruct (request_deck data) as [r|deck] eqn:E.
  - apply request_deck_error in E. intros [= _ ->]. done.
  - destruct (SimpleDeck.generate_ppt_simple _ deck) eqn:Hg; [|done]. intros [= <- <-] Hh.
    destruct (generate_ppt_simple_true _ _ Hg) as (size & header & Hs & Hsz). rewrite Hs.
    split; [by apply pptx_filename_segment|]. exists size. split; [|done].
    unfold download_ppt. by rewrite lookup_write_file.
Qed.
End SimpleFilesFacts.

Module TemplatedFilesFacts.
Import TemplatedFiles.

Lemma generate_ppt_request_td save env_ok render data today hex :
  TemplatedDeck.generate_ppt save env_ok render data today hex =
    match request_td env_ok render data today with
    | inl r => r
    | inr td => if TemplatedDeck.generate_ppt_from_content save td
                then TemplatedDeck.TplSaved (pptx_filename hex) (TemplatedDeck.file_size save td)
                else TemplatedDeck.TplFailed
    end.
Proof.
  unfold TemplatedDeck.generate_ppt, request_td. destruct env_ok; [|done].
  destruct data as [d|]; [|done].
  destruct (TemplatedDeck.tq_title d), (TemplatedDeck.tq_content d) as [[[|]|]|]; try done.
  cbn zeta. by destruct (render _ _).
Qed.

Lemma request_td_error env_ok render data today r :
  request_td env_ok render data today = inl r -> TemplatedDeck.tpl_status r <> 200.
Proof.
  unfold request_td. destruct env_ok; [|by intros [= <-]]. destruct data as [d|]; [|by intros [= <-]].
  destruct (TemplatedDeck.tq_title d), (TemplatedDeck.tq_content d) as [[[|]|]|]; try by intros [= <-].
  cbn zeta. destruct (render _ _); by intros [= <-].
Qed.

Lemma generate_ppt_from_content_true save td :
  TemplatedDeck.generate_ppt_from_content save td = true ->
  exists dk size, TemplatedDeck.build_deck td = Ok dk /\ save dk = Some size /\ 1000 <= size /\
    TemplatedDeck.file_size save td = size.
Proof.
  unfold TemplatedDeck.generate_ppt_from_content, TemplatedDeck.file_size.
  destruct (TemplatedDeck.build_deck td) as [dk|]; [|done]. destruct (save dk) as [size|] eqn:Hsave; [|done].
  intros Hs. exists dk, size. destruct (Z.ltb_spec size 1000); [done|]. by repeat split.
Qed.

(** A deck the templated service reports saved, with its [file_size],
    can be downloaded from the URL it answers with, and the file served
    has that size. *)
Theorem templated_download_after_generate save env_ok render d data today hex d' f size :
  generate_ppt_disk save env_ok render d data today hex = (d', Answer (TemplatedDeck.TplSaved f size)) ->
  SLASH ∉ hex ->
  route_segment (lit "/download/") (download_url f) = Some f /\
  download_pptx d' f = SendFile (path_join PPTX_FOLDER f) size /\ 1000 <= size.
Proof.
  unfold generate_ppt_disk. destruct (ensure_directories d) as [e|d1]; [done|].
  rewrite generate_ppt_request_td. destruct (request_td env_ok render data today) as [r|td] eqn:E.
  - apply request_td_error in E. intros [= _ ->]. done.
  - destruct (TemplatedDeck.generate_ppt_from_content _ td) eqn:Hg; [|done]. intros [= <- <- <-] Hh.
    destruct (generate_ppt_from_content_true _ _ Hg) as (dk & sz & Hb & Hs & Hsz & ->).
    rewrite Hb, Hs. split; [by apply pptx_filename_segment|]. split; [|done].
    unfold download_pptx. rewrite bool_decide_eq_false_2.
    + by rewrite lookup_write_file.
    + unfold pptx_filename. intros Heq. apply (f_equal length) in Heq.
      rewrite !length_app in Heq. cbn in Heq. lia.
Qed.
End TemplatedFilesFacts.

Module EditableFilesFacts.
Import EditableFiles.

Lemma editable_generate_ppt_request_deck save env_ok data hex :
  EditableDeck.generate_ppt save env_ok data hex =
    if negb env_ok then EditableDeck.PxNoEnvironment else
    match request_deck data with
    | inl r => r
    | inr None => EditableDeck.PxFailed
    | inr (Some dk) =>
        match save dk with
        | Some (size, header) =>
            if size <? 1000 then EditableDeck.PxFailed
            else if bool_decide (header = [80; 75; 3; 4]) then EditableDeck.PxSaved (pptx_filename hex)
            else EditableDeck.PxFailed
        | None => EditableDeck.PxFailed
        end
    end.
Proof.
  unfold EditableDeck.generate_ppt, request_deck, EditableDeck.generate_ppt_with_pptx. destruct env_ok; [|done].
  destruct data as [d|]; [|done].
  destruct (SimpleDeck.pq_title d), (SimpleDeck.pq_content d) as [[[|]|]|]; try done. cbn [negb].
  destruct (EditableDeck.create_editable_ppt _ _ _ _); [|done].
  destruct (save _) as [[size header]|]; [|done]. by destruct (size <? 1000), (bool_decide (header = [80; 75; 3; 4])).
Qed.

(** A deck the python-pptx service reports saved can be downloaded from
    the URL it answers with. *)
Theorem editable_download_after_generate save env_ok d data hex d' f :
  generate_ppt_disk save env_ok d data hex = (d', EditableDeck.PxSaved f) -> SLASH ∉ hex ->
  route_segment (lit "/api/download-ppt/") (download_url f) = Some f /\
  exists size, download_ppt d' f = SendFile (path_join OUTPUT_FOLDER f) size /\ 1000 <= size.
Proof.
  unfold generate_ppt_disk. rewrite editable_generate_ppt_request_deck. destruct env_ok; [|done]. cbn [negb].
  destruct (request_deck data) as [r|[dk|]] eqn:E.
  - intros [= _ ->]. revert E. unfold request_deck. destruct data as [dd|]; [|done].
    by destruct (SimpleDeck.pq_title dd), (SimpleDeck.pq_content dd) as [[[|]|]|].
  - unfold saved_in. case_bool_decide; [|done].
    destruct (save dk) as [[size header]|]; [|done].
    destruct (Z.ltb_spec size 1000); [done|]. case_bool_decide; [|done]. intros [= <- <-] Hh.
    split; [by apply pptx_filename_segment|]. exists size. split; [|lia].
    unfold download_ppt. by rewrite lookup_write_file.
  - done.
Qed.
End EditableFilesFacts.

(** ** Sample runs *)

(** A fresh host where [static/pptx] and [temp] can be made. *)
Definition fresh_disk : disk :=
  {| dk_host := {| version_info := [3; 11; 4]; pip_runs := true; modules := []; installable := fun _ => None;
                   requirements_ok := false; requirements := []; dirs := []; can_mkdir := fun _ => true |};
     dk_files := ∅ |}.

Definition tpl_sample_request : TemplatedDeck.tpl_request :=
  {| TemplatedDeck.tq_title := Some (lit "Course");
     TemplatedDeck.tq_content := Some (Some [SecDict (Some (lit "Intro")) (Some (lit "Basics"))]);
     TemplatedDeck.tq_author := None; TemplatedDeck.tq_date := None; TemplatedDeck.tq_template := None |}.

(** The simple service saves the sample deck and serves it back. *)
Example simple_files_sample :
  match SimpleFiles.generate_ppt_disk SimpleDeckFacts.sample_save fresh_disk (Some SimpleDeckFacts.sample_ppt_request) (lit "abc") with
  | (d', SimpleDeck.PptSaved f) =>
      SimpleFiles.download_ppt d' f = SendFile (lit "static/pptx/lecture_abc.pptx") 2048
  | _ => False
  end.
Proof. vm_compute. reflexivity. Qed.

(** The templated service, saving 4096-byte files and rendering every
    template to the empty text. *)
Example templated_files_sample :
  match TemplatedFiles.generate_ppt_disk (fun _ => Some 4096) true (fun _ _ => Ok []) fresh_disk
          (Some tpl_sample_request) (lit "2026/11/09") (lit "abc") with
  | (d', TemplatedFiles.Answer (TemplatedDeck.TplSaved f size)) =>
      size = 4096 /\ TemplatedFiles.download_pptx d' f = SendFile (lit "static/pptx/lecture_abc.pptx") 4096
  | _ => False
  end.
Proof. vm_compute. split; reflexivity. Qed.
