(* ===== verification/PptHttp.v ===== *)
(** The HTTP side of the three PPT services (src/server/ppt_service.py,
    ppt_service_simple.py and ppt_service_pptx.py): how a request body
    becomes the request record the handlers validate, the JSON each
    [generate_ppt] handler answers with (its [jsonify] dictionaries and
    status codes), the exceptions its [try ... except Exception] turns
    into 500s, and the URL router of each service.

    [request.json] is Flask's: it raises when the body is not JSON (an
    [HTTPException], 400 or 415 by Flask version), and, where
    [MAX_CONTENT_LENGTH] is set, when the body is longer (Werkzeug's
    [RequestEntityTooLarge], 413, raised when the body is read).  Every
    such exception is raised inside the handler's [try], so its
    [except Exception] answers 500.

    A JSON body is read into the request record with the handlers'
    tests: [not data] (Python truthiness), ['title' in data],
    [data.get('content', {})], ['sections' in content] and
    [content.get('sections', [])].  A field of another type than the one
    the code goes on to use (a title that is not a string, a section list
    that is a number) is outside the model: the decoder answers [None]. *)

From S2P Require Import Prelude PyValue PyStr Slides Pptx Decks Json Launchers PptFiles.
Local Open Scope Z_scope.

(** ** Reading the body *)

(** A request body: its length in bytes and the JSON value it parses
    to, [None] when it is not JSON. *)
Record http_body := { body_length : Z; body_json : option json }.

(** The exceptions [request.json] raises. *)
Inductive http_exc := RequestEntityTooLarge | BadRequest.

(** [request.json] with [app.config['MAX_CONTENT_LENGTH']], [None] where
    the service sets none. *)
Definition request_json (max_length : option Z) (b : http_body) : http_exc + json :=
  if match max_length with Some m => m <? body_length b | None => false end then inl RequestEntityTooLarge
  else match body_json b with Some j => inr j | None => inl BadRequest end.

(** ** From JSON to the request records *)

(** One entry of [sections]: a dictionary is read with [.get]; any other
    value is a section [.get] raises on. *)
Definition section_of_json (j : json) : option section :=
  match j with
  | JObj sfs =>
      title ← opt_get as_str "title" sfs;
      description ← opt_get as_str "description" sfs;
      Some (SecDict title description)
  | _ => Some SecOther
  end.

(** [sections = content.get('sections', [])] and [if not sections]: a
    falsy value is the empty list; a string is iterated by character,
    each a section that is not a dictionary. *)
Definition sections_of_json (v : json) : option (list section) :=
  if negb (jtruthy (Some v)) then Some [] else
  match v with
  | JArr items => mapM section_of_json items
  | JStr s => Some (replicate (length s) SecOther)
  | _ => None
  end.

(** [content = data.get('content', {})] and
    [if not content or 'sections' not in content]: [None] when there is
    no content, [Some None] when it has no [sections]. *)
Definition content_of_json (o : option json) : option (option (option (list section))) :=
  if negb (jtruthy o) then Some None else
  match o with
  | Some (JObj cfs) =>
      match jget (lit "sections") cfs with
      | None => Some (Some None)
      | Some v => secs ← sections_of_json v; Some (Some (Some secs))
      end
  | _ => None
  end.

(** The body of the simple and python-pptx services: [Some None] is
    [not data]. *)
Definition ppt_request_of_json (j : json) : option (option SimpleDeck.ppt_request) :=
  if negb (jtruthy (Some j)) then Some None else
  match j with
  | JObj fs =>
      title ← opt_get as_str "title" fs;
      content ← content_of_json (jget (lit "content") fs);
      author ← opt_get as_str "author" fs;
      date ← opt_get as_str "date" fs;
      Some (Some {| SimpleDeck.pq_title := title; SimpleDeck.pq_content := content;
                    SimpleDeck.pq_author := author; SimpleDeck.pq_date := date |})
  | _ => None
  end.

(** The body of the templated service, with its [template] field. *)
Definition tpl_request_of_json (j : json) : option (option TemplatedDeck.tpl_request) :=
  if negb (jtruthy (Some j)) then Some None else
  match j with
  | JObj fs =>
      title ← opt_get as_str "title" fs;
      content ← content_of_json (jget (lit "content") fs);
      author ← opt_get as_str "author" fs;
      date ← opt_get as_str "date" fs;
      template ← opt_get as_str "template" fs;
      Some (Some {| TemplatedDeck.tq_title := title; TemplatedDeck.tq_content := content;
                    TemplatedDeck.tq_author := author; TemplatedDeck.tq_date := date;
                    TemplatedDeck.tq_template := template |})
  | _ => None
  end.

(** ** The answers *)

Definition msg_missing_title : pystr := [32570; 23569; 24517; 35201; 21442; 25968] ++ lit ": title".
Definition msg_missing_sections : pystr := [32570; 23569] ++ lit "content.sections" ++ [21442; 25968].
Definition msg_empty_sections : pystr := lit "sections" ++ [25968; 32452; 19981; 33021; 20026; 31354].
Definition msg_ppt_failed : pystr := lit "PPT" ++ [29983; 25104; 22833; 36133].
Definition msg_internal : pystr := [26381; 21153; 22120; 20869; 37096; 38169; 35823] ++ lit ": ".
Definition msg_no_env : pystr := [27169; 26495; 29615; 22659; 26410; 21021; 22987; 21270].
Definition msg_render_failed : pystr := [27169; 26495; 28210; 26579; 22833; 36133] ++ lit ": ".
Definition msg_ppt_ok : pystr := lit "PPT" ++ [29983; 25104; 25104; 21151].
Definition msg_simple_ok : pystr :=
  [20351; 29992; 31616; 21270; 26041; 27861; 29983; 25104; 65292; 23436; 20840; 21487; 32534; 36753].
Definition msg_pptx_ok : pystr :=
  [20351; 29992] ++ lit "python-pptx" ++ [29983; 25104; 65292; 23436; 20840; 21487; 32534; 36753].

(** [jsonify({"error": msg})] *)
Definition error_json (msg : pystr) : list (pystr * json) := [(lit "error", JStr msg)].

(** [except Exception as e: return jsonify({"error": f"服务器内部错误: {str(e)}"}), 500] *)
Definition internal_error (e : pystr) : Z * list (pystr * json) := (500, error_json (msg_internal ++ e)).

(** The 400 answers the three services share. *)
Definition missing_title_json : Z * list (pystr * json) := (400, error_json msg_missing_title).
Definition missing_sections_json : Z * list (pystr * json) := (400, error_json msg_missing_sections).
Definition empty_sections_json : Z * list (pystr * json) := (400, error_json msg_empty_sections).

(** ppt_service_simple.py lines 188-227. *)
Definition simple_response_json (r : SimpleDeck.ppt_response) : Z * list (pystr * json) :=
  match r with
  | SimpleDeck.PptMissingTitle => missing_title_json
  | SimpleDeck.PptMissingSections => missing_sections_json
  | SimpleDeck.PptEmptySections => empty_sections_json
  | SimpleDeck.PptSaved fn =>
      (200, [(lit "status", JStr (lit "success")); (lit "download_url", JStr (SimpleFiles.download_url fn));
             (lit "filename", JStr fn); (lit "message", JStr msg_simple_ok)])
  | SimpleDeck.PptFailed => (500, error_json msg_ppt_failed)
  end.

(** ppt_service_pptx.py lines 179-226. *)
Definition pptx_response_json (r : EditableDeck.pptx_response) : Z * list (pystr * json) :=
  match r with
  | EditableDeck.PxNoEnvironment => (500, error_json msg_no_env)
  | EditableDeck.PxMissingTitle => missing_title_json
  | EditableDeck.PxMissingSections => missing_sections_json
  | EditableDeck.PxEmptySections => empty_sections_json
  | EditableDeck.PxSaved fn =>
      (200, [(lit "status", JStr (lit "success")); (lit "download_url", JStr (EditableFiles.download_url fn));
             (lit "filename", JStr fn); (lit "message", JStr msg_pptx_ok)])
  | EditableDeck.PxFailed => (500, error_json msg_ppt_failed)
  end.

Section TemplatedAnswers.
(** [str(e)] of an exception. *)
Variable exc_str : py_exc -> pystr.
Variable launch_str : launch_exc -> pystr.

(** ppt_service.py lines 279-346, and the handler's [except] (348-350)
    around [ensure_directories]. *)
Definition tpl_response_json (r : TemplatedFiles.tpl_disk_response) : Z * list (pystr * json) :=
  match r with
  | TemplatedFiles.InternalError e => internal_error (launch_str e)
  | TemplatedFiles.Answer a =>
      match a with
      | TemplatedDeck.TplNoEnvironment => (500, error_json msg_no_env)
      | TemplatedDeck.TplMissingTitle => missing_title_json
      | TemplatedDeck.TplMissingSections => missing_sections_json
      | TemplatedDeck.TplEmptySections => empty_sections_json
      | TemplatedDeck.TplRenderFailed e => (500, error_json (msg_render_failed ++ exc_str e))
      | TemplatedDeck.TplSaved fn size =>
          (200, [(lit "success", JBool true); (lit "message", JStr msg_ppt_ok); (lit "filename", JStr fn);
                 (lit "download_url", JStr (TemplatedFiles.download_url fn)); (lit "file_size", JInt size)])
      | TemplatedDeck.TplFailed => (500, error_json msg_ppt_failed)
      end
  end.
End TemplatedAnswers.

(** ** The generate handlers on a request body *)

Section Handlers.
(** [str(e)] of the exceptions the handlers catch. *)
Variable http_str : http_exc -> pystr.
Variable exc_str : py_exc -> pystr.
Variable launch_str : launch_exc -> pystr.

(** ppt_service_simple.py [generate_ppt] (lines 175-233): the folder is
    ensured (line 182), then [request.json] is read (line 184); where it
    raises, the [except] of lines 229-233 answers 500.  [None] is a body
    outside the model. *)
Definition simple_http_generate (save : list slide -> option (Z * list Z)) (d : disk) (b : http_body)
    (hex : pystr) : option (disk * (Z * list (pystr * json))) :=
  match request_json None b with
  | inl e => Some (SimpleFiles.ensure_directories d, internal_error (http_str e))
  | inr j =>
      data ← ppt_request_of_json j;
      let '(d', r) := SimpleFiles.generate_ppt_disk save d data hex in
      Some (d', simple_response_json r)
  end.

(** [app.config['MAX_CONTENT_LENGTH'] = 16 * 1024 * 1024] (ppt_service.py
    line 31). *)
Definition MAX_CONTENT_LENGTH : Z := 16 * 1024 * 1024.

(** ppt_service.py [generate_ppt] (lines 271-350): [ensure_directories]
    (line 277), the environment test (279-281), then [request.json]
    (line 284) under the size limit; where it raises, the first two have
    run and the [except] of lines 348-350 answers 500. *)
Definition tpl_http_generate (save : deck -> option Z) (env_ok : bool)
    (render : pystr -> TemplatedDeck.template_data -> result pystr) (d : disk) (b : http_body)
    (today hex : pystr) : option (disk * (Z * list (pystr * json))) :=
  match request_json (Some MAX_CONTENT_LENGTH) b with
  | inr j =>
      data ← tpl_request_of_json j;
      let '(d', r) := TemplatedFiles.generate_ppt_disk save env_ok render d data today hex in
      Some (d', tpl_response_json exc_str launch_str r)
  | inl e =>
      Some (match TemplatedFiles.ensure_directories d with
            | inl e' => (d, internal_error (launch_str e'))
            | inr d1 => (d1, if env_ok then internal_error (http_str e) else (500, error_json msg_no_env))
            end)
  end.

(** ppt_service_pptx.py [generate_ppt] (lines 170-232): the folder
    (line 177), the environment (179-181), then [request.json] (183). *)
Definition pptx_http_generate (save : deck -> option (Z * list Z)) (env_ok : bool) (d : disk)
    (b : http_body) (hex : pystr) : option (disk * (Z * list (pystr * json))) :=
  match request_json None b with
  | inl e =>
      Some (EditableFiles.ensure_directories d,
            if env_ok then internal_error (http_str e) else (500, error_json msg_no_env))
  | inr j =>
      data ← ppt_request_of_json j;
      let '(d', r) := EditableFiles.generate_ppt_disk save env_ok d data hex in
      Some (d', pptx_response_json r)
  end.
End Handlers.

(** ** Routing *)

(** The four routes each service declares with [@app.route], and the
    [/static/<path:filename>] route [Flask(__name__)] adds. *)
Inductive ppt_route := PIndex | PHealth | PGenerate | PDownload (filename : pystr) | PStatic (filename : pystr).

Inductive ppt_dispatch_result := PHandler (r : ppt_route) | PMethodNotAllowed | PNotFound.

(** The rule a path matches, with the method the rule allows: Werkzeug
    matches the constant rules, Flask's static rule (whose [path]
    converter binds any non-empty rest) and the [<filename>] rule, which
    binds one non-empty segment. *)
Definition ppt_rule (download_prefix path : pystr) : option (pystr * ppt_route) :=
  if bool_decide (path = lit "/") then Some (lit "GET", PIndex)
  else if bool_decide (path = lit "/api/health") then Some (lit "GET", PHealth)
  else if bool_decide (path = lit "/api/generate-ppt") then Some (lit "POST", PGenerate)
  else match strip_prefix (lit "/static/") path with
       | Some (c :: f) => Some (lit "GET", PStatic (c :: f))
       | _ => (fun f => (lit "GET", PDownload f)) <$> route_segment download_prefix path
       end.

(** A request's handler, 405 for a known path with another method, 404. *)
Definition ppt_dispatch (download_prefix meth path : pystr) : ppt_dispatch_result :=
  match ppt_rule download_prefix path with
  | None => PNotFound
  | Some (m, r) => if bool_decide (meth = m) then PHandler r else PMethodNotAllowed
  end.

(** The download rules: [/api/download-ppt/<filename>]
    (ppt_service_simple.py line 235, ppt_service_pptx.py line 234) and
    [/download/<filename>] (ppt_service.py line 352). *)
Definition simple_download_rule : pystr := lit "/api/download-ppt/".
Definition pptx_download_rule : pystr := lit "/api/download-ppt/".
Definition tpl_download_rule : pystr := lit "/download/".

(** ** The shapes of the answers *)

Definition error_schema : jtype := TObj [(lit "error", TStr)].
Definition simple_success_schema : jtype :=
  TObj [(lit "status", TStr); (lit "download_url", TStr); (lit "filename", TStr); (lit "message", TStr)].
Definition tpl_success_schema : jtype :=
  TObj [(lit "success", TBool); (lit "message", TStr); (lit "filename", TStr); (lit "download_url", TStr);
        (lit "file_size", TInt)].

(** An answer is a 200 of the success shape, or a 400 or a 500 of the
    error shape. *)
Definition typed_answer (success : jtype) (a : Z * list (pystr * json)) : Prop :=
  (a.1 = 200 /\ has_type (JObj a.2) success = true) \/
  ((a.1 = 400 \/ a.1 = 500) /\ has_type (JObj a.2) error_schema = true).

(** ** Lemmas *)

Lemma error_json_typed msg : has_type (JObj (error_json msg)) error_schema = true.
Proof. unfold error_schema, error_json. rewrite has_type_obj. unfold fields_ok. cbn -[lit]. by lit_decide. Qed.

Lemma typed_error success st msg : st = 400 \/ st = 500 -> typed_answer success (st, error_json msg).
Proof. intros Hst. right. split; [done|apply error_json_typed]. Qed.

#[local] Hint Resolve typed_error : core.

Lemma simple_response_typed r : typed_answer simple_success_schema (simple_response_json r).
Proof.
  destruct r; cbn [simple_response_json]; unfold missing_title_json, missing_sections_json, empty_sections_json; auto.
  left. split; [done|]. unfold simple_success_schema. rewrite has_type_obj. unfold fields_ok. cbn -[lit]. by lit_decide.
Qed.

Lemma pptx_response_typed r : typed_answer simple_success_schema (pptx_response_json r).
Proof.
  destruct r; cbn [pptx_response_json]; unfold missing_title_json, missing_sections_json, empty_sections_json; auto.
  left. split; [done|]. unfold simple_success_schema. rewrite has_type_obj. unfold fields_ok. cbn -[lit]. by lit_decide.
Qed.

Lemma tpl_response_typed exc_str launch_str r :
  typed_answer tpl_success_schema (tpl_response_json exc_str launch_str r).
Proof.
  destruct r as [a|e]; [|cbn [tpl_response_json]; unfold internal_error; auto].
  destruct a; cbn [tpl_response_json]; unfold missing_title_json, missing_sections_json, empty_sections_json; auto.
  left. split; [done|]. unfold tpl_success_schema. rewrite has_type_obj. unfold fields_ok. cbn -[lit]. by lit_decide.
Qed.

(** C15: every answer of the three [POST /api/generate-ppt] handlers,
    whatever the body, the disk and the outcome of saving and rendering,
    is a 200 of the service's success shape or a 400 or 500 of the shape
    [{"error": str}]: the exceptions of [request.json] and of
    [ensure_directories] included. *)
Theorem generate_answers_typed http_str exc_str launch_str :
  (forall save d b hex d' a, simple_http_generate http_str save d b hex = Some (d', a) ->
     typed_answer simple_success_schema a) /\
  (forall save env_ok render d b today hex d' a,
     tpl_http_generate http_str exc_str launch_str save env_ok render d b today hex = Some (d', a) ->
     typed_answer tpl_success_schema a) /\
  (forall save env_ok d b hex d' a, pptx_http_generate http_str save env_ok d b hex = Some (d', a) ->
     typed_answer simple_success_schema a).
Proof.
  split; [|split].
  - intros save d b hex d' a H. unfold simple_http_generate in H. destruct (request_json None b) as [e|j].
    + injection H as <- <-. unfold internal_error. auto.
    + apply bind_Some in H as (data & _ & H). destruct (SimpleFiles.generate_ppt_disk _ _ _ _).
      injection H as <- <-. apply simple_response_typed.
  - intros save env_ok render d b today hex d' a H. unfold tpl_http_generate in H.
    destruct (request_json _ b) as [e|j].
    + injection H as H. destruct (TemplatedFiles.ensure_directories d); injection H as <- <-;
        [|destruct env_ok]; unfold internal_error; auto.
    + apply bind_Some in H as (data & _ & H). destruct (TemplatedFiles.generate_ppt_disk _ _ _ _ _ _ _).
      injection H as <- <-. apply tpl_response_typed.
  - intros save env_ok d b hex d' a H. unfold pptx_http_generate in H. destruct (request_json None b) as [e|j].
    + injection H as <- <-. destruct env_ok; unfold internal_error; auto.
    + apply bind_Some in H as (data & _ & H). destruct (EditableFiles.generate_ppt_disk _ _ _ _ _).
      injection H as <- <-. apply pptx_response_typed.
Qed.

(** C16: the templated service's 16 MiB limit answers an internal
    error.  With its directories made and its environment initialised,
    a body longer than [MAX_CONTENT_LENGTH] makes [request.json] raise
    [RequestEntityTooLarge], a 413 that the handler's
    [except Exception] turns into a 500 [服务器内部错误: ...] before
    any field is read: nothing is saved, whatever the body holds, while
    the same JSON in a body within the limit is validated and saved as
    the record-level handler does. *)
Theorem oversized_body_500 http_str exc_str launch_str save render d d1 j n today hex :
  MAX_CONTENT_LENGTH < n ->
  TemplatedFiles.ensure_directories d = inr d1 ->
  tpl_http_generate http_str exc_str launch_str save true render d
    {| body_length := n; body_json := Some j |} today hex =
    Some (d1, (500, error_json (msg_internal ++ http_str RequestEntityTooLarge))) /\
  forall m, m <= MAX_CONTENT_LENGTH ->
    tpl_http_generate http_str exc_str launch_str save true render d
      {| body_length := m; body_json := Some j |} today hex =
    (data ← tpl_request_of_json j;
     let '(d', r) := TemplatedFiles.generate_ppt_disk save true render d data today hex in
     Some (d', tpl_response_json exc_str launch_str r)).
Proof.
  intros Hlen Hd. unfold tpl_http_generate, request_json. cbn [body_length body_json].
  rewrite (proj2 (Z.ltb_lt _ _) Hlen), Hd. split; [done|].
  intros m Hm. by rewrite (proj2 (Z.ltb_ge _ _) Hm).
Qed.

(** A saved deck's URL reaches the download route of its service. *)
Lemma ppt_dispatch_download prefix f :
  prefix = simple_download_rule \/ prefix = tpl_download_rule ->
  route_segment prefix (prefix ++ f) = Some f ->
  ppt_dispatch prefix (lit "GET") (prefix ++ f) = PHandler (PDownload f).
Proof.
  intros Hp Hs. assert (take 6 (prefix ++ f) = take 6 prefix) as Ht
    by (apply take_app_le; destruct Hp as [-> | ->]; vm_compute; lia).
  unfold ppt_dispatch, ppt_rule.
  rewrite !bool_decide_eq_false_2
    by (intros E; apply (f_equal (take 6)) in E; rewrite Ht in E; destruct Hp as [-> | ->];
        vm_compute in E; discriminate E).
  assert (strip_prefix (lit "/static/") (prefix ++ f) = None) as Hst by (destruct Hp as [-> | ->]; reflexivity).
  rewrite Hst, Hs. cbn [fmap option_fmap option_map]. by rewrite bool_decide_eq_true_2.
Qed.

(** The 200 answers, read back. *)
Lemma simple_response_200 r body :
  simple_response_json r = (200, body) ->
  exists f, r = SimpleDeck.PptSaved f /\ jget (lit "download_url") body = Some (JStr (SimpleFiles.download_url f)).
Proof.
  destruct r; cbn [simple_response_json]; try (intros [=]; fail).
  intros [= <-]. eexists. split; [done|]. cbn -[lit]. by lit_decide.
Qed.

Lemma pptx_response_200 r body :
  pptx_response_json r = (200, body) ->
  exists f, r = EditableDeck.PxSaved f /\ jget (lit "download_url") body = Some (JStr (EditableFiles.download_url f)).
Proof.
  destruct r; cbn [pptx_response_json]; try (intros [=]; fail).
  intros [= <-]. eexists. split; [done|]. cbn -[lit]. by lit_decide.
Qed.

Lemma tpl_response_200 exc_str launch_str r body :
  tpl_response_json exc_str launch_str r = (200, body) ->
  exists f size, r = TemplatedFiles.Answer (TemplatedDeck.TplSaved f size) /\
    jget (lit "download_url") body = Some (JStr (TemplatedFiles.download_url f)) /\
    jget (lit "file_size") body = Some (JInt size).
Proof.
  destruct r as [[]|]; cbn [tpl_response_json]; try (intros [=]; fail).
  intros [= <-]. do 2 eexists. split; [done|]. cbn -[lit]. lit_decide. done.
Qed.

(** C18: a client that follows the [download_url] of a 200 answer of
    any of the three services gets the deck: the service's router sends
    the URL to its download route with the file name, and the download
    handler, on the disk the generate request left, sends the file from
    the output folder, of at least the 1000 bytes the save check asked
    for (the templated service's [file_size] being that file's size). *)
Theorem download_links_serve http_str exc_str launch_str :
  (forall save d b hex d' body,
     simple_http_generate http_str save d b hex = Some (d', (200, body)) -> SLASH ∉ hex ->
     exists url f size, jget (lit "download_url") body = Some (JStr url) /\
       ppt_dispatch simple_download_rule (lit "GET") url = PHandler (PDownload f) /\
       SimpleFiles.download_ppt d' f = SendFile (path_join SimpleFiles.OUTPUT_FOLDER f) size /\ 1000 <= size) /\
  (forall save env_ok render d b today hex d' body,
     tpl_http_generate http_str exc_str launch_str save env_ok render d b today hex = Some (d', (200, body)) ->
     SLASH ∉ hex ->
     exists url f size, jget (lit "download_url") body = Some (JStr url) /\
       jget (lit "file_size") body = Some (JInt size) /\
       ppt_dispatch tpl_download_rule (lit "GET") url = PHandler (PDownload f) /\
       TemplatedFiles.download_pptx d' f = SendFile (path_join TemplatedFiles.PPTX_FOLDER f) size /\
       1000 <= size) /\
  (forall save env_ok d b hex d' body,
     pptx_http_generate http_str save env_ok d b hex = Some (d', (200, body)) -> SLASH ∉ hex ->
     exists url f size, jget (lit "download_url") body = Some (JStr url) /\
       ppt_dispatch pptx_download_rule (lit "GET") url = PHandler (PDownload f) /\
       EditableFiles.download_ppt d' f = SendFile (path_join EditableFiles.OUTPUT_FOLDER f) size /\ 1000 <= size).
Proof.
  split; [|split].
  - intros save d b hex d' body H Hh. unfold simple_http_generate in H.
    destruct (request_json None b); [unfold internal_error in H; congruence|].
    apply bind_Some in H as (data & _ & H). destruct (SimpleFiles.generate_ppt_disk _ _ _ _) as [d2 r] eqn:Eg.
    injection H as <- Hr. apply simple_response_200 in Hr as (f & -> & Hu).
    destruct (SimpleFilesFacts.simple_download_after_generate _ _ _ _ _ _ Eg Hh) as (Hseg & size & Hdl & Hsz).
    exists (SimpleFiles.download_url f), f, size. split; [done|]. split; [|done].
    apply ppt_dispatch_download; [by left|exact Hseg].
  - intros save env_ok render d b today hex d' body H Hh. unfold tpl_http_generate in H.
    destruct (request_json _ b).
    { injection H as H. destruct (TemplatedFiles.ensure_directories d); [|destruct env_ok];
        unfold internal_error in H; congruence. }
    apply bind_Some in H as (data & _ & H).
    destruct (TemplatedFiles.generate_ppt_disk _ _ _ _ _ _ _) as [d2 r] eqn:Eg.
    injection H as <- Hr. apply tpl_response_200 in Hr as (f & size & -> & Hu & Hs).
    destruct (TemplatedFilesFacts.templated_download_after_generate _ _ _ _ _ _ _ _ _ _ Eg Hh)
      as (Hseg & Hdl & Hsz).
    exists (TemplatedFiles.download_url f), f, size. repeat split; try done.
    apply ppt_dispatch_download; [by right|exact Hseg].
  - intros save env_ok d b hex d' body H Hh. unfold pptx_http_generate in H.
    destruct (request_json None b); [destruct env_ok; unfold internal_error in H; congruence|].
    apply bind_Some in H as (data & _ & H). destruct (EditableFiles.generate_ppt_disk _ _ _ _ _) as [d2 r] eqn:Eg.
    injection H as <- Hr. apply pptx_response_200 in Hr as (f & -> & Hu).
    destruct (EditableFilesFacts.editable_download_after_generate _ _ _ _ _ _ _ Eg Hh) as (Hseg & size & Hdl & Hsz).
    exists (EditableFiles.download_url f), f, size. split; [done|]. split; [|done].
    apply ppt_dispatch_download; [by left|exact Hseg].
Qed.

(** ** Sample runs *)

(** [fresh_disk] once [ensure_directories] made [temp], then
    [static/pptx]. *)
Definition tpl_ready_disk : disk :=
  with_host fresh_disk (set_dirs (dk_host fresh_disk) [lit "static/pptx"; lit "temp"]).

Definition sample_body_json : json :=
  JObj [(lit "title", JStr (lit "Course"));
        (lit "content", JObj [(lit "sections", JArr [JObj [(lit "title", JStr (lit "Intro"));
                                                            (lit "description", JStr (lit "Basics"))]])])].

Lemma oversized_body_500_witness :
  MAX_CONTENT_LENGTH < 20971520 /\
  TemplatedFiles.ensure_directories fresh_disk = inr tpl_ready_disk /\
  tpl_http_generate (fun _ => lit "413") (fun _ => []) (fun _ => []) (fun _ => Some 4096) true
    (fun _ _ => Ok []) fresh_disk {| body_length := 20971520; body_json := Some sample_body_json |}
    (lit "2026/11/09") (lit "abc") =
    Some (tpl_ready_disk, (500, error_json (msg_internal ++ lit "413"))) /\
  forall m, m <= MAX_CONTENT_LENGTH ->
    tpl_http_generate (fun _ => lit "413") (fun _ => []) (fun _ => []) (fun _ => Some 4096) true
      (fun _ _ => Ok []) fresh_disk {| body_length := m; body_json := Some sample_body_json |}
      (lit "2026/11/09") (lit "abc") =
    (data ← tpl_request_of_json sample_body_json;
     let '(d', r) := TemplatedFiles.generate_ppt_disk (fun _ => Some 4096) true (fun _ _ => Ok []) fresh_disk
                       data (lit "2026/11/09") (lit "abc") in
     Some (d', tpl_response_json (fun _ => []) (fun _ => []) r)).
Proof.
  assert (MAX_CONTENT_LENGTH < 20971520) as H1 by reflexivity.
  assert (TemplatedFiles.ensure_directories fresh_disk = inr tpl_ready_disk) as H2 by reflexivity.
  split; [exact H1|split; [exact H2|]].
  exact (oversized_body_500 (fun _ => lit "413") (fun _ => []) (fun _ => []) (fun _ => Some 4096)
           (fun _ _ => Ok []) fresh_disk tpl_ready_disk sample_body_json 20971520
           (lit "2026/11/09") (lit "abc") H1 H2).
Defined.

(** The sample body, posted to the templated service within the limit,
    is saved, and its link is served. *)
Example tpl_sample_roundtrip :
  match tpl_http_generate (fun _ => []) (fun _ => []) (fun _ => []) (fun _ => Some 4096) true
          (fun _ _ => Ok []) fresh_disk {| body_length := 200; body_json := Some sample_body_json |}
          (lit "2026/11/09") (lit "abc") with
  | Some (d', (200, body)) =>
      match jget (lit "download_url") body with
      | Some (JStr url) =>
          match ppt_dispatch tpl_download_rule (lit "GET") url with
          | PHandler (PDownload f) =>
              TemplatedFiles.download_pptx d' f = SendFile (lit "static/pptx/lecture_abc.pptx") 4096
          | _ => False
          end
      | _ => False
      end
  | _ => False
  end.
Proof. vm_compute. reflexivity. Qed.
