(* ===== verification/PptPages.v ===== *)
(** The pages and the start of the three PPT services: the HTML each
    [index] handler returns (a string literal, written out here character
    for character, non-ASCII characters as their code points), the
    endpoints and the example request those pages document, and the
    [if __name__ == '__main__'] blocks.  A page's endpoints are the
    [GET /path] and [POST /path] it names and its [href] links; its
    example is the text of its [<pre>] block, read with a JSON reader for
    the part of JSON the pages use (objects, arrays and strings without
    escapes), as [json.loads] reads it. *)

From S2P Require Import Prelude PyValue PyStr Slides Pptx Decks Json Launchers PptFiles PptHttp.
Local Open Scope Z_scope.

(** ** Text *)

(** The lines of a triple-quoted literal. *)
Fixpoint join_lines (ls : list pystr) : pystr :=
  match ls with
  | [] => []
  | [l] => l
  | l :: r => l ++ [NEWLINE] ++ join_lines r
  end.

(** A URL path runs up to a space, a line end, [<] or a quote. *)
Definition is_path_char (c : Z) : bool := negb (bool_decide (c ∈ [32; NEWLINE; 60; 34])).

Fixpoint take_path (s : pystr) : pystr :=
  match s with
  | c :: s' => if is_path_char c then c :: take_path s' else []
  | [] => []
  end.

(** The endpoints a page names, in the order they appear. *)
Fixpoint endpoint_mentions (s : pystr) : list (pystr * pystr) :=
  match s with
  | [] => []
  | _ :: s' =>
      match strip_prefix (lit "GET /") s with Some r => [(lit "GET", [SLASH] ++ take_path r)] | None => [] end ++
      match strip_prefix (lit "POST /") s with Some r => [(lit "POST", [SLASH] ++ take_path r)] | None => [] end ++
      match strip_prefix (lit "href=") s with Some (34 :: r) => [(lit "GET", take_path r)] | _ => [] end ++
      endpoint_mentions s'
  end.

(** The text after the first [pat]. *)
Fixpoint find_after (pat s : pystr) : option pystr :=
  match strip_prefix pat s with
  | Some r => Some r
  | None => match s with [] => None | _ :: s' => find_after pat s' end
  end.

(** The text before the first [pat]. *)
Fixpoint take_until (pat s : pystr) : pystr :=
  match s with
  | [] => []
  | c :: s' => match strip_prefix pat s with Some _ => [] | None => c :: take_until pat s' end
  end.

Definition between (open close s : pystr) : option pystr :=
  r ← find_after open s; Some (take_until close r).

(** ** Reading JSON text *)

Definition is_ws (c : Z) : bool := bool_decide (c ∈ [32; 9; NEWLINE; 13]).

Fixpoint skip_ws (s : pystr) : pystr :=
  match s with c :: s' => if is_ws c then skip_ws s' else s | [] => [] end.

(** The characters of a string up to its closing quote. *)
Fixpoint read_chars (s : pystr) : option (pystr * pystr) :=
  match s with
  | [] => None
  | c :: s' =>
      if c =? 34 then Some ([], s')
      else if c =? 92 then None
      else '(t, r) ← read_chars s'; Some (c :: t, r)
  end.

(** A value, the members of an object after its [{], the elements of an
    array after its [[]; of two calls in a row at least one reads a
    character ([read_elems] hands its first character to [read_value]),
    so twice the length of the text, plus two, is enough fuel. *)
Fixpoint read_value (fuel : nat) (s : pystr) {struct fuel} : option (json * pystr) :=
  match fuel with
  | O => None
  | S f =>
      match skip_ws s with
      | 123 :: s' => match skip_ws s' with 125 :: r => Some (JObj [], r) | _ => read_members f s' [] end
      | 91 :: s' => match skip_ws s' with 93 :: r => Some (JArr [], r) | _ => read_elems f s' [] end
      | 34 :: s' => '(t, r) ← read_chars s'; Some (JStr t, r)
      | _ => None
      end
  end
with read_members (fuel : nat) (s : pystr) (acc : list (pystr * json)) {struct fuel} : option (json * pystr) :=
  match fuel with
  | O => None
  | S f =>
      match skip_ws s with
      | 34 :: s1 =>
          '(k, s2) ← read_chars s1;
          match skip_ws s2 with
          | 58 :: s3 =>
              '(v, s4) ← read_value f s3;
              match skip_ws s4 with
              | 44 :: s5 => read_members f s5 (acc ++ [(k, v)])
              | 125 :: s5 => Some (JObj (acc ++ [(k, v)]), s5)
              | _ => None
              end
          | _ => None
          end
      | _ => None
      end
  end
with read_elems (fuel : nat) (s : pystr) (acc : list json) {struct fuel} : option (json * pystr) :=
  match fuel with
  | O => None
  | S f =>
      '(v, s1) ← read_value f s;
      match skip_ws s1 with
      | 44 :: s2 => read_elems f s2 (acc ++ [v])
      | 93 :: s2 => Some (JArr (acc ++ [v]), s2)
      | _ => None
      end
  end.

(** [json.loads(text)]: one value and nothing but blanks after it. *)
Definition json_loads (s : pystr) : option json :=
  '(v, r) ← read_value (2 * length s + 2) s;
  if bool_decide (skip_ws r = []) then Some v else None.

(** ** The pages *)

(** [index] of ppt_service_simple.py (lines 256-280). *)
Definition simple_index_html : pystr :=
  join_lines [
    [];
    lit "    <h1>" ++ [26234; 33021; 35838; 31243] ++ lit "PPT" ++ [29983; 25104; 26381; 21153] ++ lit " (" ++ [31616; 21270; 29256; 26412] ++ lit ")</h1>";
    lit "    <p>" ++ [9989] ++ lit " " ++ [29983; 25104; 23436; 20840; 21487; 32534; 36753; 30340] ++ lit "PPTX" ++ [25991; 20214] ++ lit "</p>";
    lit "    <p>" ++ [9989] ++ lit " " ++ [20860; 23481] ++ lit "PowerPoint" ++ [12289] ++ lit "WPS" ++ [31561; 25152; 26377] ++ lit "Office" ++ [36719; 20214] ++ lit "</p>";
    lit "    <p>" ++ [9989] ++ lit " " ++ [25903; 25345; 28155; 21152; 12289; 21024; 38500; 12289; 20462; 25913; 24187; 28783; 29255] ++ lit "</p>";
    lit "    <p>" ++ [9989] ++ lit " " ++ [31616; 21270; 35774; 35745; 65292; 25552; 39640; 31283; 23450; 24615] ++ lit "</p>";
    lit "    <p>" ++ [20351; 29992] ++ lit " POST /api/generate-ppt " ++ [25509; 21475; 29983; 25104] ++ lit "PPT</p>";
    lit "    <p>" ++ [31034; 20363; 35831; 27714] ++ lit ":</p>";
    lit "    <pre>";
    lit "    {";
    lit "        " ++ [34] ++ lit "title" ++ [34] ++ lit ": " ++ [34; 27979; 35797; 35838; 31243; 34] ++ lit ",";
    lit "        " ++ [34] ++ lit "content" ++ [34] ++ lit ": {";
    lit "            " ++ [34] ++ lit "sections" ++ [34] ++ lit ": [";
    lit "                {";
    lit "                    " ++ [34] ++ lit "title" ++ [34] ++ lit ": " ++ [34; 31532; 19968; 31456; 33410; 34] ++ lit ",";
    lit "                    " ++ [34] ++ lit "description" ++ [34] ++ lit ": " ++ [34; 36825; 26159; 31532; 19968; 20010; 27979; 35797; 31456; 33410; 30340; 20869; 23481; 34];
    lit "                }";
    lit "            ]";
    lit "        }";
    lit "    }";
    lit "    </pre>";
    lit "    <p>" ++ [26597; 30475] ++ lit "<a href=" ++ [34] ++ lit "/api/health" ++ [34] ++ lit ">" ++ [26381; 21153; 29366; 24577] ++ lit "</a></p>";
    lit "    "].

(** [index] of ppt_service.py (lines 194-259). *)
Definition tpl_index_html : pystr :=
  join_lines [
    [];
    lit "    <!DOCTYPE html>";
    lit "    <html>";
    lit "    <head>";
    lit "        <title>PPT" ++ [29983; 25104; 26381; 21153] ++ lit "</title>";
    lit "        <meta charset=" ++ [34] ++ lit "utf-8" ++ [34] ++ lit ">";
    lit "        <style>";
    lit "            body { font-family: Arial, sans-serif; margin: 40px; }";
    lit "            .container { max-width: 800px; margin: 0 auto; }";
    lit "            .header { background: #f8f9fa; padding: 20px; border-radius: 8px; margin-bottom: 20px; }";
    lit "            .endpoint { background: #e9ecef; padding: 15px; border-radius: 5px; margin: 10px 0; }";
    lit "            code { background: #f1f3f4; padding: 2px 6px; border-radius: 3px; }";
    lit "        </style>";
    lit "    </head>";
    lit "    <body>";
    lit "        <div class=" ++ [34] ++ lit "container" ++ [34] ++ lit ">";
    lit "            <div class=" ++ [34] ++ lit "header" ++ [34] ++ lit ">";
    lit "                <h1>" ++ [128640] ++ lit " PPT" ++ [29983; 25104; 26381; 21153] ++ lit "</h1>";
    lit "                <p>" ++ [20351; 29992] ++ lit "python-pptx" ++ [29983; 25104; 21487; 32534; 36753; 30340] ++ lit "PPTX" ++ [25991; 20214] ++ lit "</p>";
    lit "            </div>";
    lit "            ";
    lit "            <h2>" ++ [128203] ++ lit " API" ++ [25509; 21475] ++ lit "</h2>";
    lit "            ";
    lit "            <div class=" ++ [34] ++ lit "endpoint" ++ [34] ++ lit ">";
    lit "                <h3>" ++ [20581; 24247; 26816; 26597] ++ lit "</h3>";
    lit "                <p><code>GET /api/health</code></p>";
    lit "                <p>" ++ [26816; 26597; 26381; 21153; 29366; 24577] ++ lit "</p>";
    lit "            </div>";
    lit "            ";
    lit "            <div class=" ++ [34] ++ lit "endpoint" ++ [34] ++ lit ">";
    lit "                <h3>" ++ [29983; 25104] ++ lit "PPT</h3>";
    lit "                <p><code>POST /api/generate-ppt</code></p>";
    lit "                <p>" ++ [26681; 25454; 25552; 20379; 30340; 20869; 23481; 29983; 25104] ++ lit "PPTX" ++ [25991; 20214] ++ lit "</p>";
    lit "                ";
    lit "                <h4>" ++ [35831; 27714; 20307; 26684; 24335] ++ lit ":</h4>";
    lit "                <pre><code>{";
    lit "    " ++ [34] ++ lit "title" ++ [34] ++ lit ": " ++ [34; 28436; 31034; 26631; 39064; 34] ++ lit ",";
    lit "    " ++ [34] ++ lit "content" ++ [34] ++ lit ": {";
    lit "        " ++ [34] ++ lit "sections" ++ [34] ++ lit ": [";
    lit "            {";
    lit "                " ++ [34] ++ lit "title" ++ [34] ++ lit ": " ++ [34; 31456; 33410; 26631; 39064; 34] ++ lit ",";
    lit "                " ++ [34] ++ lit "description" ++ [34] ++ lit ": " ++ [34; 31456; 33410; 25551; 36848; 20869; 23481; 34];
    lit "            }";
    lit "        ]";
    lit "    },";
    lit "    " ++ [34] ++ lit "author" ++ [34] ++ lit ": " ++ [34; 20316; 32773; 22995; 21517; 34] ++ lit ",";
    lit "    " ++ [34] ++ lit "date" ++ [34] ++ lit ": " ++ [34] ++ lit "2025/8/13" ++ [34] ++ lit ",";
    lit "    " ++ [34] ++ lit "template" ++ [34] ++ lit ": " ++ [34] ++ lit "lecture.md.jinja" ++ [34];
    lit "}</code></pre>";
    lit "            </div>";
    lit "            ";
    lit "            <h2>" ++ [128295] ++ lit " " ++ [25216; 26415; 29305; 28857] ++ lit "</h2>";
    lit "            <ul>";
    lit "                <li>" ++ [9989] ++ lit " " ++ [20351; 29992] ++ lit "python-pptx" ++ [29983; 25104; 21407; 29983] ++ lit "PPTX" ++ [25991; 20214] ++ lit "</li>";
    lit "                <li>" ++ [9989] ++ lit " " ++ [25903; 25345; 33258; 23450; 20041; 26679; 24335; 21644; 24067; 23616] ++ lit "</li>";
    lit "                <li>" ++ [9989] ++ lit " " ++ [29983; 25104; 30340; 25991; 20214; 23436; 20840; 21487; 32534; 36753] ++ lit "</li>";
    lit "                <li>" ++ [9989] ++ lit " " ++ [25903; 25345; 20013; 25991; 20869; 23481] ++ lit "</li>";
    lit "                <li>" ++ [9989] ++ lit " " ++ [33258; 21160; 29983; 25104; 30446; 24405; 21644; 24635; 32467; 39029] ++ lit "</li>";
    lit "            </ul>";
    lit "        </div>";
    lit "    </body>";
    lit "    </html>";
    lit "    "].

(** [index] of ppt_service_pptx.py (lines 254-278). *)
Definition pptx_index_html : pystr :=
  join_lines [
    [];
    lit "    <h1>" ++ [26234; 33021; 35838; 31243] ++ lit "PPT" ++ [29983; 25104; 26381; 21153] ++ lit " (python-pptx" ++ [29256; 26412] ++ lit ")</h1>";
    lit "    <p>" ++ [9989] ++ lit " " ++ [29983; 25104; 23436; 20840; 21487; 32534; 36753; 30340] ++ lit "PPTX" ++ [25991; 20214] ++ lit "</p>";
    lit "    <p>" ++ [9989] ++ lit " " ++ [20860; 23481] ++ lit "PowerPoint" ++ [12289] ++ lit "WPS" ++ [31561; 25152; 26377] ++ lit "Office" ++ [36719; 20214] ++ lit "</p>";
    lit "    <p>" ++ [9989] ++ lit " " ++ [25903; 25345; 28155; 21152; 12289; 21024; 38500; 12289; 20462; 25913; 24187; 28783; 29255] ++ lit "</p>";
    lit "    <p>" ++ [20351; 29992] ++ lit " POST /api/generate-ppt " ++ [25509; 21475; 29983; 25104] ++ lit "PPT</p>";
    lit "    <p>" ++ [31034; 20363; 35831; 27714] ++ lit ":</p>";
    lit "    <pre>";
    lit "    {";
    lit "        " ++ [34] ++ lit "title" ++ [34] ++ lit ": " ++ [34; 27979; 35797; 35838; 31243; 34] ++ lit ",";
    lit "        " ++ [34] ++ lit "content" ++ [34] ++ lit ": {";
    lit "            " ++ [34] ++ lit "sections" ++ [34] ++ lit ": [";
    lit "                {";
    lit "                    " ++ [34] ++ lit "title" ++ [34] ++ lit ": " ++ [34; 31532; 19968; 31456; 33410; 34] ++ lit ",";
    lit "                    " ++ [34] ++ lit "description" ++ [34] ++ lit ": " ++ [34; 36825; 26159; 31532; 19968; 20010; 27979; 35797; 31456; 33410; 30340; 20869; 23481; 34];
    lit "                }";
    lit "            ]";
    lit "        }";
    lit "    }";
    lit "    </pre>";
    lit "    <p>" ++ [26597; 30475] ++ lit "<a href=" ++ [34] ++ lit "/api/health" ++ [34] ++ lit ">" ++ [26381; 21153; 29366; 24577] ++ lit "</a></p>";
    lit "    "].

(** ** Starting the services *)

(** [if __name__ == '__main__'] of ppt_service_simple.py (lines 282-288):
    [ensure_directories()], whose failure is logged, then [app.run]. *)
Definition simple_main (d : disk) : disk * outcome :=
  let d1 := SimpleFiles.ensure_directories d in (d1, Serving (lit "ppt_service_simple.py") (dk_host d1)).

(** The same block of ppt_service_pptx.py (lines 280-285). *)
Definition pptx_main (d : disk) : disk * outcome :=
  let d1 := EditableFiles.ensure_directories d in (d1, Serving (lit "ppt_service_pptx.py") (dk_host d1)).

(** ppt_service.py (lines 361-368): its [ensure_directories] has no
    handler, so a folder it cannot make stops the script. *)
Definition tpl_main (d : disk) : disk * outcome :=
  match TemplatedFiles.ensure_directories d with
  | inl e => (d, Raised e)
  | inr d1 => (d1, Serving (lit "ppt_service.py") (dk_host d1))
  end.

(** ppt_service.py lines 34-39:
    [jinja2.Environment(loader=jinja2.FileSystemLoader('templates'))]
    only records the folder's name (the loader reads it when a template
    is asked for), so the [try] never reaches its [except] and [env] is
    never [None]: the value the handlers' [env is None] tests see. *)
Definition env_initialised : bool := true.

(** The same block of ppt_service_pptx.py (lines 38-43). *)
Definition pptx_env_initialised : bool := true.

(** The example of a page: the JSON text of its [<pre>] block. *)
Definition page_example (open close page : pystr) : option json := between open close page ≫= json_loads.

(** ** Theorems *)

(** The index pages document the services as they are: every
    endpoint and link a page names is routed by its service to a handler
    with the method it names (generate and health, no 404 or 405), and
    the example request of each page is JSON the service accepts: it
    passes every check of the generate handler, the simple and
    python-pptx services build its deck, and the templated service hands
    it to the renderer with the template [lecture.md.jinja], whose
    failure is the only way it can still be refused. *)
Theorem index_pages_document_routes :
  map (fun mp => ppt_dispatch simple_download_rule mp.1 mp.2) (endpoint_mentions simple_index_html) =
    [PHandler PGenerate; PHandler PHealth] /\
  map (fun mp => ppt_dispatch tpl_download_rule mp.1 mp.2) (endpoint_mentions tpl_index_html) =
    [PHandler PHealth; PHandler PGenerate] /\
  map (fun mp => ppt_dispatch pptx_download_rule mp.1 mp.2) (endpoint_mentions pptx_index_html) =
    [PHandler PGenerate; PHandler PHealth] /\
  (exists j q deck, page_example (lit "<pre>") (lit "</pre>") simple_index_html = Some j /\
     ppt_request_of_json j = Some (Some q) /\ SimpleFiles.request_deck (Some q) = inr deck) /\
  (exists j q dk, page_example (lit "<pre>") (lit "</pre>") pptx_index_html = Some j /\
     ppt_request_of_json j = Some (Some q) /\ EditableFiles.request_deck (Some q) = inr (Some dk)) /\
  (exists j q, page_example (lit "<pre><code>") (lit "</code></pre>") tpl_index_html = Some j /\
     tpl_request_of_json j = Some (Some q) /\ TemplatedDeck.tq_template q = Some (lit "lecture.md.jinja") /\
     forall render today,
       (exists td, TemplatedFiles.request_td true render (Some q) today = inr td) \/
       (exists e, TemplatedFiles.request_td true render (Some q) today = inl (TemplatedDeck.TplRenderFailed e))).
Proof.
  split; [vm_compute; reflexivity|]. split; [vm_compute; reflexivity|]. split; [vm_compute; reflexivity|].
  split; [vm_compute; by do 3 eexists|]. split; [vm_compute; by do 3 eexists|].
  vm_compute. do 2 eexists. split; [reflexivity|]. split; [reflexivity|]. split; [reflexivity|].
  intros render today. destruct (render _ _); eauto.
Qed.

(** C21: the simple service starts without its output folder and then
    fails every request.  When [static/pptx] is missing and cannot be
    made, [ensure_directories] only logs the error: the service listens,
    and every [POST /api/generate-ppt] leaves the disk as it was and
    answers an error (the save into the missing folder fails), where the
    templated service, whose [ensure_directories] has no handler, stops
    at startup. *)
Theorem simple_serves_without_folder http_str save d :
  SimpleFiles.OUTPUT_FOLDER ∉ dirs (dk_host d) -> can_mkdir (dk_host d) SimpleFiles.OUTPUT_FOLDER = false ->
  simple_main d = (d, Serving (lit "ppt_service_simple.py") (dk_host d)) /\
  (forall b hex d' a, simple_http_generate http_str save d b hex = Some (d', a) -> d' = d /\ a.1 <> 200) /\
  (can_mkdir (dk_host d) TemplatedFiles.PPTX_FOLDER = false -> exists e, tpl_main d = (d, Raised e)).
Proof.
  intros Hnot Hc.
  assert (SimpleFiles.ensure_directories d = d) as Hd1.
  { unfold SimpleFiles.ensure_directories, makedirs_logged, makedirs.
    rewrite bool_decide_eq_false_2 by done. by rewrite Hc. }
  split; [unfold simple_main; by rewrite Hd1|]. split.
  - intros b hex d' a H. unfold simple_http_generate in H. destruct (request_json None b) as [e|j].
    + injection H as <- <-. rewrite Hd1. split; [done|]. cbn. lia.
    + apply bind_Some in H as (data & _ & H). unfold SimpleFiles.generate_ppt_disk in H. rewrite Hd1 in H.
      assert (saved_in d SimpleFiles.OUTPUT_FOLDER save = fun _ => None) as Hs
        by (unfold saved_in; by rewrite bool_decide_eq_false_2).
      rewrite Hs in H. injection H as Hd' Ha. split; [rewrite <- Hd'; by destruct (SimpleFiles.request_deck data)|].
      intros H200. destruct a as [st body]. cbn in H200. subst st.
      apply simple_response_200 in Ha as (f & Hf & _).
      rewrite SimpleFilesFacts.generate_ppt_request_deck in Hf.
      destruct (SimpleFiles.request_deck data) as [r|deck] eqn:Er.
      * subst r. apply SimpleFilesFacts.request_deck_error in Er. done.
      * by unfold SimpleDeck.generate_ppt_simple in Hf.
  - intros Hc'. unfold tpl_main, TemplatedFiles.ensure_directories. cbn [TemplatedFiles.ensure_dirs].
    destruct (makedirs (dk_host d) TemplatedFiles.UPLOAD_FOLDER) as [e|h] eqn:Hu; [by exists e|].
    cbn [TemplatedFiles.ensure_dirs]. unfold makedirs at 1.
    assert ((TemplatedFiles.PPTX_FOLDER ∉ dirs (dk_host (with_host d h))) /\
            can_mkdir (dk_host (with_host d h)) TemplatedFiles.PPTX_FOLDER = false) as [Hn2 Hc2].
    { unfold makedirs in Hu. cbn [with_host dk_host].
      case_bool_decide; [injection Hu as <-; by split|].
      destruct (can_mkdir (dk_host d) TemplatedFiles.UPLOAD_FOLDER); [|done]. injection Hu as <-. cbn [set_dirs dirs can_mkdir].
      split; [|done]. rewrite not_elem_of_cons. split; [|done]. by vm_compute. }
    rewrite bool_decide_eq_false_2 by done. rewrite Hc2. by eexists.
Qed.

(** A host where no folder exists or can be made. *)
Definition locked_disk : disk :=
  {| dk_host := {| version_info := [3; 11; 4]; pip_runs := true; modules := []; installable := fun _ => None;
                   requirements_ok := false; requirements := []; dirs := []; can_mkdir := fun _ => false |};
     dk_files := ∅ |}.

Lemma simple_serves_without_folder_witness :
  (SimpleFiles.OUTPUT_FOLDER ∉ dirs (dk_host locked_disk)) /\
  can_mkdir (dk_host locked_disk) SimpleFiles.OUTPUT_FOLDER = false /\
  simple_main locked_disk = (locked_disk, Serving (lit "ppt_service_simple.py") (dk_host locked_disk)) /\
  (forall b hex d' a, simple_http_generate (fun _ => []) (fun _ => Some (4096, [80; 75; 3; 4])) locked_disk b hex =
     Some (d', a) -> d' = locked_disk /\ a.1 <> 200) /\
  (can_mkdir (dk_host locked_disk) TemplatedFiles.PPTX_FOLDER = false -> exists e, tpl_main locked_disk = (locked_disk, Raised e)).
Proof.
  assert (SimpleFiles.OUTPUT_FOLDER ∉ dirs (dk_host locked_disk)) as H1 by apply not_elem_of_nil.
  assert (can_mkdir (dk_host locked_disk) SimpleFiles.OUTPUT_FOLDER = false) as H2 by reflexivity.
  split; [exact H1|split; [exact H2|]].
  exact (simple_serves_without_folder (fun _ => []) (fun _ => Some (4096, [80; 75; 3; 4])) locked_disk H1 H2).
Defined.

(** With the environment the modules create, the handlers' "模板环境未初始化"
    branch is never taken. *)
Lemma no_environment_unreachable save_t save_e render data data' today hex :
  TemplatedDeck.generate_ppt save_t env_initialised render data today hex <> TemplatedDeck.TplNoEnvironment /\
  EditableDeck.generate_ppt save_e pptx_env_initialised data' hex <> EditableDeck.PxNoEnvironment.
Proof.
  split.
  - rewrite TemplatedFilesFacts.generate_ppt_request_td. unfold env_initialised.
    destruct (TemplatedFiles.request_td true render data today) as [r|td] eqn:E; [|by destruct (TemplatedDeck.generate_ppt_from_content _ _)].
    intros ->. revert E. unfold TemplatedFiles.request_td. cbn [negb]. destruct data as [d|]; [|done].
    destruct (TemplatedDeck.tq_title d), (TemplatedDeck.tq_content d) as [[[|]|]|]; try done.
    cbn zeta. by destruct (render _ _).
  - rewrite EditableFilesFacts.editable_generate_ppt_request_deck. unfold pptx_env_initialised. cbn [negb].
    destruct (EditableFiles.request_deck data') as [r|[dk|]] eqn:E.
    + intros ->. revert E. unfold EditableFiles.request_deck. destruct data' as [d|]; [|done].
      by destruct (SimpleDeck.pq_title d), (SimpleDeck.pq_content d) as [[[|]|]|].
    + destruct (save_e dk) as [[size header]|]; [|done]. by destruct (size <? 1000), (bool_decide (header = [80; 75; 3; 4])).
    + done.
Qed.
